(** * SIRI-VM feed pipeline of the bus tracker: embedding and properties

    The development follows the two feed services of the repository:
    - [bods-api/app]: the synthetic feed ([main.py], [xml_generator.py],
      [models.py]);
    - [api/main.py]: the feed backed by the [vehicle_positions] table.

    Python values are embedded shallowly: [str] as [string], [int] as [Z],
    [Optional[T]] as [option T], lists as [list], pydantic models as
    records, exceptions as an error monad, [xml.etree.ElementTree]
    elements as a tree type. *)

From Stdlib Require Import ZArith List String Ascii Bool Lia.
From Stdlib Require Import Sorting.Permutation Sorting.Sorted.
From Stdlib Require Import Floats.SpecFloat.
Import ListNotations.
Set Warnings "-register-all".
Open Scope string_scope.
Open Scope Z_scope.

(* ================================================================== *)
(** * Python primitives *)
(* ================================================================== *)

Module Py.

(** Truthiness of a [str]: the empty string is falsy. *)
Definition truthy_str (s : string) : bool :=
  match s with
  | EmptyString => false
  | String _ _ => true
  end.

(** Truthiness of an [Optional[str]]: [None] and [""] are falsy. *)
Definition truthy_opt_str (o : option string) : bool :=
  match o with
  | None => false
  | Some s => truthy_str s
  end.

(** Truthiness of an [int]: zero is falsy. *)
Definition truthy_int (n : Z) : bool := negb (n =? 0).

(** [l[:n]] for any integer [n]: a negative bound counts from the end,
    and bounds are clamped to the list. *)
Definition slice_to {A : Type} (l : list A) (n : Z) : list A :=
  if n <? 0
  then firstn (Z.to_nat (Z.max 0 (Z.of_nat (List.length l) + n))) l
  else firstn (Z.to_nat n) l.

(** [s[:-k]] on strings, [k > 0]. *)
Fixpoint str_firstn (n : nat) (s : string) : string :=
  match n, s with
  | O, _ => EmptyString
  | S n', String c s' => String c (str_firstn n' s')
  | S _, EmptyString => EmptyString
  end.

Definition str_slice_to (s : string) (n : Z) : string :=
  if n <? 0
  then str_firstn (Z.to_nat (Z.max 0 (Z.of_nat (String.length s) + n))) s
  else str_firstn (Z.to_nat n) s.

(** Decimal digits. *)
Definition digit (d : Z) : ascii := ascii_of_nat (48 + Z.to_nat d).

Definition is_digit (c : ascii) : bool :=
  let n := nat_of_ascii c in (48 <=? n)%nat && (n <=? 57)%nat.

(** [str(n)] for a non-negative [int]: the digits are produced from the
    least significant one; the fuel bounds the number of digits. *)
Fixpoint dec_fuel (fuel : nat) (n : Z) (acc : string) : string :=
  match fuel with
  | O => acc
  | S fuel' =>
      let acc' := String (digit (n mod 10)) acc in
      if n <? 10 then acc' else dec_fuel fuel' (n / 10) acc'
  end.

Definition dec_nonneg (n : Z) : string :=
  dec_fuel (S (Z.to_nat (Z.log2 n))) n EmptyString.

(** [str(n)] for any [int]. *)
Definition str_int (n : Z) : string :=
  if n <? 0 then String "-" (dec_nonneg (- n)) else dec_nonneg n.

Fixpoint zeros (k : nat) : string :=
  match k with
  | O => EmptyString
  | S k' => String "0" (zeros k')
  end.

(** ["%0wd" % n] for a non-negative [n]: left-padding with zeros up to
    width [w]; a longer number is not cut. *)
Definition zpad (w : nat) (n : Z) : string :=
  let s := dec_nonneg n in
  zeros (w - String.length s) ++ s.

(** The [k] low decimal digits of [n], most significant first, in front of
    [acc]; and the powers of ten that bound them. *)
Fixpoint fixed (k : nat) (n : Z) (acc : string) : string :=
  match k with
  | O => acc
  | S k' => fixed k' (n / 10) (String (digit (n mod 10)) acc)
  end.

Fixpoint pow10 (k : nat) : Z :=
  match k with
  | O => 1
  | S k' => 10 * pow10 k'
  end.

End Py.

(* ================================================================== *)
(** * [datetime] *)
(* ================================================================== *)

Module Datetime.

(** A [datetime] is its wall-clock reading, in microseconds counted from
    1970-01-01T00:00:00 on the proleptic Gregorian calendar, and its
    [tzinfo]: [None] for a naive value, the UTC offset in seconds for an
    aware one.  The calendar fields are functions of the reading. *)
Record datetime : Type := mk {
  wall : Z;
  tzinfo : option Z
}.

Definition usec_per_sec : Z := 1000000.
Definition usec_per_day : Z := 86400 * usec_per_sec.

Definition days (dt : datetime) : Z := wall dt / usec_per_day.
Definition tod (dt : datetime) : Z := wall dt mod usec_per_day.

Definition hour (dt : datetime) : Z := tod dt / (3600 * usec_per_sec).
Definition minute (dt : datetime) : Z := (tod dt / (60 * usec_per_sec)) mod 60.
Definition second (dt : datetime) : Z := (tod dt / usec_per_sec) mod 60.
Definition microsecond (dt : datetime) : Z := tod dt mod usec_per_sec.

(** Day number to civil date (proleptic Gregorian), with years counted
    from March inside 400-year eras. *)
Definition doe_of (z : Z) : Z := (z + 719468) mod 146097.
Definition era_of (z : Z) : Z := (z + 719468) / 146097.
Definition yoe_of (doe : Z) : Z :=
  (doe - doe / 1460 + doe / 36524 - doe / 146096) / 365.
Definition doy_of (doe : Z) : Z :=
  let yoe := yoe_of doe in doe - (365 * yoe + yoe / 4 - yoe / 100).
Definition mp_of (doy : Z) : Z := (5 * doy + 2) / 153.

Definition month_of_days (z : Z) : Z :=
  let mp := mp_of (doy_of (doe_of z)) in
  if mp <? 10 then mp + 3 else mp - 9.
Definition day_of_days (z : Z) : Z :=
  let doy := doy_of (doe_of z) in
  doy - (153 * mp_of doy + 2) / 5 + 1.
Definition year_of_days (z : Z) : Z :=
  let y := yoe_of (doe_of z) + era_of z * 400 in
  if month_of_days z <=? 2 then y + 1 else y.

Definition year (dt : datetime) : Z := year_of_days (days dt).
Definition month (dt : datetime) : Z := month_of_days (days dt).
Definition day (dt : datetime) : Z := day_of_days (days dt).

(** Civil date to day number, the inverse direction. *)
Definition days_from_civil (y m d : Z) : Z :=
  let y' := if m <=? 2 then y - 1 else y in
  let era := y' / 400 in
  let yoe := y' mod 400 in
  let mp := if m <=? 2 then m + 9 else m - 3 in
  let doy := (153 * mp + 2) / 5 + d - 1 in
  let doe := yoe * 365 + yoe / 4 - yoe / 100 + doy in
  era * 146097 + doe - 719468.

(** [datetime(y, m, d, H, M, S, us)], naive. *)
Definition of_fields (y m d H M S us : Z) : datetime :=
  mk (((days_from_civil y m d * 24 + H) * 60 + M) * 60 * usec_per_sec
      + S * usec_per_sec + us) None.

(** [dt + timedelta(seconds=s)]. *)
Definition add_seconds (dt : datetime) (s : Z) : datetime :=
  mk (wall dt + s * usec_per_sec) (tzinfo dt).

(** The instant on the UTC time line, in microseconds; a naive value is
    read as UTC (what the table stores and what [utcnow] returns). *)
Definition instant (dt : datetime) : Z :=
  match tzinfo dt with
  | None => wall dt
  | Some off => wall dt - off * usec_per_sec
  end.

(** [dt.strftime('%Y-%m-%dT%H:%M:%S.%f')].  [%Y] is the year in decimal as
    the C library prints it (four digits from year 1000 on); the other
    fields are zero-padded to their width. *)
Definition strftime_iso_f (dt : datetime) : string :=
  Py.dec_nonneg (year dt) ++ "-" ++ Py.zpad 2 (month dt) ++ "-" ++
  Py.zpad 2 (day dt) ++ "T" ++ Py.zpad 2 (hour dt) ++ ":" ++
  Py.zpad 2 (minute dt) ++ ":" ++ Py.zpad 2 (second dt) ++ "." ++
  Py.zpad 6 (microsecond dt).

(** [dt.isoformat()]: ["%04d-%02d-%02dT%02d:%02d:%02d"], the microseconds
    only when they are not zero, then the UTC offset of an aware value as
    [+HH:MM] (and [:SS] when the offset has seconds). *)
Definition iso_offset (off : Z) : string :=
  let a := Z.abs off in
  (if off <? 0 then "-" else "+") ++
  Py.zpad 2 (a / 3600) ++ ":" ++ Py.zpad 2 ((a / 60) mod 60) ++
  (if a mod 60 =? 0 then "" else ":" ++ Py.zpad 2 (a mod 60)).

Definition isoformat (dt : datetime) : string :=
  Py.zpad 4 (year dt) ++ "-" ++ Py.zpad 2 (month dt) ++ "-" ++
  Py.zpad 2 (day dt) ++ "T" ++ Py.zpad 2 (hour dt) ++ ":" ++
  Py.zpad 2 (minute dt) ++ ":" ++ Py.zpad 2 (second dt) ++
  (if microsecond dt =? 0 then "" else "." ++ Py.zpad 6 (microsecond dt)) ++
  match tzinfo dt with
  | None => ""
  | Some off => iso_offset off
  end.

(** The text form [YYYY-MM-DDTHH:MM:SS.mmmZ]: 24 characters, digits at the
    letter positions, the separators and the final [Z] in place. *)
Definition is_ms_z (s : string) : bool :=
  match list_ascii_of_string s with
  | [y1; y2; y3; y4; s1; m1; m2; s2; d1; d2; t; h1; h2; s3; n1; n2; s4;
     c1; c2; s5; f1; f2; f3; z] =>
      forallb Py.is_digit
        [y1; y2; y3; y4; m1; m2; d1; d2; h1; h2; n1; n2; c1; c2; f1; f2; f3]
      && Ascii.eqb s1 "-" && Ascii.eqb s2 "-" && Ascii.eqb t "T"
      && Ascii.eqb s3 ":" && Ascii.eqb s4 ":" && Ascii.eqb s5 "."
      && Ascii.eqb z "Z"
  | _ => false
  end.

(** The years in which [%Y] prints four digits. *)
Definition four_digit_year (dt : datetime) : Prop :=
  1000 <= year dt <= 9999.

End Datetime.

(* ================================================================== *)
(** * Exceptions *)
(* ================================================================== *)

Module Exc.

(** The exceptions the feed paths can raise. *)
Inductive exn : Type :=
| OperationalError   (* psycopg2: the store cannot be reached *)
| DatabaseError      (* psycopg2: the query fails *)
| ValidationError    (* pydantic: a required field is None *)
| ExpatError.        (* minidom: the serialized text is not XML *)

Inductive exc (A : Type) : Type :=
| Ok (a : A)
| Raise (e : exn).
Arguments Ok {A} a.
Arguments Raise {A} e.

Definition bind {A B : Type} (m : exc A) (k : A -> exc B) : exc B :=
  match m with
  | Ok a => k a
  | Raise e => Raise e
  end.

(** [try: m  except Exception as e: h e]. *)
Definition try_except {A : Type} (m : exc A) (h : exn -> A) : A :=
  match m with
  | Ok a => a
  | Raise e => h e
  end.

(** A loop body run over a list, stopping at the first exception. *)
Fixpoint mapM {A B : Type} (f : A -> exc B) (l : list A) : exc (list B) :=
  match l with
  | [] => Ok []
  | a :: l' =>
      bind (f a) (fun b => bind (mapM f l') (fun bs => Ok (b :: bs)))
  end.

End Exc.

Notation "x <- m ;; k" := (Exc.bind m (fun x => k))
  (at level 61, m at next level, right associativity).

(* ================================================================== *)
(** * [xml.etree.ElementTree] elements *)
(* ================================================================== *)

Module Xml.

(** An element: tag, attributes in insertion order, text, children in
    insertion order. *)
Inductive Element : Type :=
| Elem (tag : string) (attrib : list (string * string))
       (text : option string) (children : list Element).

Definition tag (e : Element) : string :=
  match e with Elem t _ _ _ => t end.
Definition attrib (e : Element) : list (string * string) :=
  match e with Elem _ a _ _ => a end.
Definition text (e : Element) : option string :=
  match e with Elem _ _ x _ => x end.
Definition children (e : Element) : list Element :=
  match e with Elem _ _ _ c => c end.

(** [ET.SubElement(parent, tag).text = s], as the child it appends. *)
Definition leaf (t : string) (s : string) : Element := Elem t [] (Some s) [].

(** [ET.SubElement(parent, tag)] followed by appends to it. *)
Definition node (t : string) (cs : list Element) : Element := Elem t [] None cs.

(** [if cond: ET.SubElement(...)]: zero or one child. *)
Definition when (cond : bool) (e : Element) : list Element :=
  if cond then [e] else [].

(** The element and everything below it, in document order. *)
Fixpoint descendants (e : Element) : list Element :=
  match e with
  | Elem _ _ _ cs =>
      e :: (fix go (l : list Element) : list Element :=
              match l with
              | [] => []
              | c :: l' => (descendants c ++ go l')%list
              end) cs
  end.

(** [parent.findall(tag)]: the direct children with that tag. *)
Definition findall (t : string) (e : Element) : list Element :=
  filter (fun c => String.eqb (tag c) t) (children e).

(** [parent.find(tag)]: the first of them. *)
Definition find (t : string) (e : Element) : option Element :=
  List.find (fun c => String.eqb (tag c) t) (children e).

(** [parent.findtext(tag)]. *)
Definition findtext (t : string) (e : Element) : option string :=
  match find t e with
  | Some c => text c
  | None => None
  end.

(** The elements of the document with the given tag. *)
Definition elements_named (t : string) (e : Element) : list Element :=
  filter (fun c => String.eqb (tag c) t) (descendants e).

(** An element that would be written as [<Tag />]: no text, no child. *)
Definition is_empty (e : Element) : bool :=
  match children e, text e with
  | [], None => true
  | [], Some s => negb (Py.truthy_str s)
  | _ :: _, _ => false
  end.

(** The characters an XML 1.0 document may hold, on one-byte characters:
    tab, line feed, carriage return and everything from the space on. *)
Definition char_ok (c : ascii) : bool :=
  let n := nat_of_ascii c in
  (32 <=? n)%nat || (n =? 9)%nat || (n =? 10)%nat || (n =? 13)%nat.

Definition text_ok (s : string) : bool :=
  forallb char_ok (list_ascii_of_string s).

Definition element_ok (e : Element) : bool :=
  match text e with Some s => text_ok s | None => true end
  && forallb (fun kv => text_ok (snd kv)) (attrib e).

(** [minidom.parseString(ET.tostring(root, encoding='unicode'))
       .toprettyxml(indent="  ")].
    [tostring] escapes the markup characters and writes everything else as
    it is; the parser then rejects a character XML does not allow with
    [ExpatError].  The document returned is represented by its element
    tree: the indentation the pretty-printer adds is a function of it. *)
Definition toprettyxml (root : Element) : Exc.exc Element :=
  if forallb element_ok (descendants root)
  then Exc.Ok root
  else Exc.Raise Exc.ExpatError.

End Xml.

(* ================================================================== *)
(** * Floats and the clock *)
(* ================================================================== *)

Module Float.

(** A Python [float]: an IEEE 754 binary64 value. *)
Definition float : Type := spec_float.

(** Truthiness: both zeros are falsy, everything else (NaN too) is truthy. *)
Definition truthy (f : float) : bool :=
  match f with
  | S754_zero _ => false
  | _ => true
  end.

(** [str(f)].  The shortest-digits printing of a finite non-zero value is
    the interpreter's ([float_repr_style]); it is a parameter here. *)
Definition str (repr_finite : bool -> positive -> Z -> string) (f : float)
  : string :=
  match f with
  | S754_zero false => "0.0"
  | S754_zero true => "-0.0"
  | S754_infinity false => "inf"
  | S754_infinity true => "-inf"
  | S754_nan => "nan"
  | S754_finite s m e => repr_finite s m e
  end.

End Float.

Module Clock.

(** The system clock as the sequence of its successive readings (UTC wall
    time in microseconds) and the number of readings taken so far. *)
Record Clock : Type := mk {
  readings : nat -> Z;
  calls : nat
}.

Definition tick (c : Clock) : Clock := mk (readings c) (S (calls c)).

(** [datetime.utcnow()]: a naive value. *)
Definition utcnow (c : Clock) : Datetime.datetime * Clock :=
  (Datetime.mk (readings c (calls c)) None, tick c).

(** [datetime.now(timezone.utc)]: an aware value at offset zero. *)
Definition now_utc (c : Clock) : Datetime.datetime * Clock :=
  (Datetime.mk (readings c (calls c)) (Some 0), tick c).

End Clock.

(** What a request handler hands back to the framework. *)
Module Http.

Inductive Result : Type :=
| Response (status_code : Z) (content : Xml.Element)
| HTTPException (status_code : Z).

Definition status (r : Result) : Z :=
  match r with
  | Response s _ => s
  | HTTPException s => s
  end.

Definition document (r : Result) : option Xml.Element :=
  match r with
  | Response _ d => Some d
  | HTTPException _ => None
  end.

End Http.

(* ================================================================== *)
(** * bods-api: the synthetic feed *)
(* ================================================================== *)

Module Bods.

Import Datetime.

(** [models.VehicleData]. *)
Record VehicleData : Type := mkVehicleData {
  vehicle_ref : string;
  line_ref : string;
  direction_ref : string;
  published_line_name : string;
  operator_ref : string;
  origin_ref : string;
  origin_name : string;
  destination_ref : string;
  destination_name : option string;
  origin_aimed_departure_time : option datetime;
  destination_aimed_arrival_time : option datetime;
  latitude : Float.float;
  longitude : Float.float;
  bearing : Float.float;
  velocity : option Float.float;
  occupancy : option string;
  block_ref : string;
  vehicle_journey_ref : string;
  recorded_at_time : datetime;
  valid_until_time : datetime
}.

(** [xml_generator.format_datetime]:
    [dt.strftime('%Y-%m-%dT%H:%M:%S.%f')[:-3] + 'Z']. *)
Definition format_datetime (dt : datetime) : string :=
  Py.str_slice_to (strftime_iso_f dt) (-3) ++ "Z".

Definition is_some {A : Type} (o : option A) : bool :=
  match o with
  | None => false
  | Some _ => true
  end.

Definition opt_str (o : option string) : string :=
  match o with
  | None => ""
  | Some s => s
  end.

Section Encoder.

(** The interpreter's printing of finite non-zero floats, and the host's
    UTC offset (in seconds) at a naive wall-clock reading, which
    [timestamp()] applies to a naive value. *)
Variable repr_finite : bool -> positive -> Z -> string.
Variable local_utcoffset : Z -> Z.

Definition str_float : Float.float -> string := Float.str repr_finite.

(** [int(dt.timestamp())]. *)
Definition int_timestamp (dt : datetime) : Z :=
  match tzinfo dt with
  | None =>
      Z.quot (wall dt - local_utcoffset (wall dt) * usec_per_sec) usec_per_sec
  | Some _ => Z.quot (instant dt) usec_per_sec
  end.

(** [xml_generator.create_vehicle_activity_xml].  A [datetime] object is
    always truthy, so [if vehicle.origin_aimed_departure_time:] tests for
    [None] only; [velocity] is tested with [is not None]. *)
Definition create_vehicle_activity_xml (vehicle : VehicleData)
  (item_id : string) : Xml.Element :=
  Xml.node "VehicleActivity"
    ([Xml.leaf "RecordedAtTime" (format_datetime (recorded_at_time vehicle));
      Xml.leaf "ValidUntilTime" (format_datetime (valid_until_time vehicle))]
     ++ Xml.when (Py.truthy_str item_id) (Xml.leaf "ItemIdentifier" item_id)
     ++ [Xml.node "MonitoredVehicleJourney"
          ([Xml.leaf "LineRef" (line_ref vehicle);
            Xml.leaf "DirectionRef" (direction_ref vehicle);
            Xml.leaf "PublishedLineName" (published_line_name vehicle);
            Xml.leaf "OperatorRef" (operator_ref vehicle);
            Xml.leaf "OriginRef" (origin_ref vehicle);
            Xml.leaf "OriginName" (origin_name vehicle);
            Xml.leaf "DestinationRef" (destination_ref vehicle)]
           ++ Xml.when (Py.truthy_opt_str (destination_name vehicle))
                (Xml.leaf "DestinationName" (opt_str (destination_name vehicle)))
           ++ match origin_aimed_departure_time vehicle with
              | Some t => [Xml.leaf "OriginAimedDepartureTime" (format_datetime t)]
              | None => []
              end
           ++ match destination_aimed_arrival_time vehicle with
              | Some t =>
                  [Xml.leaf "DestinationAimedArrivalTime" (format_datetime t)]
              | None => []
              end
           ++ [Xml.node "VehicleLocation"
                 [Xml.leaf "Longitude" (str_float (longitude vehicle));
                  Xml.leaf "Latitude" (str_float (latitude vehicle))];
               Xml.leaf "Bearing" (str_float (bearing vehicle))]
           ++ match velocity vehicle with
              | Some f => [Xml.leaf "Velocity" (str_float f)]
              | None => []
              end
           ++ Xml.when (Py.truthy_opt_str (occupancy vehicle))
                (Xml.leaf "Occupancy" (opt_str (occupancy vehicle)))
           ++ [Xml.leaf "BlockRef" (block_ref vehicle);
               Xml.leaf "VehicleJourneyRef" (vehicle_journey_ref vehicle);
               Xml.leaf "VehicleRef" (vehicle_ref vehicle)])%list])%list.

(** The loop [for i, vehicle in enumerate(vehicles)]: one clock reading per
    vehicle for its [item_id], [i] counted from the given index. *)
Fixpoint vehicle_activities (clk : Clock.Clock) (i : Z)
  (vehicles : list VehicleData) : list Xml.Element :=
  match vehicles with
  | [] => []
  | vehicle :: rest =>
      let (t, clk') := Clock.utcnow clk in
      let item_id :=
        "MIDL_" ++ Py.str_int (i + 1) ++ "_" ++ Py.str_int (int_timestamp t) in
      create_vehicle_activity_xml vehicle item_id
        :: vehicle_activities clk' (i + 1) rest
  end.

Definition siri_attrib : list (string * string) :=
  [("version", "2.0");
   ("xmlns", "http://www.siri.org.uk/siri");
   ("xmlns:xsi", "http://www.w3.org/2001/XMLSchema-instance");
   ("xsi:schemaLocation",
    "http://www.siri.org.uk/siri http://www.siri.org.uk/schema/2.0/xsd/siri.xsd")].

(** The element tree [create_siri_vehicle_monitoring_response] builds. *)
Definition siri_tree (clk : Clock.Clock) (vehicles : list VehicleData)
  (producer_ref : string) : Xml.Element :=
  let (t1, clk1) := Clock.utcnow clk in
  let (t2, clk2) := Clock.utcnow clk1 in
  let (t3, clk3) := Clock.utcnow clk2 in
  Xml.Elem "Siri" siri_attrib None
    [Xml.node "ServiceDelivery"
       [Xml.leaf "ResponseTimestamp" (format_datetime t1);
        Xml.leaf "ProducerRef" producer_ref;
        Xml.node "VehicleMonitoringDelivery"
          ([Xml.leaf "ResponseTimestamp" (format_datetime t2);
            Xml.leaf "ProducerRef" producer_ref;
            Xml.leaf "ValidUntilTime" (format_datetime (add_seconds t3 30))]
           ++ vehicle_activities clk3 0 vehicles)%list]].

(** [xml_generator.create_siri_vehicle_monitoring_response]. *)
Definition create_siri_vehicle_monitoring_response (clk : Clock.Clock)
  (vehicles : list VehicleData) (producer_ref : string)
  : Exc.exc Xml.Element :=
  Xml.toprettyxml (siri_tree clk vehicles producer_ref).

(** The query parameters of [/vehicle-monitoring]. *)
Record Criteria : Type := mkCriteria {
  LineRef : option string;
  OperatorRef : option string;
  VehicleRef : option string;
  MaximumNumberOfVehicles : option Z
}.

(** The filter stage of [main.vehicle_monitoring]: the four [if] blocks
    between the snapshot and the encoder. *)
Definition apply_filters (c : Criteria) (vehicles_data : list VehicleData)
  : list VehicleData :=
  let vehicles_data :=
    if Py.truthy_opt_str (LineRef c)
    then filter (fun v => String.eqb (line_ref v) (opt_str (LineRef c)))
           vehicles_data
    else vehicles_data in
  let vehicles_data :=
    if Py.truthy_opt_str (OperatorRef c)
    then filter (fun v => String.eqb (operator_ref v) (opt_str (OperatorRef c)))
           vehicles_data
    else vehicles_data in
  let vehicles_data :=
    if Py.truthy_opt_str (VehicleRef c)
    then filter (fun v => String.eqb (vehicle_ref v) (opt_str (VehicleRef c)))
           vehicles_data
    else vehicles_data in
  match MaximumNumberOfVehicles c with
  | Some n =>
      if Py.truthy_int n then Py.slice_to vehicles_data n else vehicles_data
  | None => vehicles_data
  end.

(** [main.vehicle_monitoring], from the generator's snapshot on: filter,
    encode, and [except Exception] turned into a 500. *)
Definition vehicle_monitoring (clk : Clock.Clock)
  (snapshot : list VehicleData) (c : Criteria) : Http.Result :=
  Exc.try_except
    (xml_response <-
       create_siri_vehicle_monitoring_response clk
         (apply_filters c snapshot) "MIDLANDBUS" ;;
     Exc.Ok (Http.Response 200 xml_response))
    (fun _ => Http.HTTPException 500).

End Encoder.

End Bods.

(* ================================================================== *)
(** * api: the feed read from the position table *)
(* ================================================================== *)

Module Live.

Import Datetime.

(** A row of [vehicle_positions] as [RealDictCursor] returns it: every
    column of the table is a key; a SQL [NULL] is [None].
    [recorded_at_time] is the column the query compares and orders by (a
    [NULL] there never passes the [WHERE]).  Numeric columns are taken
    after their conversion to [float]. *)
Record Row : Type := mkRow {
  vehicle_ref : option string;
  line_ref : option string;
  direction_ref : option string;
  published_line_name : option string;
  operator_ref : option string;
  origin_ref : option string;
  origin_name : option string;
  destination_ref : option string;
  destination_name : option string;
  origin_aimed_departure_time : option datetime;
  destination_aimed_arrival_time : option datetime;
  longitude : option Float.float;
  latitude : option Float.float;
  bearing : option Float.float;
  velocity : option Float.float;
  occupancy : option string;
  block_ref : option string;
  vehicle_journey_ref : option string;
  recorded_at_time : datetime;
  valid_until_time : option datetime;
  item_identifier : option string
}.

(** The position store as a request sees it: whether connecting or
    querying fails, the rows of the table, and the server's [NOW()]. *)
Record Store : Type := mkStore {
  connect_fails : bool;
  execute_fails : bool;
  table : list Row;
  db_now : Z
}.

(** [INTERVAL '5 minutes'], in microseconds. *)
Definition freshness_window : Z := 5 * 60 * usec_per_sec.

(** [WHERE recorded_at_time > NOW() - INTERVAL '5 minutes']. *)
Definition is_fresh (now : Z) (r : Row) : bool :=
  now - freshness_window <? instant (recorded_at_time r).

(** [ORDER BY recorded_at_time DESC], as an insertion sort that keeps rows
    of equal time in table order (SQL leaves their order open). *)
Fixpoint insert_desc (r : Row) (l : list Row) : list Row :=
  match l with
  | [] => [r]
  | x :: l' =>
      if instant (recorded_at_time x) <? instant (recorded_at_time r)
      then r :: l
      else x :: insert_desc r l'
  end.

Fixpoint order_by_recorded_desc (l : list Row) : list Row :=
  match l with
  | [] => []
  | r :: l' => insert_desc r (order_by_recorded_desc l')
  end.

(** [get_db_connection()]: the connection gives access to the store. *)
Definition get_db_connection (st : Store) : Exc.exc Store :=
  if connect_fails st then Exc.Raise Exc.OperationalError else Exc.Ok st.

(** [cur.execute(SELECT ...); cur.fetchall()]. *)
Definition execute_fetchall (conn : Store) : Exc.exc (list Row) :=
  if execute_fails conn then Exc.Raise Exc.DatabaseError
  else Exc.Ok (order_by_recorded_desc (filter (is_fresh (db_now conn)) (table conn))).

(** [get_vehicle_data]: any exception of the [try] block gives [[]]. *)
Definition get_vehicle_data (st : Store) : list Row :=
  Exc.try_except
    (conn <- get_db_connection st ;; execute_fetchall conn)
    (fun _ => []).

(** The pydantic models of [api/main.py]. *)
Record VehicleLocation : Type := mkVehicleLocation {
  loc_longitude : Float.float;
  loc_latitude : Float.float
}.

Record MonitoredVehicleJourney : Type := mkMonitoredVehicleJourney {
  mvj_line_ref : string;
  mvj_direction_ref : string;
  mvj_published_line_name : string;
  mvj_operator_ref : string;
  mvj_origin_ref : string;
  mvj_origin_name : string;
  mvj_destination_ref : string;
  mvj_destination_name : option string;
  mvj_origin_aimed_departure_time : option datetime;
  mvj_destination_aimed_arrival_time : option datetime;
  mvj_vehicle_location : VehicleLocation;
  mvj_bearing : Float.float;
  mvj_velocity : option Float.float;
  mvj_occupancy : option string;
  mvj_block_ref : string;
  mvj_vehicle_journey_ref : string;
  mvj_vehicle_ref : string
}.

Record VehicleActivity : Type := mkVehicleActivity {
  va_recorded_at_time : datetime;
  va_valid_until_time : datetime;
  va_item_identifier : option string;
  monitored_vehicle_journey : MonitoredVehicleJourney
}.

Record VehicleMonitoringDelivery : Type := mkVehicleMonitoringDelivery {
  vmd_response_timestamp : datetime;
  vmd_producer_ref : string;
  vehicle_activities : list VehicleActivity
}.

Record ServiceDelivery : Type := mkServiceDelivery {
  response_timestamp : datetime;
  producer_ref : string;
  vehicle_monitoring_delivery : VehicleMonitoringDelivery
}.

(** Validation of a required field: [None] is rejected. *)
Definition required {A : Type} (o : option A) : Exc.exc A :=
  match o with
  | Some a => Exc.Ok a
  | None => Exc.Raise Exc.ValidationError
  end.

(** The body of the loop of [get_vehicle_monitoring]: the models are built
    innermost first, each constructor validating its required fields. *)
Definition build_activity (vehicle : Row) : Exc.exc VehicleActivity :=
  lon <- required (longitude vehicle) ;;
  lat <- required (latitude vehicle) ;;
  l <- required (line_ref vehicle) ;;
  d <- required (direction_ref vehicle) ;;
  p <- required (published_line_name vehicle) ;;
  o <- required (operator_ref vehicle) ;;
  orf <- required (origin_ref vehicle) ;;
  onm <- required (origin_name vehicle) ;;
  drf <- required (destination_ref vehicle) ;;
  b <- required (bearing vehicle) ;;
  blk <- required (block_ref vehicle) ;;
  vj <- required (vehicle_journey_ref vehicle) ;;
  vr <- required (vehicle_ref vehicle) ;;
  vu <- required (valid_until_time vehicle) ;;
  Exc.Ok (mkVehicleActivity (recorded_at_time vehicle) vu
            (item_identifier vehicle)
            (mkMonitoredVehicleJourney l d p o orf onm drf
               (destination_name vehicle)
               (origin_aimed_departure_time vehicle)
               (destination_aimed_arrival_time vehicle)
               (mkVehicleLocation lon lat) b
               (velocity vehicle) (occupancy vehicle) blk vj vr)).

Section Encoder.

Variable repr_finite : bool -> positive -> Z -> string.

Definition str_float : Float.float -> string := Float.str repr_finite.

(** The body of the [for activity in ...] loop of [create_siri_xml]. *)
Definition activity_xml (activity : VehicleActivity) : Xml.Element :=
  let j := monitored_vehicle_journey activity in
  Xml.node "VehicleActivity"
    ([Xml.leaf "RecordedAtTime" (isoformat (va_recorded_at_time activity));
      Xml.leaf "ValidUntilTime" (isoformat (va_valid_until_time activity))]
     ++ Xml.when (Py.truthy_opt_str (va_item_identifier activity))
          (Xml.leaf "ItemIdentifier" (Bods.opt_str (va_item_identifier activity)))
     ++ [Xml.node "MonitoredVehicleJourney"
          ([Xml.leaf "LineRef" (mvj_line_ref j);
            Xml.leaf "DirectionRef" (mvj_direction_ref j);
            Xml.leaf "PublishedLineName" (mvj_published_line_name j);
            Xml.leaf "OperatorRef" (mvj_operator_ref j);
            Xml.leaf "OriginRef" (mvj_origin_ref j);
            Xml.leaf "OriginName" (mvj_origin_name j);
            Xml.leaf "DestinationRef" (mvj_destination_ref j)]
           ++ Xml.when (Py.truthy_opt_str (mvj_destination_name j))
                (Xml.leaf "DestinationName" (Bods.opt_str (mvj_destination_name j)))
           ++ match mvj_origin_aimed_departure_time j with
              | Some t => [Xml.leaf "OriginAimedDepartureTime" (isoformat t)]
              | None => []
              end
           ++ match mvj_destination_aimed_arrival_time j with
              | Some t => [Xml.leaf "DestinationAimedArrivalTime" (isoformat t)]
              | None => []
              end
           ++ [Xml.node "VehicleLocation"
                 [Xml.leaf "Longitude"
                    (str_float (loc_longitude (mvj_vehicle_location j)));
                  Xml.leaf "Latitude"
                    (str_float (loc_latitude (mvj_vehicle_location j)))];
               Xml.leaf "Bearing" (str_float (mvj_bearing j))]
           ++ match mvj_velocity j with
              | Some f =>
                  Xml.when (Float.truthy f) (Xml.leaf "Velocity" (str_float f))
              | None => []
              end
           ++ Xml.when (Py.truthy_opt_str (mvj_occupancy j))
                (Xml.leaf "Occupancy" (Bods.opt_str (mvj_occupancy j)))
           ++ [Xml.leaf "BlockRef" (mvj_block_ref j);
               Xml.leaf "VehicleJourneyRef" (mvj_vehicle_journey_ref j);
               Xml.leaf "VehicleRef" (mvj_vehicle_ref j)])%list])%list.

(** The element tree [create_siri_xml] builds. *)
Definition siri_tree (service_delivery : ServiceDelivery) : Xml.Element :=
  let vmd := vehicle_monitoring_delivery service_delivery in
  Xml.Elem "Siri" Bods.siri_attrib None
    [Xml.node "ServiceDelivery"
       [Xml.leaf "ResponseTimestamp"
          (isoformat (response_timestamp service_delivery));
        Xml.leaf "ProducerRef" (producer_ref service_delivery);
        Xml.node "VehicleMonitoringDelivery"
          (Xml.leaf "ResponseTimestamp" (isoformat (vmd_response_timestamp vmd))
           :: map activity_xml (vehicle_activities vmd))]].

(** [create_siri_xml]. *)
Definition create_siri_xml (service_delivery : ServiceDelivery)
  : Exc.exc Xml.Element :=
  Xml.toprettyxml (siri_tree service_delivery).

(** The models of the response around the given activities: two readings
    of the clock, the envelope's first. *)
Definition make_service_delivery (clk : Clock.Clock)
  (activities : list VehicleActivity) : ServiceDelivery :=
  let (t1, clk1) := Clock.now_utc clk in
  let (t2, _) := Clock.now_utc clk1 in
  mkServiceDelivery t1 "TICKETER_TRACKER"
    (mkVehicleMonitoringDelivery t2 "TICKETER_TRACKER" activities).

(** [get_vehicle_monitoring], the handler of [/siri-vm]. *)
Definition get_vehicle_monitoring (st : Store) (clk : Clock.Clock)
  : Http.Result :=
  Exc.try_except
    (let vehicles := get_vehicle_data st in
     service_delivery <-
       match vehicles with
       | [] => Exc.Ok (make_service_delivery clk [])
       | _ :: _ =>
           vehicle_activities <- Exc.mapM build_activity vehicles ;;
           Exc.Ok (make_service_delivery clk vehicle_activities)
       end ;;
     xml_content <- create_siri_xml service_delivery ;;
     Exc.Ok (Http.Response 200 xml_content))
    (fun _ => Http.HTTPException 500).

End Encoder.

End Live.

(* ================================================================== *)
(** * Reading a document back *)
(* ================================================================== *)

Module Decoder.

Import Datetime.

Definition obind {A B : Type} (m : option A) (k : A -> option B) : option B :=
  match m with
  | Some a => k a
  | None => None
  end.

Notation "'let?' x ':=' m 'in' k" := (obind m (fun x => k))
  (at level 10, x name, m at level 100, k at level 200).

Fixpoint omap {A B : Type} (f : A -> option B) (l : list A) : option (list B) :=
  match l with
  | [] => Some []
  | a :: l' => let? b := f a in let? bs := omap f l' in Some (b :: bs)
  end.

(** Modelled from the spec: the value of a decimal digit, for the reading
    of datetime texts below. *)
Definition digit_value (c : ascii) : option Z :=
  if Py.is_digit c then Some (Z.of_nat (nat_of_ascii c) - 48) else None.

(** Modelled from the spec: the number a group of decimal digits writes. *)
Fixpoint number_acc (cs : list ascii) (acc : Z) : option Z :=
  match cs with
  | [] => Some acc
  | c :: cs' => let? d := digit_value c in number_acc cs' (10 * acc + d)
  end.

Definition number (cs : list ascii) : option Z := number_acc cs 0.

(** Modelled from the spec: the reading of a datetime text of the form
    [YYYY-MM-DDTHH:MM:SS.mmmZ] (spec 4.3); the repository has no decoder.
    The value read is the naive UTC datetime with these fields. *)
Definition parse_datetime (s : string) : option datetime :=
  match list_ascii_of_string s with
  | [y1; y2; y3; y4; s1; m1; m2; s2; d1; d2; t; h1; h2; s3; n1; n2; s4;
     c1; c2; s5; f1; f2; f3; z] =>
      if Ascii.eqb s1 "-" && Ascii.eqb s2 "-" && Ascii.eqb t "T"
         && Ascii.eqb s3 ":" && Ascii.eqb s4 ":" && Ascii.eqb s5 "."
         && Ascii.eqb z "Z"
      then
        let? y := number [y1; y2; y3; y4] in
        let? m := number [m1; m2] in
        let? d := number [d1; d2] in
        let? H := number [h1; h2] in
        let? M := number [n1; n2] in
        let? S := number [c1; c2] in
        let? ms := number [f1; f2; f3] in
        Some (of_fields y m d H M S (ms * 1000))
      else None
  | _ => None
  end.

(** Modelled from the spec: the reading of an optional element (spec 4.3:
    optional fields are emitted only when present), absent or present with
    a text that reads. *)
Definition optional {A : Type} (read : string -> option A)
  (o : option string) : option (option A) :=
  match o with
  | None => Some None
  | Some s => let? a := read s in Some (Some a)
  end.

Section Decode.

(** The reading of a float text, [float(s)] in the interpreter. *)
Variable float_of_text : string -> option Float.float.

(** Modelled from the spec: the decoder of one [VehicleActivity] (spec 1
    and 8 name a decode step; the repository has none).  Each field is
    read from the element the encoder writes it to; an element that is
    absent gives an absent optional field. *)
Definition decode_activity (a : Xml.Element) : option Bods.VehicleData :=
  let? rt := obind (Xml.findtext "RecordedAtTime" a) parse_datetime in
  let? vt := obind (Xml.findtext "ValidUntilTime" a) parse_datetime in
  let? j := Xml.find "MonitoredVehicleJourney" a in
  let? l := Xml.findtext "LineRef" j in
  let? d := Xml.findtext "DirectionRef" j in
  let? p := Xml.findtext "PublishedLineName" j in
  let? o := Xml.findtext "OperatorRef" j in
  let? orf := Xml.findtext "OriginRef" j in
  let? onm := Xml.findtext "OriginName" j in
  let? drf := Xml.findtext "DestinationRef" j in
  let? oadt :=
    optional parse_datetime (Xml.findtext "OriginAimedDepartureTime" j) in
  let? daat :=
    optional parse_datetime (Xml.findtext "DestinationAimedArrivalTime" j) in
  let? loc := Xml.find "VehicleLocation" j in
  let? lon := obind (Xml.findtext "Longitude" loc) float_of_text in
  let? lat := obind (Xml.findtext "Latitude" loc) float_of_text in
  let? b := obind (Xml.findtext "Bearing" j) float_of_text in
  let? vel := optional float_of_text (Xml.findtext "Velocity" j) in
  let? blk := Xml.findtext "BlockRef" j in
  let? vj := Xml.findtext "VehicleJourneyRef" j in
  let? vr := Xml.findtext "VehicleRef" j in
  Some (Bods.mkVehicleData vr l d p o orf onm drf
          (Xml.findtext "DestinationName" j) oadt daat lat lon b vel
          (Xml.findtext "Occupancy" j) blk vj rt vt).

(** Modelled from the spec: the decoder of a document, the list of its
    activities in document order. *)
Definition decode (doc : Xml.Element) : option (list Bods.VehicleData) :=
  let? sd := Xml.find "ServiceDelivery" doc in
  let? vmd := Xml.find "VehicleMonitoringDelivery" sd in
  omap decode_activity (Xml.findall "VehicleActivity" vmd).

End Decode.

End Decoder.

(* ================================================================== *)
(** * Notions used in the statements *)
(* ================================================================== *)

Module Notions.

(** [l1] is [l2] with some entries removed, the others in place. *)
Inductive subseq {A : Type} : list A -> list A -> Prop :=
| subseq_nil : subseq [] []
| subseq_skip : forall x l1 l2, subseq l1 l2 -> subseq l1 (x :: l2)
| subseq_keep : forall x l1 l2, subseq l1 l2 -> subseq (x :: l1) (x :: l2).

(** The conjunction of the exact-match predicates of the populated
    criteria. *)
Definition matches (c : Bods.Criteria) (v : Bods.VehicleData) : bool :=
  (if Py.truthy_opt_str (Bods.LineRef c)
   then String.eqb (Bods.line_ref v) (Bods.opt_str (Bods.LineRef c))
   else true)
  && ((if Py.truthy_opt_str (Bods.OperatorRef c)
       then String.eqb (Bods.operator_ref v) (Bods.opt_str (Bods.OperatorRef c))
       else true)
      && (if Py.truthy_opt_str (Bods.VehicleRef c)
          then String.eqb (Bods.vehicle_ref v) (Bods.opt_str (Bods.VehicleRef c))
          else true)).

(** The last [if] block of the filter stage, on its own. *)
Definition truncate (c : Bods.Criteria) (l : list Bods.VehicleData)
  : list Bods.VehicleData :=
  match Bods.MaximumNumberOfVehicles c with
  | Some n => if Py.truthy_int n then Py.slice_to l n else l
  | None => l
  end.

(** The criteria on which the slice bound is absent or not negative. *)
Definition max_not_negative (c : Bods.Criteria) : Prop :=
  match Bods.MaximumNumberOfVehicles c with
  | Some n => 0 <= n
  | None => True
  end.

(** The same criteria with no maximum. *)
Definition without_max (c : Bods.Criteria) : Bods.Criteria :=
  Bods.mkCriteria (Bods.LineRef c) (Bods.OperatorRef c) (Bods.VehicleRef c) None.

(** The number of [VehicleActivity] elements of a document. *)
Definition activity_count (doc : Xml.Element) : nat :=
  List.length (Xml.elements_named "VehicleActivity" doc).

(** The envelope of a SIRI-VM document: a [Siri] root holding one
    [ServiceDelivery], which holds one [VehicleMonitoringDelivery]. *)
Definition has_envelope (doc : Xml.Element) : bool :=
  String.eqb (Xml.tag doc) "Siri"
  && match Xml.children doc with
     | [sd] =>
         String.eqb (Xml.tag sd) "ServiceDelivery"
         && match Xml.findall "VehicleMonitoringDelivery" sd with
            | [_] => true
            | _ => false
            end
     | _ => false
     end.

(** A host whose local time is UTC, and a printing of the floats the
    examples use. *)
Definition utc_host (w : Z) : Z := 0.

Definition repr_table (s : bool) (m : positive) (e : Z) : string :=
  match s, m, e with
  | false, 45%positive, 0 => "45.0"
  | false, 3%positive, -1 => "1.5"
  | true, 3%positive, -1 => "-1.5"
  | false, 105%positive, -1 => "52.5"
  | _, _, _ => "1.0"
  end.

(** A clock started at 2024-01-01T12:00:00 that advances one millisecond
    and one microsecond between its first ten readings. *)
Definition sample_clock : Clock.Clock :=
  Clock.mk (fun k => Datetime.wall (Datetime.of_fields 2024 1 1 12 0 0 0)
                     + Z.min (Z.of_nat k) 10 * 1001) 0.

Definition T0 : Datetime.datetime := Datetime.of_fields 2024 1 1 12 0 0 123456.

(** The vehicle of the encoding scenario. *)
Definition midl_1000 : Bods.VehicleData :=
  Bods.mkVehicleData "MIDL_1000" "1" "OUTBOUND" "1 - Birmingham to Dudley"
    "MIDL" "430003002" "Birmingham Moor Street" "430008001"
    (Some "Dudley Bus Station") None None
    (S754_finite false 105 (-1)) (S754_finite true 3 (-1))
    (S754_finite false 45 0) (Some (S754_zero false)) None
    "BLOCK_1" "JOURNEY_MIDL_1000_20240101"
    T0 (Datetime.add_seconds T0 30).

Definition midl_1001 : Bods.VehicleData :=
  Bods.mkVehicleData "MIDL_1001" "45" "INBOUND" "45 - Walsall to Birmingham"
    "MIDL" "430007001" "Walsall Bus Station" "430003002"
    (Some "Birmingham Moor Street") (Some T0) (Some (Datetime.add_seconds T0 5400))
    (S754_finite false 105 (-1)) (S754_finite true 3 (-1))
    (S754_finite false 45 0) (Some (S754_finite false 3 (-1))) (Some "full")
    "BLOCK_2" "JOURNEY_MIDL_1001_20240101"
    T0 (Datetime.add_seconds T0 30).

Definition midl_1002 : Bods.VehicleData :=
  Bods.mkVehicleData "MIDL_1002" "47" "OUTBOUND" "47 - West Bromwich to Birmingham"
    "MIDL" "430009001" "West Bromwich Bus Station" "430003002"
    (Some "Birmingham Moor Street") None None
    (S754_finite false 105 (-1)) (S754_finite true 3 (-1))
    (S754_finite false 45 0) None (Some "seatsAvailable")
    "BLOCK_3" "JOURNEY_MIDL_1002_20240101"
    T0 (Datetime.add_seconds T0 30).

Definition no_criteria : Bods.Criteria := Bods.mkCriteria None None None None.

Definition max_only (n : Z) : Bods.Criteria :=
  Bods.mkCriteria None None None (Some n).

(** The elements that hold a datetime, and the check that each of them in
    a document has a text of the form [YYYY-MM-DDTHH:MM:SS.mmmZ]. *)
Definition datetime_tags : list string :=
  ["RecordedAtTime"; "ValidUntilTime"; "ResponseTimestamp";
   "OriginAimedDepartureTime"; "DestinationAimedArrivalTime"].

Definition is_datetime_tag (t : string) : bool :=
  existsb (String.eqb t) datetime_tags.

Definition datetime_text_ok (e : Xml.Element) : bool :=
  if is_datetime_tag (Xml.tag e)
  then match Xml.text e with
       | Some s => Datetime.is_ms_z s
       | None => false
       end
  else true.

Definition datetimes_ok (doc : Xml.Element) : bool :=
  forallb datetime_text_ok (Xml.descendants doc).

(** Every reading of the clock, and the reading 30 seconds later, lies in
    a four-digit year. *)
Definition clock_in_range (clk : Clock.Clock) : Prop :=
  forall k,
    Datetime.four_digit_year (Datetime.mk (Clock.readings clk k) None)
    /\ Datetime.four_digit_year
         (Datetime.add_seconds (Datetime.mk (Clock.readings clk k) None) 30).

Definition opt_in_range (o : option Datetime.datetime) : Prop :=
  match o with
  | Some t => Datetime.four_digit_year t
  | None => True
  end.

(** Every datetime of the vehicle lies in a four-digit year. *)
Definition vehicle_in_range (v : Bods.VehicleData) : Prop :=
  Datetime.four_digit_year (Bods.recorded_at_time v)
  /\ Datetime.four_digit_year (Bods.valid_until_time v)
  /\ opt_in_range (Bods.origin_aimed_departure_time v)
  /\ opt_in_range (Bods.destination_aimed_arrival_time v).

(** A row of the position table, recorded at [t] and valid for 30 seconds. *)
Definition row_at (vref : string) (t : Datetime.datetime) : Live.Row :=
  Live.mkRow (Some vref) (Some "1") (Some "OUTBOUND")
    (Some "1 - Birmingham to Dudley") (Some "MIDL") (Some "430003002")
    (Some "Birmingham Moor Street") (Some "430008001")
    (Some "Dudley Bus Station") None None
    (Some (S754_finite true 3 (-1))) (Some (S754_finite false 105 (-1)))
    (Some (S754_finite false 45 0)) (Some (S754_finite false 3 (-1))) None
    (Some "BLOCK_1") (Some "JOURNEY_1") t (Some (Datetime.add_seconds t 30))
    None.

(** Aware datetimes at UTC around 2024-01-01T12:00:00. *)
Definition utc (y m d H M S us : Z) : Datetime.datetime :=
  Datetime.mk (Datetime.wall (Datetime.of_fields y m d H M S us)) (Some 0).

Definition noon : Z := Datetime.wall (Datetime.of_fields 2024 1 1 12 0 0 0).

Definition store_of (rows : list Live.Row) : Live.Store :=
  Live.mkStore false false rows noon.

(** Most recent first: [a] may stand before [b]. *)
Definition newer_first (a b : Live.Row) : Prop :=
  Datetime.instant (Live.recorded_at_time b)
  <= Datetime.instant (Live.recorded_at_time a).

(** The rows the query selects, before ordering; none when the store
    cannot be read. *)
Definition fresh_rows (st : Live.Store) : list Live.Row :=
  if Live.connect_fails st || Live.execute_fails st
  then []
  else filter (Live.is_fresh (Live.db_now st)) (Live.table st).

(** The store cannot be reached, or the query raises. *)
Definition store_unreachable (st : Live.Store) : Prop :=
  Live.connect_fails st = true \/ Live.execute_fails st = true.

(** A required column of the row is [NULL]. *)
Definition missing_required (r : Live.Row) : bool :=
  negb (Bods.is_some (Live.vehicle_ref r) && Bods.is_some (Live.line_ref r)
        && Bods.is_some (Live.direction_ref r)
        && Bods.is_some (Live.published_line_name r)
        && Bods.is_some (Live.operator_ref r)
        && Bods.is_some (Live.origin_ref r)
        && Bods.is_some (Live.origin_name r)
        && Bods.is_some (Live.destination_ref r)
        && Bods.is_some (Live.longitude r) && Bods.is_some (Live.latitude r)
        && Bods.is_some (Live.bearing r) && Bods.is_some (Live.block_ref r)
        && Bods.is_some (Live.vehicle_journey_ref r)
        && Bods.is_some (Live.valid_until_time r)).

(** The document passed the XML parser. *)
Definition well_formed (doc : Xml.Element) : bool :=
  forallb Xml.element_ok (Xml.descendants doc).

(** A datetime cut to whole milliseconds. *)
Definition truncate_ms (dt : Datetime.datetime) : Datetime.datetime :=
  Datetime.mk (Datetime.wall dt - Datetime.wall dt mod 1000)
    (Datetime.tzinfo dt).

(** A falsy optional string counts as absent. *)
Definition present (o : option string) : option string :=
  if Py.truthy_opt_str o then o else None.

(** The vehicle as the document can carry it: datetimes to the
    millisecond, empty optional strings absent. *)
Definition on_the_wire (v : Bods.VehicleData) : Bods.VehicleData :=
  Bods.mkVehicleData (Bods.vehicle_ref v) (Bods.line_ref v)
    (Bods.direction_ref v) (Bods.published_line_name v) (Bods.operator_ref v)
    (Bods.origin_ref v) (Bods.origin_name v) (Bods.destination_ref v)
    (present (Bods.destination_name v))
    (option_map truncate_ms (Bods.origin_aimed_departure_time v))
    (option_map truncate_ms (Bods.destination_aimed_arrival_time v))
    (Bods.latitude v) (Bods.longitude v) (Bods.bearing v) (Bods.velocity v)
    (present (Bods.occupancy v)) (Bods.block_ref v)
    (Bods.vehicle_journey_ref v)
    (truncate_ms (Bods.recorded_at_time v))
    (truncate_ms (Bods.valid_until_time v)).

Definition opt_naive (o : option Datetime.datetime) : Prop :=
  match o with
  | Some t => Datetime.tzinfo t = None
  | None => True
  end.

(** The datetimes of the vehicle are naive, as [utcnow] gives them. *)
Definition vehicle_naive (v : Bods.VehicleData) : Prop :=
  Datetime.tzinfo (Bods.recorded_at_time v) = None
  /\ Datetime.tzinfo (Bods.valid_until_time v) = None
  /\ opt_naive (Bods.origin_aimed_departure_time v)
  /\ opt_naive (Bods.destination_aimed_arrival_time v).

(** The floats of the vehicle are read back from their printed form. *)
Definition floats_read_back (repr : bool -> positive -> Z -> string)
  (float_of_text : string -> option Float.float) (v : Bods.VehicleData)
  : Prop :=
  let back f := float_of_text (Float.str repr f) = Some f in
  back (Bods.longitude v) /\ back (Bods.latitude v) /\ back (Bods.bearing v)
  /\ match Bods.velocity v with
     | Some f => back f
     | None => True
     end.

(** The reading of the floats the examples use. *)
Definition parse_table (s : string) : option Float.float :=
  if String.eqb s "45.0" then Some (S754_finite false 45 0)
  else if String.eqb s "1.5" then Some (S754_finite false 3 (-1))
  else if String.eqb s "-1.5" then Some (S754_finite true 3 (-1))
  else if String.eqb s "52.5" then Some (S754_finite false 105 (-1))
  else if String.eqb s "0.0" then Some (S754_zero false)
  else None.

(** Copies of a row or a vehicle with one field replaced. *)
Definition with_velocity (f : option Float.float) (r : Live.Row) : Live.Row :=
  Live.mkRow (Live.vehicle_ref r) (Live.line_ref r) (Live.direction_ref r)
    (Live.published_line_name r) (Live.operator_ref r) (Live.origin_ref r)
    (Live.origin_name r) (Live.destination_ref r) (Live.destination_name r)
    (Live.origin_aimed_departure_time r)
    (Live.destination_aimed_arrival_time r)
    (Live.longitude r) (Live.latitude r) (Live.bearing r) f
    (Live.occupancy r) (Live.block_ref r) (Live.vehicle_journey_ref r)
    (Live.recorded_at_time r) (Live.valid_until_time r)
    (Live.item_identifier r).

Definition with_bearing (b : option Float.float) (r : Live.Row) : Live.Row :=
  Live.mkRow (Live.vehicle_ref r) (Live.line_ref r) (Live.direction_ref r)
    (Live.published_line_name r) (Live.operator_ref r) (Live.origin_ref r)
    (Live.origin_name r) (Live.destination_ref r) (Live.destination_name r)
    (Live.origin_aimed_departure_time r)
    (Live.destination_aimed_arrival_time r)
    (Live.longitude r) (Live.latitude r) b (Live.velocity r)
    (Live.occupancy r) (Live.block_ref r) (Live.vehicle_journey_ref r)
    (Live.recorded_at_time r) (Live.valid_until_time r)
    (Live.item_identifier r).

Definition with_line_ref (l : option string) (r : Live.Row) : Live.Row :=
  Live.mkRow (Live.vehicle_ref r) l (Live.direction_ref r)
    (Live.published_line_name r) (Live.operator_ref r) (Live.origin_ref r)
    (Live.origin_name r) (Live.destination_ref r) (Live.destination_name r)
    (Live.origin_aimed_departure_time r)
    (Live.destination_aimed_arrival_time r)
    (Live.longitude r) (Live.latitude r) (Live.bearing r) (Live.velocity r)
    (Live.occupancy r) (Live.block_ref r) (Live.vehicle_journey_ref r)
    (Live.recorded_at_time r) (Live.valid_until_time r)
    (Live.item_identifier r).

Definition vehicle_with_line_ref (l : string) (v : Bods.VehicleData)
  : Bods.VehicleData :=
  Bods.mkVehicleData (Bods.vehicle_ref v) l
    (Bods.direction_ref v) (Bods.published_line_name v) (Bods.operator_ref v)
    (Bods.origin_ref v) (Bods.origin_name v) (Bods.destination_ref v)
    (Bods.destination_name v) (Bods.origin_aimed_departure_time v)
    (Bods.destination_aimed_arrival_time v)
    (Bods.latitude v) (Bods.longitude v) (Bods.bearing v) (Bods.velocity v)
    (Bods.occupancy v) (Bods.block_ref v) (Bods.vehicle_journey_ref v)
    (Bods.recorded_at_time v) (Bods.valid_until_time v).

Definition vehicle_with_destination_name (n : option string)
  (v : Bods.VehicleData) : Bods.VehicleData :=
  Bods.mkVehicleData (Bods.vehicle_ref v) (Bods.line_ref v)
    (Bods.direction_ref v) (Bods.published_line_name v) (Bods.operator_ref v)
    (Bods.origin_ref v) (Bods.origin_name v) (Bods.destination_ref v)
    n (Bods.origin_aimed_departure_time v)
    (Bods.destination_aimed_arrival_time v)
    (Bods.latitude v) (Bods.longitude v) (Bods.bearing v) (Bods.velocity v)
    (Bods.occupancy v) (Bods.block_ref v) (Bods.vehicle_journey_ref v)
    (Bods.recorded_at_time v) (Bods.valid_until_time v).

Definition vehicle_recorded_at (t : Datetime.datetime) (v : Bods.VehicleData)
  : Bods.VehicleData :=
  Bods.mkVehicleData (Bods.vehicle_ref v) (Bods.line_ref v)
    (Bods.direction_ref v) (Bods.published_line_name v) (Bods.operator_ref v)
    (Bods.origin_ref v) (Bods.origin_name v) (Bods.destination_ref v)
    (Bods.destination_name v) (Bods.origin_aimed_departure_time v)
    (Bods.destination_aimed_arrival_time v)
    (Bods.latitude v) (Bods.longitude v) (Bods.bearing v) (Bods.velocity v)
    (Bods.occupancy v) (Bods.block_ref v) (Bods.vehicle_journey_ref v)
    t (Bods.valid_until_time v).

End Notions.

(* ================================================================== *)
(** * bods-api: the status document *)
(* ================================================================== *)

Module Status.

Import Datetime.

Definition status_attrib : list (string * string) :=
  [("version", "2.0");
   ("xmlns", "http://www.siri.org.uk/siri");
   ("xmlns:xsi", "http://www.w3.org/2001/XMLSchema-instance")].

(** The element tree [create_check_status_response] builds; an omitted
    start time is read from the clock. *)
Definition check_status_tree (clk : Clock.Clock) (status : bool)
  (service_started_time : option datetime) : Xml.Element :=
  let service_started_time :=
    match service_started_time with
    | None => fst (Clock.utcnow clk)
    | Some t => t
    end in
  Xml.Elem "Siri" status_attrib None
    [Xml.node "CheckStatusResponse"
       [Xml.leaf "Status" (if status then "true" else "false");
        Xml.leaf "ServiceStartedTime"
          (Bods.format_datetime service_started_time);
        Xml.leaf "DataReady" "true"]].

(** [xml_generator.create_check_status_response]. *)
Definition create_check_status_response (clk : Clock.Clock) (status : bool)
  (service_started_time : option datetime) : Exc.exc Xml.Element :=
  Xml.toprettyxml (check_status_tree clk status service_started_time).

(** [main.check_status]; [SERVICE_START_TIME] is read once, when the
    module is loaded. *)
Definition check_status (SERVICE_START_TIME : datetime) (clk : Clock.Clock)
  : Http.Result :=
  Exc.try_except
    (xml_response <-
       create_check_status_response clk true (Some SERVICE_START_TIME) ;;
     Exc.Ok (Http.Response 200 xml_response))
    (fun _ => Http.HTTPException 500).

End Status.

(* ================================================================== *)
(** * Further notions used in the statements *)
(* ================================================================== *)

Module Notions2.

(** The texts of the elements of a document with the given tag, in
    document order. *)
Definition texts_of (t : string) (doc : Xml.Element) : list (option string) :=
  map Xml.text (Xml.elements_named t doc).

(** The vehicle satisfies every populated criterion. *)
Definition satisfies (c : Bods.Criteria) (v : Bods.VehicleData) : Prop :=
  (forall l, Bods.LineRef c = Some l -> l <> "" -> Bods.line_ref v = l)
  /\ (forall o, Bods.OperatorRef c = Some o -> o <> "" -> Bods.operator_ref v = o)
  /\ (forall r, Bods.VehicleRef c = Some r -> r <> "" -> Bods.vehicle_ref v = r).

(** The strings of a vehicle that the encoder writes. *)
Definition vehicle_strings (v : Bods.VehicleData) : list string :=
  [Bods.vehicle_ref v; Bods.line_ref v; Bods.direction_ref v;
   Bods.published_line_name v; Bods.operator_ref v; Bods.origin_ref v;
   Bods.origin_name v; Bods.destination_ref v;
   Bods.opt_str (Bods.destination_name v); Bods.opt_str (Bods.occupancy v);
   Bods.block_ref v; Bods.vehicle_journey_ref v].

(** All of them hold characters XML allows. *)
Definition vehicle_texts_ok (v : Bods.VehicleData) : bool :=
  forallb Xml.text_ok (vehicle_strings v).

(** The printing of finite floats gives characters XML allows. *)
Definition repr_ok (repr : bool -> positive -> Z -> string) : Prop :=
  forall s m e, Xml.text_ok (repr s m e) = true.

(** The UTC offset of an aware datetime is less than a day. *)
Definition offset_in_range (dt : Datetime.datetime) : Prop :=
  match Datetime.tzinfo dt with
  | Some off => Z.abs off < 86400
  | None => True
  end.

(** Every reading of the clock lies in a four-digit year. *)
Definition clock_four_digit (clk : Clock.Clock) : Prop :=
  forall k, Datetime.four_digit_year
              (Datetime.mk (Clock.readings clk k) (Some 0)).

End Notions2.

(* ================================================================== *)
(** * api: the maintenance endpoints *)
(* ================================================================== *)

Module Maint.

Import Datetime.

(** What the handlers of this part raise: an [HTTPException] with its
    status code, or any other exception. *)
Inductive raised : Type :=
| HTTPExc (status_code : Z)
| Other.

Inductive res (A : Type) : Type :=
| Return (a : A)
| Raise (e : raised).
Arguments Return {A} a.
Arguments Raise {A} e.

Definition bind {A B : Type} (m : res A) (k : A -> res B) : res B :=
  match m with
  | Return a => k a
  | Raise e => Raise e
  end.

Notation "'do' x '<-' m ';' k" := (bind m (fun x => k))
  (at level 10, x name, m at level 100, k at level 200).

(** What a JSON endpoint gives back: the body of the 200 answer, or the
    status code of the [HTTPException] that leaves the handler. *)
Inductive answer (A : Type) : Type :=
| Success (body : A)
| Failure (status_code : Z).
Arguments Success {A} body.
Arguments Failure {A} status_code.

(** [try: m except Exception as e: raise HTTPException(500, ...)]: an
    [HTTPException] raised inside the [try] is an [Exception] too. *)
Definition except_500 {A : Type} (m : res A) : answer A :=
  match m with
  | Return a => Success a
  | Raise _ => Failure 500
  end.

(** A row of [tracking_sessions] (the columns the endpoints read). *)
Record Session : Type := mkSession {
  session_id : Z;
  session_vehicle_ref : string;
  start_time : datetime;
  end_time : option datetime
}.

(** The database: the position store of the feed and the sessions. *)
Record Database : Type := mkDatabase {
  store : Live.Store;
  sessions : list Session
}.

Definition with_table (db : Database) (rows : list Live.Row)
  (ss : list Session) : Database :=
  mkDatabase
    (Live.mkStore (Live.connect_fails (store db)) (Live.execute_fails (store db))
       rows (Live.db_now (store db)))
    ss.

(** A query parameter handed to [cur.execute]. *)
Inductive Param : Type :=
| PStr (s : string)
| PTime (t : datetime).

(** The conditions the handlers append to a [DELETE FROM vehicle_positions]
    statement: the SQL text of each, its parameter, and what it selects. *)
Inductive Cond : Type :=
| VehicleRefIs (s : string)
| RecordedBefore (t : datetime)
| OperatorRefIs (s : string)
| RecordedBetween (t1 t2 : datetime).

Definition cond_sql (c : Cond) : string :=
  match c with
  | VehicleRefIs _ => " AND vehicle_ref = %s"
  | RecordedBefore _ => " AND recorded_at_time < %s"
  | OperatorRefIs _ => " AND operator_ref = %s"
  | RecordedBetween _ _ => " AND recorded_at_time BETWEEN %s AND %s"
  end.

Definition cond_params (c : Cond) : list Param :=
  match c with
  | VehicleRefIs s => [PStr s]
  | RecordedBefore t => [PTime t]
  | OperatorRefIs s => [PStr s]
  | RecordedBetween t1 t2 => [PTime t1; PTime t2]
  end.

Definition opt_eqb (o : option string) (s : string) : bool :=
  match o with
  | Some x => String.eqb x s
  | None => false
  end.

(** A comparison with [NULL] selects nothing; timestamps compare as
    instants. *)
Definition cond_holds (c : Cond) (r : Live.Row) : bool :=
  match c with
  | VehicleRefIs s => opt_eqb (Live.vehicle_ref r) s
  | RecordedBefore t => instant (Live.recorded_at_time r) <? instant t
  | OperatorRefIs s => opt_eqb (Live.operator_ref r) s
  | RecordedBetween t1 t2 =>
      (instant t1 <=? instant (Live.recorded_at_time r))
      && (instant (Live.recorded_at_time r) <=? instant t2)
  end.

(** The statement as the handler holds it: the text and the parameters. *)
Definition sql_text (base : string) (conds : list Cond) : string :=
  fold_left (fun q c => q ++ cond_sql c) conds base.

Definition sql_params (conds : list Cond) : list Param :=
  flat_map cond_params conds.

Definition selected (conds : list Cond) (r : Live.Row) : bool :=
  forallb (fun c => cond_holds c r) conds.

(** [cur.execute(DELETE ...)] on the positions: the rows left and
    [cur.rowcount]. *)
Definition delete_positions (conds : list Cond) (rows : list Live.Row)
  : list Live.Row * nat :=
  (filter (fun r => negb (selected conds r)) rows,
   List.length (filter (selected conds) rows)).

(** The range of [datetime] and of [timedelta(days=...)]. *)
Definition min_wall : Z := wall (of_fields 1 1 1 0 0 0 0).
Definition max_wall : Z := wall (of_fields 9999 12 31 23 59 59 999999).
Definition max_timedelta_days : Z := 999999999.

(** [now - timedelta(days=d)]; [OverflowError] outside the ranges. *)
Definition minus_days (now : datetime) (d : Z) : res datetime :=
  if Z.abs d <=? max_timedelta_days
  then let w := wall now - d * usec_per_day in
       if (min_wall <=? w) && (w <=? max_wall)
       then Return (mk w (tzinfo now))
       else Raise Other
  else Raise Other.

(** [s.replace('Z', '+00:00')]. *)
Fixpoint replace_Z (s : string) : string :=
  match s with
  | EmptyString => EmptyString
  | String c s' =>
      if Ascii.eqb c "Z" then "+00:00" ++ replace_Z s'
      else String c (replace_Z s')
  end.

Definition connect (db : Database) : res Database :=
  if Live.connect_fails (store db) then Raise Other else Return db.

Definition execute {A : Type} (conn : Database) (result : A) : res A :=
  if Live.execute_fails (store conn) then Raise Other else Return result.

Section Handlers.

(** [datetime.fromisoformat]; [None] stands for its [ValueError]. *)
Variable fromisoformat : string -> option datetime.

Definition delete_base : string := "DELETE FROM vehicle_positions WHERE 1=1".

(** The statement [delete_vehicle_positions] builds before it connects. *)
Definition delete_conditions (clk : Clock.Clock)
  (vehicle_ref before_timestamp operator_ref : option string)
  (days_old : option Z) : res (list Cond) :=
  let conds :=
    if Py.truthy_opt_str vehicle_ref
    then [VehicleRefIs (Bods.opt_str vehicle_ref)] else [] in
  do conds <-
    (if Py.truthy_opt_str before_timestamp
     then match fromisoformat (replace_Z (Bods.opt_str before_timestamp)) with
          | Some cutoff => Return (conds ++ [RecordedBefore cutoff])%list
          | None => Raise (HTTPExc 400)
          end
     else match days_old with
          | Some d =>
              if Py.truthy_int d
              then do cutoff <- minus_days (fst (Clock.now_utc clk)) d;
                   Return (conds ++ [RecordedBefore cutoff])%list
              else Return conds
          | None => Return conds
          end);
  Return (if Py.truthy_opt_str operator_ref
          then (conds ++ [OperatorRefIs (Bods.opt_str operator_ref)])%list
          else conds).

(** [delete_vehicle_positions]: the answer (the count of deleted rows)
    and the database afterwards. *)
Definition delete_vehicle_positions (db : Database) (clk : Clock.Clock)
  (vehicle_ref before_timestamp operator_ref : option string)
  (days_old : option Z) : answer nat * Database :=
  let outcome :=
    do conds <-
      delete_conditions clk vehicle_ref before_timestamp operator_ref days_old;
    do conn <- connect db;
    execute conn (delete_positions conds (Live.table (store conn))) in
  match outcome with
  | Return (rows, deleted_count) =>
      (Success deleted_count, with_table db rows (sessions db))
  | Raise _ => (Failure 500, db)
  end.

(** [cur.execute(DELETE FROM tracking_sessions ...)] of [bulk_cleanup]. *)
Definition delete_sessions (cutoff : datetime) (vehicle_ref : option string)
  (ss : list Session) : list Session * nat :=
  let old s :=
    (instant (start_time s) <? instant cutoff)
    && (if Py.truthy_opt_str vehicle_ref
        then String.eqb (session_vehicle_ref s) (Bods.opt_str vehicle_ref)
        else true) in
  (filter (fun s => negb (old s)) ss, List.length (filter old ss)).

(** The answer of [bulk_cleanup]. *)
Record Cleanup : Type := mkCleanup {
  deleted_positions : nat;
  deleted_sessions : nat
}.

(** [bulk_cleanup]: two statements in one transaction, each with its own
    reading of the clock. *)
Definition bulk_cleanup (db : Database) (clk : Clock.Clock) (days_old : Z)
  (vehicle_ref operator_ref : option string) : answer Cleanup * Database :=
  let outcome :=
    do conn <- connect db;
    let (now1, clk1) := Clock.now_utc clk in
    do cutoff1 <- minus_days now1 days_old;
    let conds :=
      ([RecordedBefore cutoff1]
       ++ (if Py.truthy_opt_str vehicle_ref
           then [VehicleRefIs (Bods.opt_str vehicle_ref)] else [])
       ++ (if Py.truthy_opt_str operator_ref
           then [OperatorRefIs (Bods.opt_str operator_ref)] else []))%list in
    do pos <- execute conn (delete_positions conds (Live.table (store conn)));
    let (now2, _) := Clock.now_utc clk1 in
    do cutoff2 <- minus_days now2 days_old;
    do ses <- execute conn (delete_sessions cutoff2 vehicle_ref (sessions conn));
    Return (pos, ses) in
  match outcome with
  | Return ((rows, n), (ss, m)) =>
      (Success (mkCleanup n m), with_table db rows ss)
  | Raise _ => (Failure 500, db)
  end.

(** The answer of [delete_tracking_session]. *)
Record SessionDeleted : Type := mkSessionDeleted {
  deleted_session_positions : nat;
  deleted_session_id : Z
}.

(** [delete_tracking_session]: the 404 is raised inside the [try]. *)
Definition delete_tracking_session (db : Database) (clk : Clock.Clock)
  (id : Z) : answer SessionDeleted * Database :=
  let outcome :=
    do conn <- connect db;
    do session <-
      execute conn (List.find (fun s => session_id s =? id) (sessions conn));
    match session with
    | None => Raise (HTTPExc 404)
    | Some session =>
        let upto :=
          match end_time session with
          | Some t => t
          | None => fst (Clock.now_utc clk)
          end in
        let conds :=
          [VehicleRefIs (session_vehicle_ref session);
           RecordedBetween (start_time session) upto] in
        do pos <- execute conn (delete_positions conds (Live.table (store conn)));
        do ss <-
          execute conn (filter (fun s => negb (session_id s =? id)) (sessions conn));
        Return (pos, ss)
    end in
  match outcome with
  | Return ((rows, n), ss) =>
      (Success (mkSessionDeleted n id), with_table db rows ss)
  | Raise _ => (Failure 500, db)
  end.

End Handlers.

End Maint.

(* ================================================================== *)
(** * api: storing a position *)
(* ================================================================== *)

Module Ingest.

Import Datetime Maint.

(** The conflict target of the statement, the unique key
    [(vehicle_ref, recorded_at_time)]: equal references and equal
    instants; a [NULL] reference conflicts with nothing. *)
Definition same_key (a b : Live.Row) : bool :=
  match Live.vehicle_ref a, Live.vehicle_ref b with
  | Some x, Some y =>
      String.eqb x y
      && (instant (Live.recorded_at_time a) =? instant (Live.recorded_at_time b))
  | _, _ => false
  end.

(** [DO UPDATE SET longitude = EXCLUDED.longitude, ...]: the six columns of
    the statement are taken from the proposed row, the others stay. *)
Definition do_update (old excluded : Live.Row) : Live.Row :=
  Live.mkRow (Live.vehicle_ref old) (Live.line_ref old) (Live.direction_ref old)
    (Live.published_line_name old) (Live.operator_ref old) (Live.origin_ref old)
    (Live.origin_name old) (Live.destination_ref old) (Live.destination_name old)
    (Live.origin_aimed_departure_time old)
    (Live.destination_aimed_arrival_time old)
    (Live.longitude excluded) (Live.latitude excluded) (Live.bearing excluded)
    (Live.velocity excluded) (Live.occupancy excluded)
    (Live.block_ref old) (Live.vehicle_journey_ref old)
    (Live.recorded_at_time old) (Live.valid_until_time excluded)
    (Live.item_identifier old).

(** The row the [INSERT] proposes: the columns it does not list are
    [NULL]. *)
Definition proposed (r : Live.Row) : Live.Row :=
  Live.mkRow (Live.vehicle_ref r) (Live.line_ref r) (Live.direction_ref r)
    (Live.published_line_name r) (Live.operator_ref r) (Live.origin_ref r)
    (Live.origin_name r) (Live.destination_ref r) (Live.destination_name r)
    None None
    (Live.longitude r) (Live.latitude r) (Live.bearing r)
    (Live.velocity r) (Live.occupancy r)
    (Live.block_ref r) (Live.vehicle_journey_ref r)
    (Live.recorded_at_time r) (Live.valid_until_time r)
    None.

(** [INSERT ... ON CONFLICT (vehicle_ref, recorded_at_time) DO UPDATE]. *)
Fixpoint upsert (new : Live.Row) (rows : list Live.Row) : list Live.Row :=
  match rows with
  | [] => [new]
  | r :: rest =>
      if same_key r new then do_update r new :: rest
      else r :: upsert new rest
  end.

Section Store.

(** The values of the request body, with [None] among them, and the row
    Postgres makes of the 18 parameters of the statement ([None] when it
    rejects them: a text that is no timestamp, a constraint other than the
    unique key). *)
Variable pyval : Type.
Variable py_none : pyval.
Variable pg_row : list pyval -> option Live.Row.

(** A [dict] with string keys. *)
Definition dict : Type := string -> option pyval.

(** [data[k]]: [KeyError] when the key is absent. *)
Definition getitem (data : dict) (k : string) : res pyval :=
  match data k with
  | Some v => Return v
  | None => Raise Other
  end.

(** [data.get(k)]. *)
Definition get (data : dict) (k : string) : pyval :=
  match data k with
  | Some v => v
  | None => py_none
  end.

(** The tuple of parameters, evaluated left to right. *)
Definition insert_params (data : dict) : res (list pyval) :=
  do vehicle_ref <- getitem data "vehicle_ref";
  do line_ref <- getitem data "line_ref";
  do direction_ref <- getitem data "direction_ref";
  do published_line_name <- getitem data "published_line_name";
  do operator_ref <- getitem data "operator_ref";
  do origin_ref <- getitem data "origin_ref";
  do origin_name <- getitem data "origin_name";
  do destination_ref <- getitem data "destination_ref";
  let destination_name := get data "destination_name" in
  do longitude <- getitem data "longitude";
  do latitude <- getitem data "latitude";
  do bearing <- getitem data "bearing";
  let velocity := get data "velocity" in
  let occupancy := get data "occupancy" in
  do block_ref <- getitem data "block_ref";
  do vehicle_journey_ref <- getitem data "vehicle_journey_ref";
  do recorded_at_time <- getitem data "recorded_at_time";
  do valid_until_time <- getitem data "valid_until_time";
  Return [vehicle_ref; line_ref; direction_ref; published_line_name;
          operator_ref; origin_ref; origin_name; destination_ref;
          destination_name; longitude; latitude; bearing; velocity;
          occupancy; block_ref; vehicle_journey_ref; recorded_at_time;
          valid_until_time].

(** [store_vehicle_position]: every exception is printed and raised
    again. *)
Definition store_vehicle_position (db : Database) (data : dict)
  : res Database :=
  do conn <- connect db;
  do params <- insert_params data;
  match pg_row params with
  | None => Raise Other
  | Some row =>
      execute conn
        (with_table db (upsert (proposed row) (Live.table (store conn)))
           (sessions db))
  end.

(** [submit_vehicle_position], the handler of [POST /vehicle-position]. *)
Definition submit_vehicle_position (db : Database) (vehicle_data : dict)
  : answer unit * Database :=
  match store_vehicle_position db vehicle_data with
  | Return db' => (Success tt, db')
  | Raise _ => (Failure 500, db)
  end.

End Store.

End Ingest.

(* ================================================================== *)
(** * dashboard: the positions shown on the map *)
(* ================================================================== *)

Module Dashboard.

Import Datetime Maint.

(** One entry of the [vehicles] list of [get_vehicles]. *)
Record VehicleEntry : Type := mkVehicleEntry {
  entry_vehicle_ref : option string;
  entry_line_ref : option string;
  entry_latitude : Float.float;
  entry_longitude : Float.float;
  entry_bearing : option Float.float;
  entry_occupancy : option string;
  entry_recorded_at_time : string
}.

(** [timezone.timedelta(minutes=10)], in microseconds. *)
Definition map_window : Z := 10 * 60 * usec_per_sec.

(** [recorded_at_time__gte=timezone.now() - timedelta(minutes=10)]. *)
Definition on_map (now : Z) (r : Live.Row) : bool :=
  now - map_window <=? instant (Live.recorded_at_time r).

(** [float(x)] of a column value: [TypeError] on [None]. *)
Definition to_float (o : option Float.float) : res Float.float :=
  match o with
  | Some f => Return f
  | None => Raise Other
  end.

(** The dictionary appended for a position. *)
Definition entry_of (pos : Live.Row) : res VehicleEntry :=
  do latitude <- to_float (Live.latitude pos);
  do longitude <- to_float (Live.longitude pos);
  Return (mkVehicleEntry (Live.vehicle_ref pos) (Live.line_ref pos)
            latitude longitude (Live.bearing pos) (Live.occupancy pos)
            (isoformat (Live.recorded_at_time pos))).

Definition ref_eqb (a b : option string) : bool :=
  match a, b with
  | Some x, Some y => String.eqb x y
  | None, None => true
  | _, _ => false
  end.

(** [ref in seen_vehicles]. *)
Definition seen_in (ref : option string) (seen : list (option string)) : bool :=
  existsb (ref_eqb ref) seen.

(** The loop [for pos in positions] with its two accumulators. *)
Fixpoint collect (positions : list Live.Row) (vehicles : list VehicleEntry)
  (seen_vehicles : list (option string)) : res (list VehicleEntry) :=
  match positions with
  | [] => Return vehicles
  | pos :: rest =>
      if seen_in (Live.vehicle_ref pos) seen_vehicles
      then collect rest vehicles seen_vehicles
      else do entry <- entry_of pos;
           collect rest (vehicles ++ [entry])%list
             (Live.vehicle_ref pos :: seen_vehicles)
  end.

(** [views.get_vehicles]: the query is run when the loop starts; any
    exception gives the 500 answer. *)
Definition get_vehicles (st : Live.Store) (now : Z)
  : answer (list VehicleEntry) :=
  except_500
    (do positions <-
       (if Live.connect_fails st || Live.execute_fails st then Raise Other
        else Return (Live.order_by_recorded_desc
                       (filter (on_map now) (Live.table st))));
     collect positions [] []).

End Dashboard.

(* ================================================================== *)
(** * bods-api: the generator of the synthetic snapshot *)
(* ================================================================== *)

Module Generator.

Import Datetime.

(** An entry of [self.routes]. *)
Record Route : Type := mkRoute {
  line_ref : string;
  published_line_name : string;
  direction_ref : string;
  operator_ref : string;
  origin_ref : string;
  origin_name : string;
  destination_ref : string;
  destination_name : string;
  origin_departure : string;
  destination_arrival : string
}.

Definition routes : list Route :=
  [mkRoute "1" "1 - Birmingham to Dudley" "OUTBOUND" "MIDL"
     "430003002" "Birmingham Moor Street" "430008001" "Dudley Bus Station"
     "08:00" "09:30";
   mkRoute "45" "45 - Walsall to Birmingham" "INBOUND" "MIDL"
     "430007001" "Walsall Bus Station" "430003002" "Birmingham Moor Street"
     "07:30" "09:00";
   mkRoute "47" "47 - West Bromwich to Birmingham" "OUTBOUND" "MIDL"
     "430009001" "West Bromwich Bus Station" "430003002"
     "Birmingham Moor Street" "08:15" "09:45"].

(** An entry of [self.vehicle_positions], and the [position] of a
    vehicle. *)
Record Position : Type := mkPosition {
  lat : Float.float;
  lon : Float.float;
  bearing : Float.float
}.

(** The binary64 values of the literals. *)
Definition vehicle_positions : list Position :=
  [mkPosition (S754_finite false 7385706356403916 (-47))
     (S754_finite true 8532069494053405 (-52))
     (S754_finite false 6333186975989760 (-47));
   mkPosition (S754_finite false 7386677445073568 (-47))
     (S754_finite true 8565846491258683 (-52))
     (S754_finite false 6333186975989760 (-46));
   mkPosition (S754_finite false 7387592238747877 (-47))
     (S754_finite true 8637904085296611 (-52))
     (S754_finite false 4749890231992320 (-45));
   mkPosition (S754_finite false 7388858876143075 (-47))
     (S754_finite true 8714465278961910 (-52))
     (S754_finite false 6333186975989760 (-45));
   mkPosition (S754_finite false 7390125513538273 (-47))
     (S754_finite true 8791026472627208 (-52))
     (S754_finite false 7916483719987200 (-45));
   mkPosition (S754_finite false 7391251413445116 (-47))
     (S754_finite true 8872091265919877 (-52))
     (S754_finite false 4749890231992320 (-44));
   mkPosition (S754_finite false 7392236575863603 (-47))
     (S754_finite true 8953156059212546 (-52))
     (S754_finite false 5541538603991040 (-44))].

(** An entry of [self.vehicles]. *)
Record Vehicle : Type := mkVehicle {
  vehicle_ref : string;
  block_ref : string;
  route : Route;
  position : Position;
  last_update : datetime
}.

(** The [random] module as the sequence of its draws: the value of the
    k-th draw when it is a [random()], and when it is a [_randbelow(n)];
    and the number of draws so far. *)
Record Rng : Type := mkRng {
  random_at : nat -> Float.float;
  randbelow_at : nat -> nat -> nat;
  draws : nat
}.

(** What the generator reads besides its own vehicles. *)
Record World : Type := mkWorld {
  clock : Clock.Clock;
  rng : Rng
}.

Definition utcnow (w : World) : datetime * World :=
  let (now, c) := Clock.utcnow (clock w) in (now, mkWorld c (rng w)).

Definition drawn (w : World) : World :=
  mkWorld (clock w)
    (mkRng (random_at (rng w)) (randbelow_at (rng w)) (S (draws (rng w)))).

Definition random (w : World) : Float.float * World :=
  (random_at (rng w) (draws (rng w)), drawn w).

(** Binary64 arithmetic, rounding to nearest even. *)
Definition fadd : Float.float -> Float.float -> Float.float := SFadd 53 1024.
Definition fsub : Float.float -> Float.float -> Float.float := SFsub 53 1024.
Definition fmul : Float.float -> Float.float -> Float.float := SFmul 53 1024.

(** [random.uniform(a, b)]: [a + (b - a) * random()]. *)
Definition uniform (a b : Float.float) (w : World) : Float.float * World :=
  let (u, w) := random w in (fadd a (fmul (fsub b a) u), w).

(** [random.choice(seq)]: [IndexError] on an empty sequence, else
    [seq[_randbelow(len(seq))]]. *)
Definition choice {A : Type} (seq : list A) (w : World) : option A * World :=
  match seq with
  | [] => (None, w)
  | _ :: _ =>
      (nth_error seq
         (randbelow_at (rng w) (draws (rng w)) (List.length seq)
          mod List.length seq)%nat,
       drawn w)
  end.

(** [range(n)]. *)
Definition range (n : nat) : list Z := map Z.of_nat (seq 0 n).

(** The float literals of [get_vehicle_data]. *)
Definition minus_0_001 : Float.float := S754_finite true 4611686018427388 (-62).
Definition plus_0_001 : Float.float := S754_finite false 4611686018427388 (-62).
Definition minus_10 : Float.float := S754_finite true 5629499534213120 (-49).
Definition plus_10 : Float.float := S754_finite false 5629499534213120 (-49).
Definition zero : Float.float := S754_zero false.
Definition plus_25 : Float.float := S754_finite false 7036874417766400 (-48).

Definition occupancies : list (option string) :=
  [Some "seatsAvailable"; Some "standingAvailable"; Some "full"; None].

(** [_generate_vehicles], over the indices of its loop. *)
Fixpoint _generate_vehicles (indices : list Z) (w : World)
  : option (list Vehicle) * World :=
  match indices with
  | [] => (Some [], w)
  | i :: rest =>
      match choice routes w with
      | (None, w) => (None, w)
      | (Some route, w) =>
          match choice vehicle_positions w with
          | (None, w) => (None, w)
          | (Some position, w) =>
              let (now, w) := utcnow w in
              let vehicle :=
                mkVehicle ("MIDL_" ++ Py.str_int (1000 + i))
                  ("BLOCK_" ++ Py.str_int (i mod 3 + 1)) route position now in
              let (r, w) := _generate_vehicles rest w in
              (option_map (cons vehicle) r, w)
          end
      end
  end.

(** [VehicleDataGenerator()]: the vehicles of the new instance. *)
Definition VehicleDataGenerator (w : World) : option (list Vehicle) * World :=
  _generate_vehicles (range 10) w.

Definition digit_value (c : ascii) : option Z :=
  if Py.is_digit c then Some (Z.of_nat (nat_of_ascii c) - 48) else None.

(** The text up to the first colon, and what follows it. *)
Fixpoint until_colon (s : string) : list ascii * option string :=
  match s with
  | EmptyString => ([], None)
  | String c s' =>
      if Ascii.eqb c ":" then ([], Some s')
      else let (h, r) := until_colon s' in (c :: h, r)
  end.

(** [datetime.strptime(s, '%H:%M')]: the hour is [2[0-3]], [[0-1]\d] or
    [\d], the minute [[0-5]\d] or [\d], and nothing may remain; [None]
    stands for the [ValueError]. *)
Definition strptime_HM (s : string) : option (Z * Z) :=
  match until_colon s with
  | (h, Some m) =>
      let H :=
        match map digit_value h with
        | [Some a; Some b] => if 10 * a + b <=? 23 then Some (10 * a + b) else None
        | [Some a] => Some a
        | _ => None
        end in
      let Mi :=
        match map digit_value (list_ascii_of_string m) with
        | [Some a; Some b] => if a <=? 5 then Some (10 * a + b) else None
        | [Some a] => Some a
        | _ => None
        end in
      match H, Mi with
      | Some H, Some Mi => Some (H, Mi)
      | _, _ => None
      end
  | (_, None) => None
  end.

(** [datetime.combine(today, time)] for a time of whole minutes. *)
Definition combine (today : Z) (H Mi : Z) : datetime :=
  mk (today * usec_per_day + (H * 3600 + Mi * 60) * usec_per_sec) None.

(** [_parse_time]: the date is read from the clock at each call. *)
Definition _parse_time (time_str : string) (w : World)
  : option datetime * World :=
  let (now, w) := utcnow w in
  let today := days now in
  match strptime_HM time_str with
  | Some (H, Mi) => (Some (combine today H Mi), w)
  | None => (None, w)
  end.

(** [now.strftime('%Y%m%d')]. *)
Definition strftime_Ymd (now : datetime) : string :=
  Py.dec_nonneg (year now) ++ Py.zpad 2 (month now) ++ Py.zpad 2 (day now).

Section Generator.

(** [x % n] for a float and an [int], and [round(x, ndigits)]. *)
Variable mod_int : Float.float -> Z -> Float.float.
Variable round_ndigits : Float.float -> Z -> Float.float.

(** The [VehicleData(...)] call of the loop, its arguments evaluated in
    order. *)
Definition vehicle_data (now : datetime) (vehicle : Vehicle)
  (position : Position) (w : World) : option Bods.VehicleData * World :=
  let route := route vehicle in
  match _parse_time (origin_departure route) w with
  | (None, w) => (None, w)
  | (Some departure, w) =>
      match _parse_time (destination_arrival route) w with
      | (None, w) => (None, w)
      | (Some arrival, w) =>
          let (velocity, w) := uniform zero plus_25 w in
          match choice occupancies w with
          | (None, w) => (None, w)
          | (Some occupancy, w) =>
              (Some
                 (Bods.mkVehicleData (vehicle_ref vehicle) (line_ref route)
                    (direction_ref route) (published_line_name route)
                    (operator_ref route) (origin_ref route) (origin_name route)
                    (destination_ref route) (Some (destination_name route))
                    (Some departure) (Some arrival)
                    (lat position) (lon position)
                    (round_ndigits (bearing position) 1)
                    (Some velocity) occupancy (block_ref vehicle)
                    ("JOURNEY_" ++ vehicle_ref vehicle ++ "_" ++ strftime_Ymd now)
                    now (add_seconds now 30)),
               w)
          end
      end
  end.

(** The loop of [get_vehicle_data]: each vehicle is updated in place
    before its [VehicleData] is built, so an exception leaves the vehicles
    reached so far updated. *)
Fixpoint update_vehicles (now : datetime) (vehicles : list Vehicle) (w : World)
  : option (list Bods.VehicleData) * list Vehicle * World :=
  match vehicles with
  | [] => (Some [], [], w)
  | vehicle :: rest =>
      let (u, w) := uniform minus_0_001 plus_0_001 w in
      let lat' := fadd (lat (position vehicle)) u in
      let (u, w) := uniform minus_0_001 plus_0_001 w in
      let lon' := fadd (lon (position vehicle)) u in
      let (u, w) := uniform minus_10 plus_10 w in
      let bearing' := mod_int (fadd (bearing (position vehicle)) u) 360 in
      let position := mkPosition lat' lon' bearing' in
      let vehicle :=
        mkVehicle (vehicle_ref vehicle) (block_ref vehicle) (route vehicle)
          position now in
      match vehicle_data now vehicle position w with
      | (None, w) => (None, vehicle :: rest, w)
      | (Some d, w) =>
          let '(r, rest, w) := update_vehicles now rest w in
          (option_map (cons d) r, vehicle :: rest, w)
      end
  end.

(** [get_vehicle_data]: the snapshot ([None] for an exception), the
    vehicles afterwards, the world afterwards. *)
Definition get_vehicle_data (vehicles : list Vehicle) (w : World)
  : option (list Bods.VehicleData) * list Vehicle * World :=
  let (now, w) := utcnow w in update_vehicles now vehicles w.

Variable repr_finite : bool -> positive -> Z -> string.
Variable local_utcoffset : Z -> Z.

(** [main.vehicle_monitoring] with the snapshot taken from the generator:
    the answer and the vehicles afterwards. *)
Definition vehicle_monitoring (vehicles : list Vehicle) (w : World)
  (c : Bods.Criteria) : Http.Result * list Vehicle :=
  match get_vehicle_data vehicles w with
  | (Some vehicles_data, vehicles, w) =>
      (Bods.vehicle_monitoring repr_finite local_utcoffset (clock w)
         vehicles_data c,
       vehicles)
  | (None, vehicles, _) => (Http.HTTPException 500, vehicles)
  end.

End Generator.

End Generator.

(* ================================================================== *)
(** * dashboard: the [cleanup_tracks] command *)
(* ================================================================== *)

Module CleanupTracks.

Import Datetime Maint.

(** The parsed options of the command. *)
Record Options : Type := mkOptions {
  days : Z;
  vehicle : option string;
  operator : option string;
  dry_run : bool;
  force : bool
}.

(** What the command writes: [self.stdout.write] with a style or without
    one, and the prompt of [input]. *)
Inductive Style : Type := SUCCESS | WARNING | PLAIN | PROMPT.

Definition Line : Type := (Style * string)%type.

(** How [handle] ends: it returns, it raises [CommandError], or another
    exception leaves it. *)
Inductive Outcome : Type := Returned | CommandError | Uncaught.

(** [c.lower()] on the letters A to Z. *)
Definition lower_ascii (c : ascii) : ascii :=
  let n := nat_of_ascii c in
  if ((65 <=? n) && (n <=? 90))%nat then ascii_of_nat (n + 32) else c.

Fixpoint lower (s : string) : string :=
  match s with
  | EmptyString => EmptyString
  | String c s' => String (lower_ascii c) (lower s')
  end.

(** The filters of [positions_query]. *)
Definition positions_query (cutoff : datetime)
  (vehicle_ref operator_ref : option string) : list Cond :=
  ([RecordedBefore cutoff]
   ++ (if Py.truthy_opt_str vehicle_ref
       then [VehicleRefIs (Bods.opt_str vehicle_ref)] else [])
   ++ (if Py.truthy_opt_str operator_ref
       then [OperatorRefIs (Bods.opt_str operator_ref)] else []))%list.

(** The filters of [sessions_query]. *)
Definition sessions_query (cutoff : datetime) (vehicle_ref : option string)
  (s : Session) : bool :=
  (instant (start_time s) <? instant cutoff)
  && (if Py.truthy_opt_str vehicle_ref
      then String.eqb (session_vehicle_ref s) (Bods.opt_str vehicle_ref)
      else true).

Definition count_text (n : nat) : string := Py.str_int (Z.of_nat n).

(** [Command.handle]: how it ends, what it wrote, and the database
    afterwards.  [typed] is the line [input] reads, [None] at end of
    input. *)
Definition handle (db : Database) (clk : Clock.Clock) (typed : option string)
  (options : Options) : Outcome * list Line * Database :=
  let vehicle_ref := vehicle options in
  let operator_ref := operator options in
  match minus_days (fst (Clock.now_utc clk)) (days options) with
  | Raise _ => (Uncaught, [], db)
  | Return cutoff =>
      let positions_query := positions_query cutoff vehicle_ref operator_ref in
      let sessions_query := sessions_query cutoff vehicle_ref in
      match
        (do conn <- connect db;
         do position_count <-
           execute conn
             (List.length (filter (selected positions_query)
                             (Live.table (store conn))));
         do session_count <-
           execute conn (List.length (filter sessions_query (sessions conn)));
         Return (position_count, session_count))
      with
      | Raise _ => (Uncaught, [], db)
      | Return (position_count, session_count) =>
          let out :=
            ([(SUCCESS,
               ("Found " ++ count_text position_count
                ++ " vehicle positions and " ++ count_text session_count
                ++ " tracking sessions older than " ++ Py.str_int (days options)
                ++ " days")%string)]
             ++ (if Py.truthy_opt_str vehicle_ref
                 then [(PLAIN,
                        ("Filtered by vehicle: "
                         ++ Bods.opt_str vehicle_ref)%string)]
                 else [])
             ++ (if Py.truthy_opt_str operator_ref
                 then [(PLAIN,
                        ("Filtered by operator: "
                         ++ Bods.opt_str operator_ref)%string)]
                 else []))%list in
          if ((position_count =? 0) && (session_count =? 0))%nat
          then (Returned, (out ++ [(WARNING, "No data to clean up.")])%list, db)
          else
            let delete (out : list Line) : Outcome * list Line * Database :=
              if dry_run options
              then (Returned,
                    (out ++ [(WARNING, "DRY RUN - No data was deleted")])%list,
                    db)
              else
                match
                  (do conn <- connect db;
                   execute conn
                     (delete_positions positions_query (Live.table (store conn))))
                with
                | Raise _ => (CommandError, out, db)
                | Return (rows, positions_deleted) =>
                    match
                      execute db
                        (filter (fun s => negb (sessions_query s)) (sessions db),
                         List.length (filter sessions_query (sessions db)))
                    with
                    | Raise _ =>
                        (CommandError, out, with_table db rows (sessions db))
                    | Return (ss, sessions_deleted) =>
                        (Returned,
                         (out ++
                          [(SUCCESS,
                            ("Successfully deleted "
                             ++ count_text positions_deleted
                             ++ " vehicle positions and "
                             ++ count_text sessions_deleted
                             ++ " tracking sessions")%string)])%list,
                         with_table db rows ss)
                    end
                end in
            if negb (force options) && negb (dry_run options)
            then
              let out :=
                (out ++
                 [(PROMPT,
                   ("This will permanently delete "
                    ++ count_text position_count
                    ++ " positions and " ++ count_text session_count
                    ++ " sessions. Type 'yes' to continue: ")%string)])%list in
              match typed with
              | None => (Uncaught, out, db)
              | Some confirm =>
                  if negb (String.eqb (lower confirm) "yes")
                  then (Returned,
                        (out ++ [(WARNING, "Operation cancelled.")])%list, db)
                  else delete out
              end
            else delete out
      end
  end.

End CleanupTracks.

(* ================================================================== *)
(** * dashboard: starting a tracking session *)
(* ================================================================== *)

Module Tracking.

Import Datetime Maint.

(** What [json.loads] returns. *)
Inductive json : Type :=
| JNull
| JBool (b : bool)
| JInt (n : Z)
| JFloat (f : Float.float)
| JStr (s : string)
| JArr (l : list json)
| JObj (l : list (string * json)).

(** Truthiness of such a value. *)
Definition truthy (v : json) : bool :=
  match v with
  | JNull => false
  | JBool b => b
  | JInt n => Py.truthy_int n
  | JFloat f => Float.truthy f
  | JStr s => Py.truthy_str s
  | JArr l => match l with [] => false | _ :: _ => true end
  | JObj l => match l with [] => false | _ :: _ => true end
  end.

(** The value of a key of an object as [json.loads] builds the [dict]: of
    a key written twice the last value stays. *)
Fixpoint lookup (k : string) (l : list (string * json)) : option json :=
  match l with
  | [] => None
  | (k', v) :: rest =>
      match lookup k rest with
      | Some v' => Some v'
      | None => if String.eqb k' k then Some v else None
      end
  end.

(** [data.get(k, default)]: only a [dict] has it ([AttributeError]
    otherwise). *)
Definition get (data : json) (k : string) (default : json) : res json :=
  match data with
  | JObj l =>
      Return (match lookup k l with
              | Some v => v
              | None => default
              end)
  | _ => Raise Other
  end.

(** A row of [tracking_sessions]. *)
Record TrackingSession : Type := mkTrackingSession {
  id : Z;
  user : Z;
  vehicle_ref : string;
  start_time : datetime;
  end_time : option datetime;
  is_active : bool
}.

(** [request.session['journey_config']]. *)
Record JourneyConfig : Type := mkJourneyConfig {
  line_ref : json;
  direction_ref : json;
  operator_ref : json;
  block_ref : json;
  vehicle_journey_ref : json;
  origin_ref : json;
  origin_name : json;
  destination_ref : json;
  destination_name : json;
  occupancy : json
}.

(** The table, whether the database answers, and the session of the
    request. *)
Record State : Type := mkState {
  rows : list TrackingSession;
  unreachable : bool;
  journey_config : option JourneyConfig
}.

(** The answers of [start_tracking]: the 200 with the id and the message,
    the 400 with its error, the 500. *)
Inductive Response : Type :=
| Started (session_id : Z) (message : string)
| BadRequest (error : string)
| ServerError.

Section Views.

(** [str(v)] for a value that is not a [str]. *)
Variable py_str : json -> string.

Definition str (v : json) : string :=
  match v with
  | JStr s => s
  | _ => py_str v
  end.

(** [filter(user=..., is_active=True).update(is_active=False,
    end_time=now)]. *)
Definition end_active (u : Z) (now : datetime) (s : TrackingSession)
  : TrackingSession :=
  if (user s =? u) && is_active s
  then mkTrackingSession (id s) (user s) (vehicle_ref s) (start_time s)
         (Some now) false
  else s.

Definition update_active (st : State) (u : Z) (now : datetime) : res State :=
  if unreachable st then Raise Other
  else Return (mkState (map (end_active u now) (rows st)) (unreachable st)
                 (journey_config st)).

(** [TrackingSession.objects.create(user=..., vehicle_ref=...)]: the
    column is a [varchar(50)], the value is stored as [str] makes it, the
    start time is the default and the key [pk] is the database's. *)
Definition create (st : State) (pk : Z) (u : Z) (vehicle_ref : json)
  (now : datetime) : res (TrackingSession * State) :=
  if unreachable st then Raise Other
  else if (50 <? String.length (str vehicle_ref))%nat then Raise Other
  else
    let session := mkTrackingSession pk u (str vehicle_ref) now None true in
    Return (session,
            mkState (rows st ++ [session])%list (unreachable st)
              (journey_config st)).

(** The body of [views.start_tracking] for the user [u]: [body] is what
    [json.loads] makes of the request ([None] when it raises), [pk] the
    key the database gives a new row.  The 400 answers are returned, the
    500 answers an exception; what was written before it stays. *)
Definition start_tracking (st : State) (clk : Clock.Clock) (pk : Z) (u : Z)
  (body : option json) : Response * State :=
  match body with
  | None => (ServerError, st)
  | Some data =>
      match
        (do vehicle_ref <- get data "vehicle_ref" JNull;
         do line_ref <- get data "line_ref" (JStr "UNKNOWN");
         Return (vehicle_ref, line_ref))
      with
      | Raise _ => (ServerError, st)
      | Return (vehicle_ref, line_ref) =>
          if negb (truthy vehicle_ref)
          then (BadRequest "Vehicle reference required", st)
          else if negb (truthy line_ref)
          then (BadRequest "Line reference required", st)
          else
            let (now1, clk1) := Clock.now_utc clk in
            match update_active st u now1 with
            | Raise _ => (ServerError, st)
            | Return st1 =>
                let (now2, _) := Clock.now_utc clk1 in
                match create st1 pk u vehicle_ref now2 with
                | Raise _ => (ServerError, st1)
                | Return (session, st2) =>
                    match
                      (do direction_ref <-
                         get data "direction_ref" (JStr "outbound");
                       do operator_ref <-
                         get data "operator_ref" (JStr "UNKNOWN");
                       do block_ref <- get data "block_ref" (JStr "");
                       do vehicle_journey_ref <-
                         get data "vehicle_journey_ref"
                           (JStr ("journey_" ++ str vehicle_ref));
                       do origin_ref <- get data "origin_ref" (JStr "");
                       do origin_name <- get data "origin_name" (JStr "");
                       do destination_ref <-
                         get data "destination_ref" (JStr "");
                       do destination_name <-
                         get data "destination_name" (JStr "");
                       do occupancy <- get data "occupancy" JNull;
                       Return
                         (mkJourneyConfig line_ref direction_ref operator_ref
                            block_ref vehicle_journey_ref origin_ref
                            origin_name destination_ref destination_name
                            occupancy))
                    with
                    | Raise _ => (ServerError, st2)
                    | Return config =>
                        (Started (id session)
                           ("Started tracking vehicle " ++ str vehicle_ref
                            ++ " on line " ++ str line_ref),
                         mkState (rows st2) (unreachable st2) (Some config))
                    end
                end
            end
      end
  end.

End Views.

End Tracking.

Module Notions3.

Import Notions.

(** The number of [%s] placeholders of a statement text. *)
Fixpoint count_placeholders (s : string) : nat :=
  match s with
  | String "%" (String "s" s' as rest) => S (count_placeholders s')
  | String _ s' => count_placeholders s'
  | EmptyString => O
  end.

(** The database answers: connecting and executing both succeed. *)
Definition reachable (db : Maint.Database) : Prop :=
  Live.connect_fails (Maint.store db) = false
  /\ Live.execute_fails (Maint.store db) = false.

Definition positions (db : Maint.Database) : list Live.Row :=
  Live.table (Maint.store db).

(** The row is of the given vehicle, of the given operator. *)
Definition of_vehicle (s : string) (r : Live.Row) : Prop :=
  Live.vehicle_ref r = Some s.

Definition of_operator (s : string) (r : Live.Row) : Prop :=
  Live.operator_ref r = Some s.

Definition recorded (r : Live.Row) : Z :=
  Datetime.instant (Live.recorded_at_time r).

(** A database with three positions of two vehicles and two sessions of the first. *)
Definition sample_db : Maint.Database :=
  Maint.mkDatabase
    (store_of [row_at "V1" (utc 2024 1 1 11 58 0 0);
               row_at "V2" (utc 2024 1 1 11 59 0 0);
               row_at "V1" (utc 2023 11 1 8 0 0 0)])
    [Maint.mkSession 7 "V1" (utc 2024 1 1 11 0 0 0) None;
     Maint.mkSession 8 "V1" (utc 2023 11 1 7 0 0 0)
       (Some (utc 2023 11 1 9 0 0 0))].

(** A reading of [fromisoformat] that accepts no text, and one that reads
    every text as the start of 2024. *)
Definition reads_nothing (s : string) : option Datetime.datetime := None.

Definition reads_2024 (s : string) : option Datetime.datetime :=
  Some (utc 2024 1 1 0 0 0 0).

(** The keys a position report must have. *)
Definition required_keys : list string :=
  ["vehicle_ref"; "line_ref"; "direction_ref"; "published_line_name";
   "operator_ref"; "origin_ref"; "origin_name"; "destination_ref";
   "longitude"; "latitude"; "bearing"; "block_ref"; "vehicle_journey_ref";
   "recorded_at_time"; "valid_until_time"].

(** No two rows of the table have the same key. *)
Inductive keys_unique : list Live.Row -> Prop :=
| keys_unique_nil : keys_unique []
| keys_unique_cons : forall r rows,
    Forall (fun x => Ingest.same_key r x = false) rows ->
    keys_unique rows -> keys_unique (r :: rows).

(** The six columns a conflicting report overwrites, and the others. *)
Definition position_columns (r : Live.Row) :=
  (Live.longitude r, Live.latitude r, Live.bearing r, Live.velocity r,
   Live.occupancy r, Live.valid_until_time r).

Definition journey_columns (r : Live.Row) :=
  (Live.vehicle_ref r, Live.line_ref r, Live.direction_ref r,
   Live.published_line_name r, Live.operator_ref r, Live.origin_ref r,
   Live.origin_name r, Live.destination_ref r, Live.destination_name r,
   Live.block_ref r, Live.vehicle_journey_ref r, Live.recorded_at_time r).

(** A request body as the list of its pairs, and a database reading that
    stores the row [r] whatever the parameters. *)
Definition body_of (pairs : list (string * nat)) : Ingest.dict nat :=
  fun k => option_map snd (List.find (fun kv => String.eqb (fst kv) k) pairs).

Definition full_body : list (string * nat) :=
  map (fun k => (k, 1%nat)) required_keys.

Definition stores (r : Live.Row) (params : list nat) : option Live.Row := Some r.

(** The entry is the one made of the row. *)
Definition shows (r : Live.Row) (e : Dashboard.VehicleEntry) : Prop :=
  Dashboard.entry_of r = Maint.Return e.

(** The rows the loop of [get_vehicles] keeps: the first of each
    reference not yet seen. *)
Fixpoint kept_rows (positions : list Live.Row) (seen : list (option string))
  : list Live.Row :=
  match positions with
  | [] => []
  | pos :: rest =>
      if Dashboard.seen_in (Live.vehicle_ref pos) seen then kept_rows rest seen
      else pos :: kept_rows rest (Live.vehicle_ref pos :: seen)
  end.

(** The vehicles of the generator as it builds them: ten, numbered from
    1000, on three blocks in turn. *)
Definition roster_refs : list string :=
  ["MIDL_1000"; "MIDL_1001"; "MIDL_1002"; "MIDL_1003"; "MIDL_1004";
   "MIDL_1005"; "MIDL_1006"; "MIDL_1007"; "MIDL_1008"; "MIDL_1009"].

Definition roster_blocks : list string :=
  ["BLOCK_1"; "BLOCK_2"; "BLOCK_3"; "BLOCK_1"; "BLOCK_2";
   "BLOCK_3"; "BLOCK_1"; "BLOCK_2"; "BLOCK_3"; "BLOCK_1"].

(** The vehicle runs on one of the three routes. *)
Definition scheduled (v : Generator.Vehicle) : Prop :=
  In (Generator.route v) Generator.routes.

(** The invariant of the generator's vehicles. *)
Definition roster (vehicles : list Generator.Vehicle) : Prop :=
  map Generator.vehicle_ref vehicles = roster_refs
  /\ map Generator.block_ref vehicles = roster_blocks
  /\ Forall scheduled vehicles.

(** The clock reading of the next call, as [utcnow] returns it. *)
Definition reading (w : Generator.World) (k : nat) : Datetime.datetime :=
  Datetime.mk
    (Clock.readings (Generator.clock w) (Clock.calls (Generator.clock w) + k))
    None.

(** A world for the examples: the sample clock, every draw the same. *)
Definition sample_world : Generator.World :=
  Generator.mkWorld sample_clock
    (Generator.mkRng (fun _ => S754_zero false) (fun k _ => k) 0).

Definition only_vehicle (ref : string) : Bods.Criteria :=
  Bods.mkCriteria None None (Some ref) None.

Definition only_operator (ref : string) : Bods.Criteria :=
  Bods.mkCriteria None (Some ref) None None.

(** What a call of [get_vehicle_data] keeps of a vehicle. *)
Definition kept (now : Datetime.datetime) (v v' : Generator.Vehicle) : Prop :=
  Generator.vehicle_ref v' = Generator.vehicle_ref v
  /\ Generator.block_ref v' = Generator.block_ref v
  /\ Generator.route v' = Generator.route v
  /\ Generator.last_update v' = now.

(** The entry of the snapshot tells the vehicle as it is stored after the
    call: its references, the data of its route, its position (the
    bearing rounded to one decimal) and the time of the call. *)
Definition reported (round_ndigits : Float.float -> Z -> Float.float)
  (now : Datetime.datetime) (v' : Generator.Vehicle) (d : Bods.VehicleData)
  : Prop :=
  let r := Generator.route v' in
  Bods.vehicle_ref d = Generator.vehicle_ref v'
  /\ Bods.block_ref d = Generator.block_ref v'
  /\ Bods.line_ref d = Generator.line_ref r
  /\ Bods.direction_ref d = Generator.direction_ref r
  /\ Bods.published_line_name d = Generator.published_line_name r
  /\ Bods.operator_ref d = Generator.operator_ref r
  /\ Bods.origin_ref d = Generator.origin_ref r
  /\ Bods.origin_name d = Generator.origin_name r
  /\ Bods.destination_ref d = Generator.destination_ref r
  /\ Bods.destination_name d = Some (Generator.destination_name r)
  /\ Bods.latitude d = Generator.lat (Generator.position v')
  /\ Bods.longitude d = Generator.lon (Generator.position v')
  /\ Bods.bearing d
     = round_ndigits (Generator.bearing (Generator.position v')) 1
  /\ In (Bods.occupancy d) Generator.occupancies
  /\ Bods.vehicle_journey_ref d
     = "JOURNEY_" ++ Generator.vehicle_ref v' ++ "_" ++ Generator.strftime_Ymd now
  /\ Bods.recorded_at_time d = now
  /\ Bods.valid_until_time d = Datetime.add_seconds now 30.

(** The aimed times of the entry are the times of the vehicle's route on
    the dates of the clock readings [k] and [k + 1]. *)
Definition aimed (c : Clock.Clock) (k : nat) (v : Generator.Vehicle)
  (d : Bods.VehicleData) : Prop :=
  exists H Mi H' Mi',
    Generator.strptime_HM (Generator.origin_departure (Generator.route v))
    = Some (H, Mi)
    /\ Generator.strptime_HM (Generator.destination_arrival (Generator.route v))
       = Some (H', Mi')
    /\ Bods.origin_aimed_departure_time d
       = Some (Generator.combine
                 (Clock.readings c k / Datetime.usec_per_day) H Mi)
    /\ Bods.destination_aimed_arrival_time d
       = Some (Generator.combine
                 (Clock.readings c (S k) / Datetime.usec_per_day) H' Mi').

(** Two vehicles and the roster of a new generator, for the examples;
    [x % n] and [round] are stood for by the identity there. *)
Definition sample_vehicles : list Generator.Vehicle :=
  [Generator.mkVehicle "MIDL_1000" "BLOCK_1"
     (Generator.mkRoute "1" "1 - Birmingham to Dudley" "OUTBOUND" "MIDL"
        "430003002" "Birmingham Moor Street" "430008001" "Dudley Bus Station"
        "08:00" "09:30")
     (Generator.mkPosition (S754_zero false) (S754_zero false) (S754_zero false))
     T0;
   Generator.mkVehicle "MIDL_1001" "BLOCK_2"
     (Generator.mkRoute "45" "45 - Walsall to Birmingham" "INBOUND" "MIDL"
        "430007001" "Walsall Bus Station" "430003002" "Birmingham Moor Street"
        "07:30" "09:00")
     (Generator.mkPosition (S754_zero false) (S754_zero false) (S754_zero false))
     T0].

Definition sample_roster : list Generator.Vehicle :=
  match fst (Generator.VehicleDataGenerator sample_world) with
  | Some vehicles => vehicles
  | None => []
  end.

Definition unchanged (x : Float.float) (_ : Z) : Float.float := x.

(** The number a string of decimal digits writes, read from the left
    after [acc]; and the strings made of decimal digits only. *)
Fixpoint digits_value (s : string) (acc : Z) : Z :=
  match s with
  | EmptyString => acc
  | String c s' => digits_value s' (10 * acc + (Z.of_nat (nat_of_ascii c) - 48))
  end.

Fixpoint digits_only (s : string) : bool :=
  match s with
  | EmptyString => true
  | String c s' => Py.is_digit c && digits_only s'
  end.

(** The command was told to go on: [--force], or the typed answer is
    [yes] in any case of letters. *)
Definition confirmed (typed : option string) (o : CleanupTracks.Options)
  : Prop :=
  CleanupTracks.force o = true
  \/ exists s, typed = Some s /\ CleanupTracks.lower s = "yes".

Definition started (s : Maint.Session) : Z :=
  Datetime.instant (Maint.start_time s).

(** The active sessions of a user. *)
Definition active_of (u : Z) (rows : list Tracking.TrackingSession)
  : list Tracking.TrackingSession :=
  filter (fun s => (Tracking.user s =? u) && Tracking.is_active s) rows.

Definition of_others (u : Z) (rows : list Tracking.TrackingSession)
  : list Tracking.TrackingSession :=
  filter (fun s => negb (Tracking.user s =? u)) rows.

(** The value is absent from the object or falsy in it. *)
Definition absent_or_falsy (k : string) (l : list (string * Tracking.json))
  : Prop :=
  match Tracking.lookup k l with
  | Some v => Tracking.truthy v = false
  | None => True
  end.

(** Two sessions of user 1, the first still active, and one of user 2. *)
Definition sample_sessions : Tracking.State :=
  Tracking.mkState
    [Tracking.mkTrackingSession 1 1 "V1" (utc 2024 1 1 9 0 0 0) None true;
     Tracking.mkTrackingSession 2 2 "V2" (utc 2024 1 1 10 0 0 0) None true;
     Tracking.mkTrackingSession 3 1 "V3" (utc 2024 1 1 8 0 0 0)
       (Some (utc 2024 1 1 8 30 0 0)) false]
    false None.

Definition no_str (v : Tracking.json) : string := "".

(** The clock after [n] more readings. *)
Definition advanced (c : Clock.Clock) (n : nat) : Clock.Clock :=
  Clock.mk (Clock.readings c) (Clock.calls c + n).

End Notions3.

(* ================================================================== *)
(** * Properties *)
(* ================================================================== *)


Module PyFacts.

Import Py.

Lemma pow10_pos k : 0 < pow10 k.
Proof. induction k; cbn [pow10]; lia. Qed.

Lemma zeros_snoc k acc :
  (zeros k ++ String "0" acc)%string = (zeros (S k) ++ acc)%string.
Proof. induction k; simpl; [reflexivity|]. rewrite IHk. reflexivity. Qed.

Lemma fixed_zero k acc : fixed k 0 acc = (zeros k ++ acc)%string.
Proof.
  revert acc. induction k as [|k IH]; intros acc; simpl; [reflexivity|].
  change (0 / 10) with 0. change (digit (0 mod 10)) with "0"%char.
  rewrite IH. apply zeros_snoc.
Qed.

(** With enough fuel, the decimal printing of [n] is its [k]-digit form
    without the leading zeros; there is none when [n] has [k] digits. *)
Lemma dec_fuel_fixed f : forall n acc k,
  0 <= n < pow10 f -> (1 <= f)%nat -> n < pow10 k -> (1 <= k)%nat ->
  exists z,
    fixed k n acc = (zeros z ++ dec_fuel f n acc)%string
    /\ (String.length (dec_fuel f n acc) + z = k + String.length acc)%nat
    /\ (pow10 (k - 1) <= n -> z = O).
Proof.
  induction f as [|f IH]; intros n acc k Hn Hf Hk Hk1; [lia|].
  destruct k as [|k]; [lia|]. simpl fixed. simpl dec_fuel.
  destruct (n <? 10) eqn:E.
  - apply Z.ltb_lt in E. exists k.
    replace (n / 10) with 0 by (symmetry; apply Z.div_small; lia).
    rewrite fixed_zero. split; [reflexivity|]. split; [simpl; lia|].
    replace (S k - 1)%nat with k by lia. intros Hp.
    destruct k; [reflexivity|]. cbn [pow10] in Hp. pose proof (pow10_pos k). lia.
  - apply Z.ltb_ge in E. cbn [pow10] in Hn, Hk.
    assert (H1 : 1 <= n / 10) by (apply Z.div_le_lower_bound; lia).
    assert (H2 : n / 10 < pow10 f) by (apply Z.div_lt_upper_bound; lia).
    assert (H3 : n / 10 < pow10 k) by (apply Z.div_lt_upper_bound; lia).
    assert (Hf' : (1 <= f)%nat) by (destruct f; [cbn [pow10] in H2; lia | lia]).
    assert (Hk' : (1 <= k)%nat) by (destruct k; [cbn [pow10] in H3; lia | lia]).
    destruct (IH (n / 10) (String (digit (n mod 10)) acc) k) as (z & Ez & El & Ep);
      try lia.
    exists z. split; [exact Ez|]. split; [simpl in El; lia|].
    replace (S k - 1)%nat with k by lia. intros Hp. apply Ep.
    destruct k as [|k]; [lia|]. replace (S k - 1)%nat with k by lia.
    cbn [pow10] in Hp. apply Z.div_le_lower_bound; lia.
Qed.

Lemma pow10_pow k : pow10 k = 10 ^ Z.of_nat k.
Proof.
  induction k as [|k IH]; [reflexivity|].
  rewrite Nat2Z.inj_succ, Z.pow_succ_r by lia. cbn [pow10]. rewrite IH. reflexivity.
Qed.

(** The fuel [dec_nonneg] takes is enough. *)
Lemma dec_nonneg_fuel n : 0 <= n -> n < pow10 (S (Z.to_nat (Z.log2 n))).
Proof.
  intros Hn. rewrite pow10_pow, Nat2Z.inj_succ, Z2Nat.id by apply Z.log2_nonneg.
  destruct (Z.eq_dec n 0) as [->|Hz]; [reflexivity|].
  pose proof (Z.log2_spec n ltac:(lia)) as [_ Hu].
  eapply Z.lt_le_trans; [exact Hu|].
  apply Z.pow_le_mono_l. pose proof (Z.log2_nonneg n). lia.
Qed.

(** ["%0kd" % n] is the [k]-digit form when [n] fits. *)
Lemma zpad_fixed k n :
  (1 <= k)%nat -> 0 <= n < pow10 k -> zpad k n = fixed k n "".
Proof.
  intros Hk Hn. unfold zpad, dec_nonneg.
  destruct (dec_fuel_fixed (S (Z.to_nat (Z.log2 n))) n "" k)
    as (z & Ez & El & _); try lia.
  { split; [lia | apply dec_nonneg_fuel; lia]. }
  rewrite Ez.
  set (s := dec_fuel (S (Z.to_nat (Z.log2 n))) n "") in *.
  change (String.length "") with O in El.
  replace (k - String.length s)%nat with z by lia. reflexivity.
Qed.

(** [str(n)] is the [k]-digit form when [n] has exactly [k] digits. *)
Lemma dec_nonneg_fixed k n :
  (1 <= k)%nat -> pow10 (k - 1) <= n < pow10 k -> dec_nonneg n = fixed k n "".
Proof.
  intros Hk Hn. unfold dec_nonneg.
  pose proof (pow10_pos (k - 1)).
  destruct (dec_fuel_fixed (S (Z.to_nat (Z.log2 n))) n "" k)
    as (z & Ez & _ & Ep); try lia.
  { split; [lia | apply dec_nonneg_fuel; lia]. }
  rewrite Ez, (Ep ltac:(lia)). reflexivity.
Qed.

Lemma is_digit_digit d : 0 <= d < 10 -> is_digit (digit d) = true.
Proof.
  intros Hd.
  assert (E : In d [0; 1; 2; 3; 4; 5; 6; 7; 8; 9]) by (simpl; lia).
  simpl in E.
  repeat (destruct E as [<-|E]; [reflexivity|]). contradiction.
Qed.

Lemma is_digit_mod n : is_digit (digit (n mod 10)) = true.
Proof. apply is_digit_digit. apply Z.mod_pos_bound. lia. Qed.

End PyFacts.

Module FilterFacts.

Import Notions.

(** The three reference filters amount to one pass with the conjunction of
    their predicates. *)
Lemma filter_filter {A : Type} (p q : A -> bool) (l : list A) :
  filter q (filter p l) = filter (fun x => p x && q x) l.
Proof.
  induction l as [|x l IH]; simpl; [reflexivity|].
  destruct (p x); simpl; [destruct (q x)|]; rewrite IH; reflexivity.
Qed.

Lemma filter_true {A : Type} (l : list A) : filter (fun _ => true) l = l.
Proof. induction l; simpl; congruence. Qed.

Lemma apply_filters_spec (c : Bods.Criteria) (s : list Bods.VehicleData) :
  Bods.apply_filters c s = truncate c (filter (matches c) s).
Proof.
  unfold Bods.apply_filters, truncate.
  assert (E : forall (b : bool) (p : Bods.VehicleData -> bool) l,
             (if b then filter p l else l)
             = filter (fun v => if b then p v else true) l).
  { intros [] p l; [reflexivity | symmetry; apply filter_true]. }
  rewrite !E, !filter_filter. reflexivity.
Qed.

Lemma filter_all_true {A : Type} (p : A -> bool) (l : list A) :
  Forall (fun x => p x = true) l -> filter p l = l.
Proof.
  induction 1 as [|x l Hx _ IH]; simpl; [reflexivity|].
  rewrite Hx, IH. reflexivity.
Qed.

Lemma Forall_firstn {A : Type} (P : A -> Prop) (n : nat) (l : list A) :
  Forall P l -> Forall P (firstn n l).
Proof.
  intros H. revert n. induction H; intros [|n]; simpl; constructor; auto.
Qed.

Lemma Forall_filter {A : Type} (p : A -> bool) (l : list A) :
  Forall (fun x => p x = true) (filter p l).
Proof.
  apply Forall_forall. intros x Hx. apply filter_In in Hx. tauto.
Qed.

Lemma firstn_idem {A : Type} (n : nat) (l : list A) :
  firstn n (firstn n l) = firstn n l.
Proof. rewrite firstn_firstn, Nat.min_id. reflexivity. Qed.

Lemma subseq_refl {A : Type} (l : list A) : subseq l l.
Proof. induction l; [constructor | apply subseq_keep; assumption]. Qed.

Lemma subseq_trans {A : Type} (l1 l2 l3 : list A) :
  subseq l1 l2 -> subseq l2 l3 -> subseq l1 l3.
Proof.
  intros H12 H23. revert l1 H12.
  induction H23 as [|x l2 l3 H23 IH|x l2 l3 H23 IH]; intros l1 H12.
  - assumption.
  - apply subseq_skip. auto.
  - inversion H12; subst; [apply subseq_skip | apply subseq_keep]; auto.
Qed.

Lemma subseq_filter {A : Type} (p : A -> bool) (l : list A) :
  subseq (filter p l) l.
Proof.
  induction l as [|x l IH]; simpl; [constructor|].
  destruct (p x); [apply subseq_keep | apply subseq_skip]; assumption.
Qed.

Lemma subseq_nil_l {A : Type} (l : list A) : subseq [] l.
Proof. induction l; constructor; assumption. Qed.

Lemma subseq_firstn {A : Type} (n : nat) (l : list A) : subseq (firstn n l) l.
Proof.
  revert n. induction l as [|x l IH]; intros [|n]; simpl.
  - constructor.
  - constructor.
  - apply subseq_nil_l.
  - apply subseq_keep, IH.
Qed.

Lemma subseq_slice_to {A : Type} (l : list A) (n : Z) :
  subseq (Py.slice_to l n) l.
Proof. unfold Py.slice_to. destruct (n <? 0); apply subseq_firstn. Qed.

Lemma subseq_truncate c l : subseq (truncate c l) l.
Proof.
  unfold truncate. destruct (Bods.MaximumNumberOfVehicles c) as [n|];
    [destruct (Py.truthy_int n)|]; auto using subseq_refl, subseq_slice_to.
Qed.

(** The filter keeps the input order, whatever the criteria. *)
Lemma apply_filters_subseq c s : subseq (Bods.apply_filters c s) s.
Proof.
  rewrite apply_filters_spec.
  eapply subseq_trans; [apply subseq_truncate | apply subseq_filter].
Qed.

(** Truncation to a bound that is not negative. *)
Lemma truncate_nonneg c l n :
  Bods.MaximumNumberOfVehicles c = Some n -> 0 <= n ->
  truncate c l = if n =? 0 then l else firstn (Z.to_nat n) l.
Proof.
  intros E Hn. unfold truncate, Py.truthy_int, Py.slice_to. rewrite E.
  destruct (n =? 0) eqn:E0; simpl; [reflexivity|].
  destruct (n <? 0) eqn:E1; [lia | reflexivity].
Qed.

Lemma apply_filters_idem c s :
  max_not_negative c ->
  Bods.apply_filters c (Bods.apply_filters c s) = Bods.apply_filters c s.
Proof.
  intros Hc. rewrite !apply_filters_spec.
  set (f := filter (matches c) s).
  assert (Hf : Forall (fun v => matches c v = true) f)
    by apply Forall_filter.
  unfold max_not_negative in Hc.
  destruct (Bods.MaximumNumberOfVehicles c) as [n|] eqn:E.
  - rewrite !(truncate_nonneg c _ n E Hc).
    destruct (n =? 0).
    + rewrite (filter_all_true _ f Hf). reflexivity.
    + rewrite (filter_all_true _ (firstn _ f)) by (apply Forall_firstn, Hf).
      apply firstn_idem.
  - unfold truncate. rewrite E.
    rewrite (filter_all_true _ f Hf). reflexivity.
Qed.

End FilterFacts.

Module FilterClaims.

Import Notions FilterFacts.

Lemma apply_filters_without_max c s :
  Bods.apply_filters (without_max c) s = filter (matches c) s.
Proof. rewrite apply_filters_spec. reflexivity. Qed.

(** A maximum of zero is falsy, so the slice is skipped. *)
Lemma apply_filters_max_zero c s :
  Bods.MaximumNumberOfVehicles c = Some 0 ->
  Bods.apply_filters c s = Bods.apply_filters (without_max c) s.
Proof.
  intros E. rewrite apply_filters_without_max, apply_filters_spec.
  unfold truncate. rewrite E. reflexivity.
Qed.

(** C1 (as the code behaves): with [MaximumNumberOfVehicles=0] and a
    snapshot of three vehicles, the feed answers 200 with a document that
    has the SIRI envelope and three [VehicleActivity] elements, not zero:
    the test [if MaximumNumberOfVehicles:] takes 0 for an absent
    parameter. *)
Theorem C1_max_zero_keeps_all_activities :
  let r := Bods.vehicle_monitoring repr_table utc_host sample_clock
             [midl_1000; midl_1001; midl_1002] (max_only 0) in
  Http.status r = 200
  /\ option_map has_envelope (Http.document r) = Some true
  /\ option_map activity_count (Http.document r) = Some 3%nat.
Proof. vm_compute. repeat split; reflexivity. Qed.

(** C9 (as stated) fails on a negative maximum: each pass removes one more
    entry from the end. *)
Lemma C9_negative_max_not_idempotent :
  Bods.apply_filters (max_only (-1))
    (Bods.apply_filters (max_only (-1)) [midl_1000; midl_1001; midl_1002])
  <> Bods.apply_filters (max_only (-1)) [midl_1000; midl_1001; midl_1002].
Proof. vm_compute. intros H. discriminate H. Qed.

(** C9 (amended): for every snapshot and every criteria whose maximum is
    absent or not negative, filtering twice equals filtering once, and the
    surviving entries keep their relative input order. *)
Theorem C9_filter_idempotent_order_preserving c s :
  max_not_negative c ->
  Bods.apply_filters c (Bods.apply_filters c s) = Bods.apply_filters c s
  /\ subseq (Bods.apply_filters c s) s.
Proof.
  intros Hc. split; [apply apply_filters_idem, Hc | apply apply_filters_subseq].
Qed.

Lemma C9_filter_idempotent_witness :
  let c := Bods.mkCriteria (Some "45") (Some "MIDL") None (Some 1) in
  let s := [midl_1000; midl_1001; midl_1002; midl_1001] in
  max_not_negative c
  /\ Bods.apply_filters c s = [midl_1001]
  /\ Bods.apply_filters c (Bods.apply_filters c s) = Bods.apply_filters c s
  /\ subseq (Bods.apply_filters c s) s.
Proof.
  intros c s.
  assert (Hc : max_not_negative c)
    by (subst c; unfold max_not_negative; simpl; lia).
  split; [exact Hc|]. split; [vm_compute; reflexivity|].
  exact (C9_filter_idempotent_order_preserving c s Hc).
Defined.



End FilterClaims.

Module StringFacts.

Import Py.

Lemma append_assoc (a b c : string) :
  ((a ++ b) ++ c)%string = (a ++ (b ++ c))%string.
Proof. induction a; simpl; congruence. Qed.

Lemma length_append (a b : string) :
  String.length (a ++ b) = (String.length a + String.length b)%nat.
Proof. induction a; simpl; congruence. Qed.

Lemma str_firstn_app (a b : string) :
  str_firstn (String.length a) (a ++ b) = a.
Proof. induction a; simpl; [destruct b|]; congruence. Qed.

(** [(a + b)[:-k]] is [a] when [b] has [k > 0] characters. *)
Lemma str_slice_to_drop (a b : string) (k : nat) :
  String.length b = k -> (0 < k)%nat ->
  str_slice_to (a ++ b) (- Z.of_nat k) = a.
Proof.
  intros Hb Hk. unfold str_slice_to.
  replace (- Z.of_nat k <? 0) with true by lia.
  rewrite length_append, Hb.
  replace (Z.to_nat (Z.max 0 (Z.of_nat (String.length a + k) + - Z.of_nat k)))
    with (String.length a) by lia.
  apply str_firstn_app.
Qed.

Lemma fixed_app k : forall n acc, fixed k n acc = (fixed k n "" ++ acc)%string.
Proof.
  induction k as [|k IH]; intros n acc; simpl fixed; [reflexivity|].
  rewrite (IH _ (String _ acc)), (IH _ (String _ "")), append_assoc.
  reflexivity.
Qed.

Lemma fixed_split j k : forall n acc,
  fixed (j + k) n acc = fixed j (n / pow10 k) (fixed k n acc).
Proof.
  induction k as [|k IH]; intros n acc.
  - rewrite Nat.add_0_r. cbn [pow10 fixed]. rewrite Z.div_1_r. reflexivity.
  - rewrite Nat.add_succ_r. cbn [pow10 fixed]. rewrite IH.
    rewrite Z.div_div by (pose proof (PyFacts.pow10_pos k); lia). reflexivity.
Qed.

Lemma length_fixed k : forall n acc,
  String.length (fixed k n acc) = (k + String.length acc)%nat.
Proof.
  induction k as [|k IH]; intros n acc; simpl fixed; [reflexivity|].
  rewrite IH. simpl. lia.
Qed.

End StringFacts.

Module DatetimeFacts.

Import Py Datetime PyFacts StringFacts.

Lemma tod_range dt : 0 <= tod dt < usec_per_day.
Proof. apply Z.mod_pos_bound. reflexivity. Qed.

Lemma hour_range dt : 0 <= hour dt < 24.
Proof.
  pose proof (tod_range dt) as H. unfold hour.
  unfold usec_per_day, usec_per_sec in *.
  split; [apply Z.div_pos; lia | apply Z.div_lt_upper_bound; lia].
Qed.

Lemma minute_range dt : 0 <= minute dt < 60.
Proof. apply Z.mod_pos_bound. lia. Qed.

Lemma second_range dt : 0 <= second dt < 60.
Proof. apply Z.mod_pos_bound. lia. Qed.

Lemma microsecond_range dt : 0 <= microsecond dt < 1000000.
Proof. apply Z.mod_pos_bound. reflexivity. Qed.

Lemma doe_range z : 0 <= doe_of z < 146097.
Proof. apply Z.mod_pos_bound. lia. Qed.

Lemma doy_range doe : 0 <= doe < 146097 -> 0 <= doy_of doe <= 365.
Proof. intros H. unfold doy_of, yoe_of. Z.div_mod_to_equations. lia. Qed.

Lemma mp_day_range doy :
  0 <= doy <= 365 ->
  0 <= mp_of doy <= 11 /\ 1 <= doy - (153 * mp_of doy + 2) / 5 + 1 <= 31.
Proof. intros H. unfold mp_of. Z.div_mod_to_equations. lia. Qed.

Lemma month_range dt : 1 <= month dt <= 12.
Proof.
  unfold month, month_of_days.
  destruct (mp_day_range _ (doy_range _ (doe_range (days dt)))) as [H _].
  destruct (_ <? 10) eqn:E; [apply Z.ltb_lt in E | apply Z.ltb_ge in E]; lia.
Qed.

Lemma day_range dt : 1 <= day dt <= 31.
Proof.
  unfold day, day_of_days.
  apply (mp_day_range _ (doy_range _ (doe_range (days dt)))).
Qed.

(** The text [format_datetime] produces, digit group by digit group: the
    last group holds the milliseconds, the microseconds cut off. *)
Lemma format_datetime_digits dt :
  four_digit_year dt ->
  Bods.format_datetime dt
  = (fixed 4 (year dt) "" ++ "-" ++ fixed 2 (month dt) "" ++ "-"
     ++ fixed 2 (day dt) "" ++ "T" ++ fixed 2 (hour dt) "" ++ ":"
     ++ fixed 2 (minute dt) "" ++ ":" ++ fixed 2 (second dt) "" ++ "."
     ++ fixed 3 (microsecond dt / 1000) "" ++ "Z")%string.
Proof.
  intros Hy. unfold four_digit_year in Hy.
  unfold Bods.format_datetime, strftime_iso_f.
  pose proof (month_range dt). pose proof (day_range dt).
  pose proof (hour_range dt). pose proof (minute_range dt).
  pose proof (second_range dt). pose proof (microsecond_range dt).
  rewrite (dec_nonneg_fixed 4) by (cbn [pow10 Nat.sub]; lia).
  rewrite !(zpad_fixed 2) by (cbn [pow10]; lia).
  rewrite (zpad_fixed 6) by (cbn [pow10]; lia).
  change (fixed 6 (microsecond dt) "") with (fixed (3 + 3) (microsecond dt) "").
  rewrite (fixed_split 3 3 (microsecond dt) "").
  change (pow10 3) with 1000.
  rewrite (fixed_app 3 (microsecond dt / 1000) (fixed 3 (microsecond dt) "")).
  rewrite <- !append_assoc.
  rewrite (str_slice_to_drop _ _ 3) by (rewrite ?length_fixed; auto).
  rewrite !append_assoc. reflexivity.
Qed.

(** [format_datetime] has the form [YYYY-MM-DDTHH:MM:SS.mmmZ]. *)
Lemma format_datetime_is_ms_z dt :
  four_digit_year dt -> is_ms_z (Bods.format_datetime dt) = true.
Proof.
  intros Hy. rewrite (format_datetime_digits dt Hy).
  cbn [fixed append]. unfold is_ms_z. cbn [list_ascii_of_string forallb].
  rewrite !is_digit_mod. reflexivity.
Qed.

End DatetimeFacts.

Module XmlFacts.

Import Xml.

Lemma descendants_eq t a x cs :
  descendants (Elem t a x cs) = Elem t a x cs :: flat_map descendants cs.
Proof. reflexivity. Qed.

Lemma forallb_flat_map {A B : Type} (p : B -> bool) (f : A -> list B) l :
  forallb p (flat_map f l) = forallb (fun a => forallb p (f a)) l.
Proof.
  induction l as [|a l IH]; simpl; [reflexivity|].
  rewrite forallb_app, IH. reflexivity.
Qed.

Lemma forallb_descendants (p : Element -> bool) t a x cs :
  forallb p (descendants (Elem t a x cs))
  = p (Elem t a x cs) && forallb (fun c => forallb p (descendants c)) cs.
Proof. rewrite descendants_eq. simpl. rewrite forallb_flat_map. reflexivity. Qed.

End XmlFacts.

Module FormatClaims.

Import Notions Datetime XmlFacts DatetimeFacts.

Section Bods.

Variable repr_finite : bool -> positive -> Z -> string.
Variable local_utcoffset : Z -> Z.

(** Every datetime element of one activity has the millisecond form. *)
Lemma activity_datetimes_ok v item_id :
  vehicle_in_range v ->
  forallb datetime_text_ok
    (Xml.descendants (Bods.create_vehicle_activity_xml repr_finite v item_id))
  = true.
Proof.
  intros (Hr & Hv & Ho & Hd).
  pose proof (format_datetime_is_ms_z _ Hr) as Er.
  pose proof (format_datetime_is_ms_z _ Hv) as Ev.
  assert (Eo : forall t, Bods.origin_aimed_departure_time v = Some t ->
                         is_ms_z (Bods.format_datetime t) = true).
  { intros t E. rewrite E in Ho. apply format_datetime_is_ms_z, Ho. }
  assert (Ed : forall t, Bods.destination_aimed_arrival_time v = Some t ->
                         is_ms_z (Bods.format_datetime t) = true).
  { intros t E. rewrite E in Hd. apply format_datetime_is_ms_z, Hd. }
  unfold Bods.create_vehicle_activity_xml.
  destruct (Bods.origin_aimed_departure_time v) as [t1|];
    destruct (Bods.destination_aimed_arrival_time v) as [t2|];
    destruct (Py.truthy_str item_id), (Py.truthy_opt_str (Bods.destination_name v)),
      (Bods.velocity v), (Py.truthy_opt_str (Bods.occupancy v));
    cbn -[is_ms_z Bods.format_datetime Bods.str_float];
    rewrite ?Er, ?Ev, ?(Eo _ eq_refl), ?(Ed _ eq_refl); reflexivity.
Qed.

Lemma activities_datetimes_ok vehicles : forall clk i,
  Forall vehicle_in_range vehicles ->
  forallb (fun a => forallb datetime_text_ok (Xml.descendants a))
    (Bods.vehicle_activities repr_finite local_utcoffset clk i vehicles)
  = true.
Proof.
  induction vehicles as [|v vs IH]; intros clk i Hvs; [reflexivity|].
  inversion Hvs as [|? ? Hv Hrest]; subst.
  cbn [Bods.vehicle_activities Clock.utcnow forallb].
  rewrite (activity_datetimes_ok v _ Hv), IH by assumption. reflexivity.
Qed.


End Bods.

End FormatClaims.

Module ProviderFacts.

Import Notions Datetime Live.

Lemma insert_desc_perm r l : Permutation (insert_desc r l) (r :: l).
Proof.
  induction l as [|x l IH]; simpl; [apply Permutation_refl|].
  destruct (_ <? _); [apply Permutation_refl|].
  eapply perm_trans; [apply perm_skip, IH | apply perm_swap].
Qed.

Lemma order_by_recorded_desc_perm l : Permutation (order_by_recorded_desc l) l.
Proof.
  induction l as [|r l IH]; simpl; [apply perm_nil|].
  eapply perm_trans; [apply insert_desc_perm | apply perm_skip, IH].
Qed.

Lemma insert_desc_sorted r l :
  StronglySorted newer_first l -> StronglySorted newer_first (insert_desc r l).
Proof.
  induction 1 as [|x l Hs IH Hx]; simpl.
  - constructor; constructor.
  - destruct (_ <? _) eqn:E.
    + apply Z.ltb_lt in E. constructor; [constructor; assumption|].
      constructor; [unfold newer_first; lia|].
      eapply Forall_impl; [|exact Hx]. unfold newer_first. intros; lia.
    + apply Z.ltb_ge in E. constructor; [exact IH|].
      eapply Permutation_Forall;
        [apply Permutation_sym, insert_desc_perm|].
      constructor; [exact E | exact Hx].
Qed.

Lemma order_by_recorded_desc_sorted l :
  StronglySorted newer_first (order_by_recorded_desc l).
Proof.
  induction l as [|r l IH]; simpl; [constructor | apply insert_desc_sorted, IH].
Qed.

(** What [get_vehicle_data] returns, case by case. *)
Lemma get_vehicle_data_eq st :
  get_vehicle_data st
  = if connect_fails st || execute_fails st
    then []
    else order_by_recorded_desc (filter (is_fresh (db_now st)) (table st)).
Proof.
  unfold get_vehicle_data, get_db_connection, execute_fetchall.
  destruct (connect_fails st); simpl; [reflexivity|].
  destruct (execute_fails st); reflexivity.
Qed.

Lemma get_vehicle_data_perm st :
  Permutation (get_vehicle_data st) (fresh_rows st).
Proof.
  rewrite get_vehicle_data_eq. unfold fresh_rows.
  destruct (_ || _); [apply perm_nil | apply order_by_recorded_desc_perm].
Qed.

Lemma get_vehicle_data_unreachable st :
  store_unreachable st -> get_vehicle_data st = [].
Proof.
  intros [H|H]; rewrite get_vehicle_data_eq, H; [reflexivity|].
  rewrite orb_true_r. reflexivity.
Qed.

End ProviderFacts.

Module ProviderClaims.

Import Notions Datetime ProviderFacts.

(** C2 (as stated) fails: two fresh rows of the same vehicle are both in
    the snapshot. *)
Lemma C2_same_vehicle_twice :
  map Live.vehicle_ref
    (Live.get_vehicle_data
       (store_of [row_at "V1" (utc 2024 1 1 11 58 0 0);
                  row_at "V1" (utc 2024 1 1 11 59 0 0)]))
  = [Some "V1"; Some "V1"].
Proof. vm_compute. reflexivity. Qed.

(** C2 (amended): for every store, the live snapshot holds exactly the rows
    recorded within the last five minutes, one entry per row (none when the
    store cannot be read), most recent first. *)
Theorem C2_snapshot_fresh_rows_newest_first (st : Live.Store) :
  Permutation (Live.get_vehicle_data st) (fresh_rows st)
  /\ StronglySorted newer_first (Live.get_vehicle_data st).
Proof.
  split; [apply get_vehicle_data_perm|].
  rewrite get_vehicle_data_eq.
  destruct (_ || _); [constructor | apply order_by_recorded_desc_sorted].
Qed.

(** C3 (as stated) fails: a row recorded one minute before [now] and valid
    for 30 seconds is in the snapshot although its validity ended. *)
Lemma C3_expired_row_in_snapshot :
  let r := row_at "V1" (utc 2024 1 1 11 59 0 0) in
  let st := store_of [r] in
  Live.get_vehicle_data st = [r]
  /\ option_map (fun t => instant t <? Live.db_now st) (Live.valid_until_time r)
     = Some true.
Proof. vm_compute. split; reflexivity. Qed.

(** C3 (amended): for every store, every entry of the live snapshot was
    recorded less than five minutes before the server's [now]; the
    validity end is not looked at. *)
Theorem C3_snapshot_within_freshness_window (st : Live.Store) :
  Forall (fun r => Live.db_now st - Live.freshness_window
                   < instant (Live.recorded_at_time r))
    (Live.get_vehicle_data st).
Proof.
  eapply Permutation_Forall;
    [apply Permutation_sym, get_vehicle_data_perm|].
  unfold fresh_rows. destruct (_ || _); [constructor|].
  apply Forall_forall. intros r Hr. apply filter_In in Hr.
  destruct Hr as [_ Hr]. unfold Live.is_fresh in Hr.
  apply Z.ltb_lt in Hr. exact Hr.
Qed.

End ProviderClaims.

Module LiveFacts.

Import Notions Datetime Live XmlFacts.

Lemma text_ok_cons c s : Xml.text_ok (String c s) = Xml.char_ok c && Xml.text_ok s.
Proof. reflexivity. Qed.

Lemma text_ok_app a b : Xml.text_ok (a ++ b) = Xml.text_ok a && Xml.text_ok b.
Proof.
  induction a as [|c a IH]; [reflexivity|].
  simpl append. rewrite !text_ok_cons, IH, andb_assoc. reflexivity.
Qed.

Lemma char_ok_digit n : Xml.char_ok (Py.digit (n mod 10)) = true.
Proof.
  pose proof (Z.mod_pos_bound n 10 ltac:(lia)) as H.
  assert (E : In (n mod 10) [0; 1; 2; 3; 4; 5; 6; 7; 8; 9]) by (simpl; lia).
  simpl in E.
  repeat (destruct E as [<-|E]; [reflexivity|]). contradiction.
Qed.

Lemma text_ok_zeros k : Xml.text_ok (Py.zeros k) = true.
Proof. induction k; [reflexivity|]. simpl Py.zeros. rewrite text_ok_cons, IHk. reflexivity. Qed.

Lemma text_ok_dec_fuel f : forall n acc,
  Xml.text_ok acc = true -> Xml.text_ok (Py.dec_fuel f n acc) = true.
Proof.
  induction f as [|f IH]; intros n acc Hacc; [exact Hacc|].
  simpl Py.dec_fuel.
  assert (H : Xml.text_ok (String (Py.digit (n mod 10)) acc) = true)
    by (rewrite text_ok_cons, char_ok_digit, Hacc; reflexivity).
  destruct (n <? 10); [exact H | apply IH, H].
Qed.

Lemma text_ok_zpad w n : Xml.text_ok (Py.zpad w n) = true.
Proof.
  unfold Py.zpad, Py.dec_nonneg.
  rewrite text_ok_app, text_ok_zeros, text_ok_dec_fuel; reflexivity.
Qed.

(** The text of [isoformat] holds digits and separators only. *)
Lemma text_ok_isoformat dt : Xml.text_ok (isoformat dt) = true.
Proof.
  unfold isoformat, iso_offset.
  destruct (microsecond dt =? 0), (tzinfo dt) as [off|];
    try destruct (off <? 0); try destruct (Z.abs off mod 60 =? 0);
    repeat (rewrite text_ok_app || rewrite text_ok_zpad); reflexivity.
Qed.

(** The empty delivery is accepted by the XML parser. *)
Lemma create_siri_xml_empty repr clk :
  create_siri_xml repr (make_service_delivery clk [])
  = Exc.Ok (siri_tree repr (make_service_delivery clk [])).
Proof.
  unfold create_siri_xml, Xml.toprettyxml.
  replace (forallb Xml.element_ok _) with true; [reflexivity|].
  symmetry. unfold make_service_delivery, siri_tree.
  cbn -[isoformat Xml.descendants].
  unfold Xml.node, Xml.leaf.
  repeat (rewrite forallb_descendants; cbn [forallb app]).
  unfold Xml.element_ok. cbn -[isoformat].
  rewrite !text_ok_isoformat. reflexivity.
Qed.

Lemma build_activity_raise r e :
  build_activity r = Exc.Raise e -> e = Exc.ValidationError.
Proof.
  unfold build_activity, required. destruct r; simpl.
  repeat match goal with
         | |- context [match ?o with Some _ => _ | None => _ end] =>
             destruct o; simpl
         end; congruence.
Qed.

Lemma build_activity_missing r :
  missing_required r = true -> build_activity r = Exc.Raise Exc.ValidationError.
Proof.
  unfold missing_required, build_activity, required. destruct r; simpl.
  repeat match goal with
         | |- context [match ?o with Some _ => _ | None => _ end] =>
             destruct o; simpl
         end; (reflexivity || discriminate).
Qed.

Lemma mapM_build_activity_missing l :
  Exists (fun r => missing_required r = true) l ->
  Exc.mapM build_activity l = Exc.Raise Exc.ValidationError.
Proof.
  induction 1 as [r l Hr | r l _ IH]; simpl.
  - rewrite (build_activity_missing r Hr). reflexivity.
  - destruct (build_activity r) as [a|e] eqn:E; simpl.
    + rewrite IH. reflexivity.
    + rewrite (build_activity_raise r e E). reflexivity.
Qed.

End LiveFacts.

Module SampleFacts.

Import Notions Datetime.

Lemma sample_clock_in_range : clock_in_range sample_clock.
Proof.
  intros k. unfold sample_clock, Clock.readings.
  assert (E : In (Z.min (Z.of_nat k) 10) [0; 1; 2; 3; 4; 5; 6; 7; 8; 9; 10])
    by (simpl; lia).
  simpl in E.
  repeat (destruct E as [<-|E];
          [split; unfold four_digit_year; vm_compute;
           split; intros H; discriminate H|]).
  contradiction.
Qed.

Lemma sample_vehicles_in_range :
  Forall vehicle_in_range [midl_1000; midl_1001; midl_1002].
Proof.
  repeat constructor; unfold opt_in_range, four_digit_year;
    vm_compute; try exact I; intros H; discriminate H.
Qed.

End SampleFacts.

Module LiveClaims.

Import Notions Datetime LiveFacts ProviderFacts.



(** The bods-api encoder writes a [Velocity] element exactly when the
    velocity is set, zero included. *)
Lemma bods_velocity_iff_set repr v item_id :
  Xml.elements_named "Velocity" (Bods.create_vehicle_activity_xml repr v item_id)
  = match Bods.velocity v with
    | Some f => [Xml.leaf "Velocity" (Float.str repr f)]
    | None => []
    end.
Proof.
  unfold Bods.create_vehicle_activity_xml, Bods.str_float.
  destruct (Bods.origin_aimed_departure_time v),
    (Bods.destination_aimed_arrival_time v), (Bods.velocity v),
    (Py.truthy_opt_str (Bods.destination_name v)),
    (Py.truthy_opt_str (Bods.occupancy v)), (Py.truthy_str item_id);
    reflexivity.
Qed.

(** The encoder of the live feed writes none for a zero velocity. *)
Lemma live_zero_velocity_no_element repr a sign :
  Live.mvj_velocity (Live.monitored_vehicle_journey a) = Some (S754_zero sign) ->
  Xml.elements_named "Velocity" (Live.activity_xml repr a) = [].
Proof.
  intros E. unfold Live.activity_xml. rewrite E.
  destruct
    (Live.mvj_origin_aimed_departure_time (Live.monitored_vehicle_journey a)),
    (Live.mvj_destination_aimed_arrival_time (Live.monitored_vehicle_journey a)),
    (Py.truthy_opt_str (Live.mvj_destination_name (Live.monitored_vehicle_journey a))),
    (Py.truthy_opt_str (Live.mvj_occupancy (Live.monitored_vehicle_journey a))),
    (Py.truthy_opt_str (Live.va_item_identifier a));
    reflexivity.
Qed.

(** C5 (as the code behaves): a row whose velocity is 0.0 goes through the
    live feed without a [Velocity] element, since [if ...velocity:] is
    false for 0.0; the bods-api encoder, which tests [is not None], writes
    [<Velocity>0.0</Velocity>] for the same value. *)
Theorem C5_live_zero_velocity_dropped :
  let r := with_velocity (Some (S754_zero false))
             (row_at "V1" (utc 2024 1 1 11 59 0 0)) in
  let live := Live.get_vehicle_monitoring repr_table (store_of [r]) sample_clock in
  let bods := Bods.vehicle_monitoring repr_table utc_host sample_clock
                [midl_1000] no_criteria in
  Http.status live = 200
  /\ option_map activity_count (Http.document live) = Some 1%nat
  /\ option_map (Xml.elements_named "Velocity") (Http.document live) = Some []
  /\ Bods.velocity midl_1000 = Some (S754_zero false)
  /\ option_map (Xml.elements_named "Velocity") (Http.document bods)
     = Some [Xml.leaf "Velocity" "0.0"].
Proof. vm_compute. repeat split; reflexivity. Qed.

(** C6: when the store cannot be reached or the query raises, the live
    provider returns an empty snapshot and the feed answers 200 with a
    document that has the SIRI envelope, passes the XML parser and has no
    [VehicleActivity] element. *)
Theorem C6_unreachable_store_empty_feed repr (st : Live.Store)
  (clk : Clock.Clock) :
  store_unreachable st ->
  Live.get_vehicle_data st = []
  /\ exists doc,
       Live.get_vehicle_monitoring repr st clk = Http.Response 200 doc
       /\ has_envelope doc = true
       /\ well_formed doc = true
       /\ activity_count doc = 0%nat.
Proof.
  intros Hst. pose proof (get_vehicle_data_unreachable st Hst) as E.
  split; [exact E|].
  exists (Live.siri_tree repr (Live.make_service_delivery clk [])).
  unfold Live.get_vehicle_monitoring. rewrite E.
  cbn [Exc.bind]. rewrite create_siri_xml_empty. cbn [Exc.bind Exc.try_except].
  split; [reflexivity|]. split; [reflexivity|]. split.
  - pose proof (create_siri_xml_empty repr clk) as H.
    unfold Live.create_siri_xml, Xml.toprettyxml in H. unfold well_formed.
    destruct (forallb _ _); [reflexivity | discriminate H].
  - reflexivity.
Qed.

Lemma C6_unreachable_store_witness :
  let st := Live.mkStore true false [row_at "V1" (utc 2024 1 1 11 59 0 0)] noon in
  store_unreachable st
  /\ Live.get_vehicle_data st = []
  /\ exists doc,
       Live.get_vehicle_monitoring repr_table st sample_clock
       = Http.Response 200 doc
       /\ has_envelope doc = true
       /\ well_formed doc = true
       /\ activity_count doc = 0%nat.
Proof.
  intros st.
  assert (H : store_unreachable st) by (left; reflexivity).
  split; [exact H|].
  exact (C6_unreachable_store_empty_feed repr_table st sample_clock H).
Defined.

End LiveClaims.

Module DecoderFacts.

Import Notions Datetime Decoder DatetimeFacts.

Lemma civil_roundtrip z :
  days_from_civil (year_of_days z) (month_of_days z) (day_of_days z) = z.
Proof.
  unfold days_from_civil, year_of_days, month_of_days, day_of_days.
  pose proof (doe_range z) as Hdoe.
  pose proof (doy_range _ Hdoe) as Hdoy.
  pose proof (mp_day_range _ Hdoy) as [Hmp Hd].
  unfold era_of.
  set (doe := doe_of z) in *.
  assert (Ez : z + 719468 = 146097 * ((z + 719468) / 146097) + doe).
  { unfold doe, doe_of. apply Z.div_mod. lia. }
  set (era := (z + 719468) / 146097) in *.
  set (doy := doy_of doe) in *.
  set (mp := mp_of doy) in *.
  assert (Hyoe : 0 <= yoe_of doe <= 399).
  { unfold yoe_of. Z.div_mod_to_equations. lia. }
  assert (Edoy : doe = 365 * yoe_of doe + yoe_of doe / 4 - yoe_of doe / 100 + doy).
  { unfold doy, doy_of. lia. }
  set (yoe := yoe_of doe) in *.
  destruct (mp <? 10) eqn:E1.
  - apply Z.ltb_lt in E1.
    replace (mp + 3 <=? 2) with false by lia.
    replace (mp + 3 - 3) with mp by lia.
    replace ((yoe + era * 400) / 400) with era by (Z.div_mod_to_equations; lia).
    replace ((yoe + era * 400) mod 400) with yoe by (Z.div_mod_to_equations; lia).
    lia.
  - apply Z.ltb_ge in E1.
    replace (mp - 9 <=? 2) with true by lia.
    replace (mp - 9 + 9) with mp by lia.
    replace (yoe + era * 400 + 1 - 1) with (yoe + era * 400) by lia.
    replace ((yoe + era * 400) / 400) with era by (Z.div_mod_to_equations; lia).
    replace ((yoe + era * 400) mod 400) with yoe by (Z.div_mod_to_equations; lia).
    lia.
Qed.

(** The fields of a naive datetime, the microseconds cut to milliseconds,
    give back the datetime cut to milliseconds. *)
Lemma of_fields_fields dt :
  tzinfo dt = None ->
  of_fields (year dt) (month dt) (day dt) (hour dt) (minute dt) (second dt)
    (microsecond dt / 1000 * 1000)
  = truncate_ms dt.
Proof.
  intros Htz. unfold of_fields, truncate_ms. rewrite Htz. f_equal.
  unfold year, month, day. rewrite civil_roundtrip.
  unfold hour, minute, second, microsecond, tod, days, usec_per_day,
    usec_per_sec.
  Z.div_mod_to_equations. lia.
Qed.

Lemma digit_value_digit d : 0 <= d < 10 -> digit_value (Py.digit d) = Some d.
Proof.
  intros Hd.
  assert (E : In d [0; 1; 2; 3; 4; 5; 6; 7; 8; 9]) by (simpl; lia).
  simpl in E.
  repeat (destruct E as [<-|E]; [reflexivity|]). contradiction.
Qed.

Lemma digit_value_mod n : digit_value (Py.digit (n mod 10)) = Some (n mod 10).
Proof. apply digit_value_digit, Z.mod_pos_bound. lia. Qed.

Lemma number2 n :
  0 <= n < 100 ->
  number [Py.digit (n / 10 mod 10); Py.digit (n mod 10)] = Some n.
Proof.
  intros Hn. unfold number. cbn [number_acc obind].
  rewrite !digit_value_mod. cbn [obind]. f_equal.
  Z.div_mod_to_equations. lia.
Qed.

Lemma number3 n :
  0 <= n < 1000 ->
  number [Py.digit (n / 10 / 10 mod 10); Py.digit (n / 10 mod 10);
          Py.digit (n mod 10)] = Some n.
Proof.
  intros Hn. unfold number. cbn [number_acc obind].
  rewrite !digit_value_mod. cbn [obind]. f_equal.
  Z.div_mod_to_equations. lia.
Qed.

Lemma number4 n :
  0 <= n < 10000 ->
  number [Py.digit (n / 10 / 10 / 10 mod 10); Py.digit (n / 10 / 10 mod 10);
          Py.digit (n / 10 mod 10); Py.digit (n mod 10)] = Some n.
Proof.
  intros Hn. unfold number. cbn [number_acc obind].
  rewrite !digit_value_mod. cbn [obind]. f_equal.
  Z.div_mod_to_equations. lia.
Qed.

(** Reading what [format_datetime] wrote gives the datetime to the
    millisecond. *)
Lemma parse_datetime_format dt :
  four_digit_year dt -> tzinfo dt = None ->
  parse_datetime (Bods.format_datetime dt) = Some (truncate_ms dt).
Proof.
  intros Hy Htz. rewrite (format_datetime_digits dt Hy).
  unfold four_digit_year in Hy.
  pose proof (month_range dt). pose proof (day_range dt).
  pose proof (hour_range dt). pose proof (minute_range dt).
  pose proof (second_range dt). pose proof (microsecond_range dt).
  cbn [Py.fixed append]. unfold parse_datetime.
  cbn [list_ascii_of_string].
  change (Ascii.eqb "-" "-" && Ascii.eqb "-" "-" && Ascii.eqb "T" "T"
          && Ascii.eqb ":" ":" && Ascii.eqb ":" ":" && Ascii.eqb "." "."
          && Ascii.eqb "Z" "Z") with true.
  cbv iota.
  rewrite number4 by lia. cbn [obind].
  rewrite !number2 by lia. cbn [obind].
  rewrite number3 by (Z.div_mod_to_equations; lia). cbn [obind].
  rewrite of_fields_fields by assumption. reflexivity.
Qed.

End DecoderFacts.

Module RoundTripFacts.

Import Notions Datetime Decoder DecoderFacts.

Section RoundTrip.

Variable repr_finite : bool -> positive -> Z -> string.
Variable local_utcoffset : Z -> Z.
Variable float_of_text : string -> option Float.float.

Lemma optional_parse_format (o : option datetime) :
  opt_in_range o -> opt_naive o ->
  optional parse_datetime (option_map Bods.format_datetime o)
  = Some (option_map truncate_ms o).
Proof.
  destruct o as [t|]; simpl; intros Hy Hn; [|reflexivity].
  rewrite parse_datetime_format by assumption. reflexivity.
Qed.

(** Reading one encoded activity gives the vehicle as the document can
    carry it. *)
Lemma decode_activity_encode v item_id :
  vehicle_in_range v -> vehicle_naive v ->
  floats_read_back repr_finite float_of_text v ->
  decode_activity float_of_text
    (Bods.create_vehicle_activity_xml repr_finite v item_id)
  = Some (on_the_wire v).
Proof.
  destruct v as [vr l d p o orf onm drf dn oadt daat lat lon b vel occ blk vj
                   rt vt].
  unfold vehicle_in_range, vehicle_naive, floats_read_back, on_the_wire.
  cbn [Bods.vehicle_ref Bods.line_ref Bods.direction_ref
       Bods.published_line_name Bods.operator_ref Bods.origin_ref
       Bods.origin_name Bods.destination_ref Bods.destination_name
       Bods.origin_aimed_departure_time Bods.destination_aimed_arrival_time
       Bods.latitude Bods.longitude Bods.bearing Bods.velocity Bods.occupancy
       Bods.block_ref Bods.vehicle_journey_ref Bods.recorded_at_time
       Bods.valid_until_time].
  intros (Yr & Yv & Yo & Yd) (Nr & Nv & No & Nd) (Flon & Flat & Fb & Fv).
  pose proof (parse_datetime_format rt Yr Nr) as Er.
  pose proof (parse_datetime_format vt Yv Nv) as Ev.
  pose proof (optional_parse_format oadt Yo No) as Eo.
  pose proof (optional_parse_format daat Yd Nd) as Ed.
  unfold Bods.create_vehicle_activity_xml, Bods.str_float, decode_activity.
  destruct oadt as [t1|], daat as [t2|], vel as [f|],
    dn as [[|c1 s1]|], occ as [[|c2 s2]|], item_id as [|c3 s3];
    cbn -[parse_datetime Bods.format_datetime Float.str truncate_ms] in *;
    rewrite Er; cbn [obind]; rewrite Ev; cbn [obind];
    repeat (first [ rewrite Eo | rewrite Ed | rewrite Flon | rewrite Flat
                  | rewrite Fb | rewrite Fv ]; cbn [obind]);
    reflexivity.
Qed.

End RoundTrip.

End RoundTripFacts.

Module RoundTripClaims.

Import Notions Datetime Decoder RoundTripFacts.

Section RoundTrip.

Variable repr_finite : bool -> positive -> Z -> string.
Variable local_utcoffset : Z -> Z.
Variable float_of_text : string -> option Float.float.

Lemma findall_activities vehicles : forall clk i,
  filter (fun c => String.eqb (Xml.tag c) "VehicleActivity")
    (Bods.vehicle_activities repr_finite local_utcoffset clk i vehicles)
  = Bods.vehicle_activities repr_finite local_utcoffset clk i vehicles.
Proof.
  induction vehicles as [|v vs IH]; intros clk i; [reflexivity|].
  cbn [Bods.vehicle_activities Clock.utcnow]. cbn [filter].
  change (String.eqb (Xml.tag (Bods.create_vehicle_activity_xml _ _ _)) _)
    with true.
  cbv iota. rewrite IH. reflexivity.
Qed.

Lemma decode_activities vehicles : forall clk i,
  Forall vehicle_in_range vehicles -> Forall vehicle_naive vehicles ->
  Forall (floats_read_back repr_finite float_of_text) vehicles ->
  omap (decode_activity float_of_text)
    (Bods.vehicle_activities repr_finite local_utcoffset clk i vehicles)
  = Some (map on_the_wire vehicles).
Proof.
  induction vehicles as [|v vs IH]; intros clk i Hy Hn Hf; [reflexivity|].
  inversion Hy; inversion Hn; inversion Hf; subst.
  cbn [Bods.vehicle_activities Clock.utcnow omap map].
  rewrite (decode_activity_encode repr_finite float_of_text) by assumption.
  cbn [obind]. rewrite IH by assumption. reflexivity.
Qed.


End RoundTrip.


Lemma sample_floats_read_back :
  Forall (floats_read_back repr_table parse_table)
    [midl_1000; midl_1001; midl_1002].
Proof. repeat constructor. Qed.

Lemma sample_vehicles_naive :
  Forall vehicle_naive [midl_1000; midl_1001; midl_1002].
Proof. repeat constructor. Qed.


End RoundTripClaims.

Module EncodingClaims.

Import Notions Datetime LiveFacts.

(** A document the live feed returns was accepted by the XML parser, and
    the status is then 200; the only other outcome is a 500 without a
    document. *)
Lemma live_response_well_formed repr st clk :
  match Live.get_vehicle_monitoring repr st clk with
  | Http.Response s doc => s = 200 /\ well_formed doc = true
  | Http.HTTPException s => s = 500
  end.
Proof.
  unfold Live.get_vehicle_monitoring.
  destruct (Live.get_vehicle_data st) as [|r rows]; cbn [Exc.bind].
  - rewrite create_siri_xml_empty. cbn [Exc.bind Exc.try_except].
    pose proof (create_siri_xml_empty repr clk) as H.
    unfold Live.create_siri_xml, Xml.toprettyxml in H. unfold well_formed.
    destruct (forallb _ _); [split; reflexivity | discriminate H].
  - destruct (Exc.mapM Live.build_activity (r :: rows)) as [acts|e];
      cbn [Exc.bind Exc.try_except]; [|reflexivity].
    unfold Live.create_siri_xml, Xml.toprettyxml, well_formed.
    destruct (forallb _ _) eqn:E; cbn [Exc.bind Exc.try_except];
      [split; [reflexivity | exact E] | reflexivity].
Qed.

(** C7 (as stated) fails: a required string that is present but empty is
    written as an empty element, with status 200, by both encoders. *)
Lemma C7_empty_required_element_emitted :
  let bods := Bods.vehicle_monitoring repr_table utc_host sample_clock
                [vehicle_with_line_ref "" midl_1000] no_criteria in
  let live := Live.get_vehicle_monitoring repr_table
                (store_of [with_line_ref (Some "")
                             (row_at "V1" (utc 2024 1 1 11 59 0 0))])
                sample_clock in
  Http.status bods = 200
  /\ option_map (fun doc => map Xml.is_empty (Xml.elements_named "LineRef" doc))
       (Http.document bods) = Some [true]
  /\ Http.status live = 200
  /\ option_map (fun doc => map Xml.is_empty (Xml.elements_named "LineRef" doc))
       (Http.document live) = Some [true].
Proof. vm_compute. repeat split; reflexivity. Qed.

(** C7 (amended): in the live feed, whenever a required field of a row of
    the snapshot is missing ([NULL]), the request fails with status 500 and
    no document is returned; and a document that is returned has status
    200 and was accepted by the XML parser. *)
Theorem C7_missing_required_field_fails repr (st : Live.Store)
  (clk : Clock.Clock) :
  (Exists (fun r => missing_required r = true) (Live.get_vehicle_data st) ->
   Live.get_vehicle_monitoring repr st clk = Http.HTTPException 500)
  /\ (forall doc,
        Http.document (Live.get_vehicle_monitoring repr st clk) = Some doc ->
        Http.status (Live.get_vehicle_monitoring repr st clk) = 200
        /\ well_formed doc = true).
Proof.
  split.
  - intros Hm. unfold Live.get_vehicle_monitoring.
    destruct (Live.get_vehicle_data st) as [|r rows] eqn:E;
      [inversion Hm|].
    rewrite (mapM_build_activity_missing _ Hm). reflexivity.
  - intros doc Hdoc.
    pose proof (live_response_well_formed repr st clk) as H.
    destruct (Live.get_vehicle_monitoring repr st clk) as [s d|s];
      [|discriminate Hdoc].
    simpl in Hdoc. injection Hdoc as ->. exact H.
Qed.

Lemma C7_missing_required_field_witness :
  let st := store_of [row_at "V2" (utc 2024 1 1 11 59 30 0);
                      with_bearing None (row_at "V1" (utc 2024 1 1 11 59 0 0))] in
  Exists (fun r => missing_required r = true) (Live.get_vehicle_data st)
  /\ Live.get_vehicle_monitoring repr_table st sample_clock
     = Http.HTTPException 500.
Proof.
  intros st.
  assert (H : Exists (fun r => missing_required r = true)
                (Live.get_vehicle_data st)).
  { apply Exists_cons_tl, Exists_cons_hd. vm_compute. reflexivity. }
  split; [exact H|].
  exact (proj1 (C7_missing_required_field_fails repr_table st sample_clock) H).
Defined.

End EncodingClaims.

Module TextFacts.

Import Datetime LiveFacts.

Lemma text_ok_str_firstn n : forall s,
  Xml.text_ok s = true -> Xml.text_ok (Py.str_firstn n s) = true.
Proof.
  induction n as [|n IH]; intros [|c s] H; simpl; try reflexivity.
  rewrite text_ok_cons in *. apply andb_true_iff in H as [Hc Hs].
  rewrite Hc, IH by assumption. reflexivity.
Qed.

Lemma text_ok_dec_nonneg n : Xml.text_ok (Py.dec_nonneg n) = true.
Proof. unfold Py.dec_nonneg. apply text_ok_dec_fuel. reflexivity. Qed.

Lemma text_ok_strftime dt : Xml.text_ok (strftime_iso_f dt) = true.
Proof.
  unfold strftime_iso_f.
  repeat (rewrite text_ok_app || rewrite text_ok_zpad
          || rewrite text_ok_dec_nonneg).
  reflexivity.
Qed.

(** The text of [format_datetime] is accepted by the XML parser, whatever
    the datetime. *)
Lemma text_ok_format_datetime dt : Xml.text_ok (Bods.format_datetime dt) = true.
Proof.
  unfold Bods.format_datetime, Py.str_slice_to.
  rewrite text_ok_app.
  destruct (-3 <? 0); rewrite text_ok_str_firstn by apply text_ok_strftime;
    reflexivity.
Qed.

End TextFacts.

Module StatusProps.

Import Notions Notions2 Datetime XmlFacts TextFacts.

Lemma create_check_status_response_ok clk status sst :
  Status.create_check_status_response clk status sst
  = Exc.Ok (Status.check_status_tree clk status sst).
Proof.
  unfold Status.create_check_status_response, Xml.toprettyxml.
  replace (forallb Xml.element_ok _) with true; [reflexivity|].
  symmetry. unfold Status.check_status_tree, Xml.node, Xml.leaf.
  repeat (rewrite forallb_descendants; cbn [forallb app]).
  unfold Xml.element_ok. cbn -[Bods.format_datetime].
  rewrite text_ok_format_datetime. destruct status; reflexivity.
Qed.

(** X1: the status endpoint answers 200 at every request, with [Status]
    and [DataReady] both [true] and the start time of the process in the
    form [YYYY-MM-DDTHH:MM:SS.mmmZ]; the answer does not depend on the
    time of the request. *)
Theorem check_status_always_ready start clk :
  four_digit_year start ->
  exists doc,
    Status.check_status start clk = Http.Response 200 doc
    /\ texts_of "Status" doc = [Some "true"]
    /\ texts_of "DataReady" doc = [Some "true"]
    /\ texts_of "ServiceStartedTime" doc = [Some (Bods.format_datetime start)]
    /\ is_ms_z (Bods.format_datetime start) = true
    /\ forall clk', Status.check_status start clk' = Http.Response 200 doc.
Proof.
  intros Hy. exists (Status.check_status_tree clk true (Some start)).
  unfold Status.check_status. rewrite create_check_status_response_ok.
  cbn [Exc.bind Exc.try_except].
  repeat split; try reflexivity.
  - apply DatetimeFacts.format_datetime_is_ms_z, Hy.
  - intros clk'. unfold Status.check_status.
    rewrite create_check_status_response_ok. reflexivity.
Qed.

Lemma check_status_always_ready_witness :
  four_digit_year T0
  /\ exists doc,
       Status.check_status T0 sample_clock = Http.Response 200 doc
       /\ texts_of "ServiceStartedTime" doc = [Some "2024-01-01T12:00:00.123Z"].
Proof.
  assert (H : four_digit_year T0)
    by (unfold four_digit_year; vm_compute; split; intros E; discriminate E).
  split; [exact H|].
  destruct (check_status_always_ready T0 sample_clock H)
    as (doc & E & _ & _ & Et & _).
  exists doc. split; [exact E|]. rewrite Et. vm_compute. reflexivity.
Defined.

(** X2: [create_check_status_response] never raises; [Status] follows the
    flag, [DataReady] is [true] even when the flag is false, and an omitted
    start time is the current reading of the clock. *)
Theorem create_check_status_response_total clk status sst :
  exists doc,
    Status.create_check_status_response clk status sst = Exc.Ok doc
    /\ texts_of "Status" doc = [Some (if status then "true" else "false")]
    /\ texts_of "DataReady" doc = [Some "true"]
    /\ texts_of "ServiceStartedTime" doc
       = [Some (Bods.format_datetime
                  match sst with
                  | Some t => t
                  | None => mk (Clock.readings clk (Clock.calls clk)) None
                  end)].
Proof.
  exists (Status.check_status_tree clk status sst).
  rewrite create_check_status_response_ok.
  destruct status, sst; repeat split; reflexivity.
Qed.

End StatusProps.

Module FilterProps.

Import Notions Notions2 FilterFacts.

Lemma truthy_opt_str_spec (o : option string) :
  Py.truthy_opt_str o = true <-> exists s, o = Some s /\ s <> "".
Proof.
  destruct o as [[|c s]|]; simpl; split; try discriminate.
  - intros (s & E & Hs). injection E as <-. contradiction.
  - intros _. eexists. split; [reflexivity | discriminate].
  - intros _. reflexivity.
  - intros (s & E & _). discriminate E.
Qed.

Lemma criterion_spec (o : option string) (x : string) :
  (if Py.truthy_opt_str o then String.eqb x (Bods.opt_str o) else true) = true
  <-> (forall s, o = Some s -> s <> "" -> x = s).
Proof.
  destruct o as [[|c s]|]; simpl; split; try reflexivity.
  - intros _ s E Hs. injection E as <-. contradiction.
  - intros H s' E _. injection E as <-. apply String.eqb_eq, H.
  - intros H. apply String.eqb_eq, (H _ eq_refl). discriminate.
  - intros _ s E. discriminate E.
Qed.

Lemma matches_satisfies c v : matches c v = true <-> satisfies c v.
Proof.
  unfold matches, satisfies.
  rewrite !andb_true_iff, !criterion_spec. tauto.
Qed.

Lemma subseq_In {A : Type} (l1 l2 : list A) x :
  subseq l1 l2 -> In x l1 -> In x l2.
Proof.
  induction 1 as [|y l1 l2 _ IH|y l1 l2 _ IH]; simpl; intros Hx.
  - contradiction.
  - right. auto.
  - destruct Hx as [Hx|Hx]; [left; exact Hx | right; auto].
Qed.

Lemma subseq_Forall {A : Type} (P : A -> Prop) (l1 l2 : list A) :
  subseq l1 l2 -> Forall P l2 -> Forall P l1.
Proof.
  intros Hs H. apply Forall_forall. intros x Hx.
  rewrite Forall_forall in H. eapply H, subseq_In; eassumption.
Qed.

(** X3: every vehicle the filter returns is in the snapshot and satisfies
    every populated criterion; and without a maximum every such vehicle of
    the snapshot is returned. *)
Theorem apply_filters_sound_complete c s v :
  (In v (Bods.apply_filters c s) -> In v s /\ satisfies c v)
  /\ (In v s /\ satisfies c v -> In v (Bods.apply_filters (without_max c) s)).
Proof.
  split.
  - rewrite apply_filters_spec. intros H.
    apply (subseq_In _ _ _ (subseq_truncate c _)) in H.
    apply filter_In in H. rewrite matches_satisfies in H. exact H.
  - intros [Hin Hs]. rewrite apply_filters_spec.
    unfold truncate. cbn [without_max Bods.MaximumNumberOfVehicles].
    apply filter_In. split; [exact Hin|].
    change (matches (without_max c) v) with (matches c v).
    apply matches_satisfies, Hs.
Qed.

(** X4: a positive maximum [n] keeps the first [n] entries of the result
    without a maximum, all of them when there are fewer. *)
Theorem apply_filters_positive_max c s n :
  Bods.MaximumNumberOfVehicles c = Some n -> 0 < n ->
  Bods.apply_filters c s
  = firstn (Z.to_nat n) (Bods.apply_filters (without_max c) s)
  /\ List.length (Bods.apply_filters c s)
     = Nat.min (Z.to_nat n)
         (List.length (Bods.apply_filters (without_max c) s)).
Proof.
  intros E Hn.
  assert (H : Bods.apply_filters c s
              = firstn (Z.to_nat n) (Bods.apply_filters (without_max c) s)).
  { rewrite !apply_filters_spec.
    rewrite (truncate_nonneg c _ n E) by lia.
    replace (n =? 0) with false by lia. reflexivity. }
  split; [exact H|]. rewrite H. apply length_firstn.
Qed.

Lemma apply_filters_positive_max_witness :
  0 < 2
  /\ Bods.apply_filters (max_only 2) [midl_1000; midl_1001; midl_1002]
     = [midl_1000; midl_1001].
Proof.
  split; [lia|].
  exact (proj1 (apply_filters_positive_max (max_only 2)
                  [midl_1000; midl_1001; midl_1002] 2 eq_refl ltac:(lia))).
Defined.

End FilterProps.

Module EncoderProps.

Import Notions Notions2 XmlFacts.

Lemma filter_descendants (p : Xml.Element -> bool) t a x cs :
  filter p (Xml.descendants (Xml.Elem t a x cs))
  = ((if p (Xml.Elem t a x cs) then [Xml.Elem t a x cs] else [])
     ++ flat_map (fun c => filter p (Xml.descendants c)) cs)%list.
Proof.
  rewrite descendants_eq. cbn [filter].
  assert (E : forall l, filter p (flat_map Xml.descendants l)
                        = flat_map (fun c => filter p (Xml.descendants c)) l).
  { induction l as [|c l IH]; simpl; [reflexivity|].
    rewrite filter_app, IH. reflexivity. }
  rewrite E. destruct (p _); reflexivity.
Qed.

Section Bods.

Variable repr_finite : bool -> positive -> Z -> string.
Variable local_utcoffset : Z -> Z.

(** One activity holds one [VehicleRef], one [MonitoredVehicleJourney] and
    is itself the only [VehicleActivity]. *)
Lemma activity_vehicle_ref v item_id :
  Xml.elements_named "VehicleRef"
    (Bods.create_vehicle_activity_xml repr_finite v item_id)
  = [Xml.leaf "VehicleRef" (Bods.vehicle_ref v)].
Proof.
  unfold Bods.create_vehicle_activity_xml.
  destruct (Bods.origin_aimed_departure_time v),
    (Bods.destination_aimed_arrival_time v), (Bods.velocity v),
    (Py.truthy_opt_str (Bods.destination_name v)),
    (Py.truthy_opt_str (Bods.occupancy v)), (Py.truthy_str item_id);
    reflexivity.
Qed.

Lemma activity_journeys v item_id :
  List.length
    (Xml.elements_named "MonitoredVehicleJourney"
       (Bods.create_vehicle_activity_xml repr_finite v item_id)) = 1%nat
  /\ List.length
       (Xml.elements_named "VehicleActivity"
          (Bods.create_vehicle_activity_xml repr_finite v item_id)) = 1%nat.
Proof.
  unfold Bods.create_vehicle_activity_xml.
  destruct (Bods.origin_aimed_departure_time v),
    (Bods.destination_aimed_arrival_time v), (Bods.velocity v),
    (Py.truthy_opt_str (Bods.destination_name v)),
    (Py.truthy_opt_str (Bods.occupancy v)), (Py.truthy_str item_id);
    split; reflexivity.
Qed.

Lemma activities_named (t : string) (f : Bods.VehicleData -> list Xml.Element)
  vehicles : forall clk i,
  (forall v item_id,
     Xml.elements_named t (Bods.create_vehicle_activity_xml repr_finite v item_id)
     = f v) ->
  flat_map (fun a => filter (fun c => String.eqb (Xml.tag c) t) (Xml.descendants a))
    (Bods.vehicle_activities repr_finite local_utcoffset clk i vehicles)
  = flat_map f vehicles.
Proof.
  induction vehicles as [|v vs IH]; intros clk i Hf; [reflexivity|].
  cbn [Bods.vehicle_activities Clock.utcnow flat_map].
  rewrite IH by exact Hf.
  change (filter _ (Xml.descendants ?a)) with (Xml.elements_named t a).
  rewrite Hf. reflexivity.
Qed.

Lemma length_flat_map_const {A B : Type} (f : A -> list B) (n : nat) l :
  (forall a, List.length (f a) = n) ->
  List.length (flat_map f l) = (n * List.length l)%nat.
Proof.
  intros H. induction l as [|a l IH]; simpl; [lia|].
  rewrite length_app, H, IH. lia.
Qed.

Lemma activities_count (t : string) (n : nat) vehicles : forall clk i,
  (forall v item_id,
     List.length
       (Xml.elements_named t
          (Bods.create_vehicle_activity_xml repr_finite v item_id)) = n) ->
  List.length
    (flat_map (fun a => filter (fun c => String.eqb (Xml.tag c) t)
                          (Xml.descendants a))
       (Bods.vehicle_activities repr_finite local_utcoffset clk i vehicles))
  = (n * List.length vehicles)%nat.
Proof.
  induction vehicles as [|v vs IH]; intros clk i Hf; [simpl; lia|].
  cbn [Bods.vehicle_activities Clock.utcnow flat_map].
  rewrite length_app, IH by exact Hf.
  change (filter _ (Xml.descendants ?a)) with (Xml.elements_named t a).
  rewrite Hf. simpl. lia.
Qed.

(** The elements with tag [t] of the whole document are those of its
    activities, when [t] is none of the envelope's tags. *)
Lemma siri_tree_named t clk vehicles producer_ref :
  existsb (String.eqb t)
    ["Siri"; "ServiceDelivery"; "ResponseTimestamp"; "ProducerRef";
     "VehicleMonitoringDelivery"; "ValidUntilTime"] = false ->
  Xml.elements_named t
    (Bods.siri_tree repr_finite local_utcoffset clk vehicles producer_ref)
  = flat_map (fun a => filter (fun c => String.eqb (Xml.tag c) t)
                         (Xml.descendants a))
      (Bods.vehicle_activities repr_finite local_utcoffset
         (Clock.tick (Clock.tick (Clock.tick clk))) 0 vehicles).
Proof.
  intros Ht. cbn [existsb] in Ht.
  repeat (apply orb_false_iff in Ht as [?E Ht]).
  rewrite String.eqb_sym in E, E0, E1, E2, E3, E4.
  unfold Xml.elements_named, Bods.siri_tree.
  cbn [Clock.utcnow Clock.tick Clock.readings Clock.calls].
  unfold Xml.node, Xml.leaf.
  repeat (rewrite filter_descendants; cbn [flat_map app Xml.tag]).
  rewrite ?E, ?E0, ?E1, ?E2, ?E3, ?E4. cbn [app].
  rewrite !app_nil_r. reflexivity.
Qed.

Lemma siri_tree_structure clk vehicles producer_ref :
  let doc :=
    Bods.siri_tree repr_finite local_utcoffset clk vehicles producer_ref in
  activity_count doc = List.length vehicles
  /\ List.length (Xml.elements_named "MonitoredVehicleJourney" doc)
     = List.length vehicles
  /\ texts_of "VehicleRef" doc = map (fun v => Some (Bods.vehicle_ref v)) vehicles.
Proof.
  intros doc. subst doc. unfold activity_count, texts_of.
  rewrite !siri_tree_named by reflexivity.
  rewrite (activities_count "VehicleActivity" 1)
    by (intros; apply activity_journeys).
  rewrite (activities_count "MonitoredVehicleJourney" 1)
    by (intros; apply activity_journeys).
  rewrite (activities_named "VehicleRef"
             (fun v => [Xml.leaf "VehicleRef" (Bods.vehicle_ref v)]))
    by (intros; apply activity_vehicle_ref).
  repeat split; try lia.
  induction vehicles as [|v vs IH]; simpl; [reflexivity|].
  rewrite IH. reflexivity.
Qed.

(** X5: the document holds one [VehicleActivity] per encoded vehicle, each
    with one [MonitoredVehicleJourney], and the [VehicleRef] elements are
    the vehicles' references in the order of the list. *)
Theorem siri_tree_one_activity_per_vehicle clk vehicles producer_ref :
  let doc :=
    Bods.siri_tree repr_finite local_utcoffset clk vehicles producer_ref in
  activity_count doc = List.length vehicles
  /\ List.length (Xml.elements_named "MonitoredVehicleJourney" doc)
     = List.length vehicles
  /\ texts_of "VehicleRef" doc = map (fun v => Some (Bods.vehicle_ref v)) vehicles.
Proof. exact (siri_tree_structure clk vehicles producer_ref). Qed.

End Bods.

End EncoderProps.

Module CleanFeedProps.

Import Notions Notions2 Datetime XmlFacts TextFacts LiveFacts FilterProps
  EncoderProps.

Lemma text_ok_float repr f : repr_ok repr -> Xml.text_ok (Float.str repr f) = true.
Proof. intros H. destruct f as [[]|[]| |s m e]; simpl; auto. Qed.

Lemma text_ok_str_int n : Xml.text_ok (Py.str_int n) = true.
Proof.
  unfold Py.str_int. destruct (n <? 0); [rewrite text_ok_cons|];
    rewrite text_ok_dec_nonneg; reflexivity.
Qed.

Section Bods.

Variable repr_finite : bool -> positive -> Z -> string.
Variable local_utcoffset : Z -> Z.
Hypothesis repr_legal : repr_ok repr_finite.

Lemma activity_well_formed v item_id :
  vehicle_texts_ok v = true -> Xml.text_ok item_id = true ->
  forallb Xml.element_ok
    (Xml.descendants (Bods.create_vehicle_activity_xml repr_finite v item_id))
  = true.
Proof.
  unfold vehicle_texts_ok, vehicle_strings. cbn [forallb].
  rewrite !andb_true_iff.
  intros (H1 & H2 & H3 & H4 & H5 & H6 & H7 & H8 & H9 & H10 & H11 & H12 & _) Hi.
  pose proof (text_ok_float repr_finite (Bods.longitude v) repr_legal) as F1.
  pose proof (text_ok_float repr_finite (Bods.latitude v) repr_legal) as F2.
  pose proof (text_ok_float repr_finite (Bods.bearing v) repr_legal) as F3.
  assert (F4 : forall f, Xml.text_ok (Float.str repr_finite f) = true)
    by (intros; apply text_ok_float, repr_legal).
  unfold Bods.create_vehicle_activity_xml, Bods.str_float, Xml.node.
  rewrite forallb_descendants, !forallb_app. cbn [forallb].
  rewrite forallb_descendants, !forallb_app. cbn [forallb].
  unfold Xml.leaf.
  repeat (rewrite forallb_descendants; cbn [forallb]).
  unfold Xml.element_ok. cbn [Xml.text Xml.attrib forallb].
  rewrite ?H1, ?H2, ?H3, ?H4, ?H5, ?H6, ?H7, ?H8, ?H11, ?H12, ?F1, ?F2, ?F3,
    ?text_ok_format_datetime.
  cbn [andb].
  repeat (apply andb_true_iff; split);
    match goal with
    | |- context [Xml.when ?b _] => destruct b
    | |- context [match ?o with Some _ => _ | None => _ end] => destruct o
    | _ => idtac
    end;
    cbn [Xml.when forallb];
    repeat (rewrite forallb_descendants; cbn [forallb]);
    cbn [Xml.text Xml.attrib forallb];
    rewrite ?H9, ?H10, ?Hi, ?F4, ?text_ok_format_datetime;
    lazymatch goal with
    | |- context [Xml.text_ok] => fail "text left"
    | _ => reflexivity
    end.
Qed.

Lemma activities_well_formed vehicles : forall clk i,
  Forall (fun v => vehicle_texts_ok v = true) vehicles ->
  forallb (fun a => forallb Xml.element_ok (Xml.descendants a))
    (Bods.vehicle_activities repr_finite local_utcoffset clk i vehicles)
  = true.
Proof.
  induction vehicles as [|v vs IH]; intros clk i Hvs; [reflexivity|].
  inversion Hvs as [|? ? Hv Hrest]; subst.
  cbn [Bods.vehicle_activities Clock.utcnow forallb].
  rewrite activity_well_formed, IH; try assumption; [reflexivity|].
  repeat (rewrite text_ok_app || rewrite text_ok_str_int). reflexivity.
Qed.

Lemma create_response_clean clk vehicles :
  Forall (fun v => vehicle_texts_ok v = true) vehicles ->
  Bods.create_siri_vehicle_monitoring_response repr_finite local_utcoffset clk
    vehicles "MIDLANDBUS"
  = Exc.Ok (Bods.siri_tree repr_finite local_utcoffset clk vehicles "MIDLANDBUS").
Proof.
  intros Hvs. unfold Bods.create_siri_vehicle_monitoring_response, Xml.toprettyxml.
  replace (forallb Xml.element_ok _) with true; [reflexivity|].
  symmetry. unfold Bods.siri_tree.
  cbn [Clock.utcnow Clock.tick Clock.readings Clock.calls].
  unfold Xml.node, Xml.leaf.
  repeat (rewrite forallb_descendants; cbn [forallb app]).
  rewrite activities_well_formed by assumption.
  unfold Xml.element_ok. cbn -[Xml.text_ok Bods.format_datetime].
  rewrite !text_ok_format_datetime. reflexivity.
Qed.


End Bods.


End CleanFeedProps.

Module IsoformatProps.

Import Notions Notions2 Datetime XmlFacts PyFacts StringFacts DatetimeFacts.

Lemma is_ms_z_length s : is_ms_z s = true -> String.length s = 24%nat.
Proof.
  unfold is_ms_z. intros H.
  rewrite <- (string_of_list_ascii_of_string s).
  destruct (list_ascii_of_string s) as [|c l]; [discriminate H|].
  do 23 (destruct l as [|? l]; [discriminate H|]).
  destruct l; [reflexivity | discriminate H].
Qed.

Lemma length_zpad k n :
  (1 <= k)%nat -> 0 <= n < Py.pow10 k -> String.length (Py.zpad k n) = k.
Proof.
  intros Hk Hn. rewrite zpad_fixed, length_fixed by assumption. simpl. lia.
Qed.

(** [isoformat] gives 19 characters, 7 more with microseconds and 6 or 9
    more with an offset: never the 24 of the form with milliseconds and
    [Z]. *)
Lemma isoformat_not_ms_z dt :
  four_digit_year dt -> offset_in_range dt -> is_ms_z (isoformat dt) = false.
Proof.
  intros Hy Ho. destruct (is_ms_z (isoformat dt)) eqn:E; [|reflexivity].
  exfalso. apply is_ms_z_length in E. revert E.
  unfold four_digit_year in Hy. unfold offset_in_range in Ho.
  pose proof (month_range dt). pose proof (day_range dt).
  pose proof (hour_range dt). pose proof (minute_range dt).
  pose proof (second_range dt). pose proof (microsecond_range dt).
  unfold isoformat, iso_offset.
  destruct (tzinfo dt) as [off|].
  - assert (Ha : 0 <= Z.abs off / 3600 < 100)
      by (split; [apply Z.div_pos; lia | apply Z.div_lt_upper_bound; lia]).
    pose proof (Z.mod_pos_bound (Z.abs off / 60) 60 ltac:(lia)).
    pose proof (Z.mod_pos_bound (Z.abs off) 60 ltac:(lia)).
    destruct (microsecond dt =? 0), (off <? 0), (Z.abs off mod 60 =? 0);
      rewrite !length_append, ?length_zpad by (cbn [Py.pow10]; lia);
      cbn [String.length]; lia.
  - destruct (microsecond dt =? 0);
      rewrite !length_append, ?length_zpad by (cbn [Py.pow10]; lia);
      cbn [String.length]; lia.
Qed.

Lemma live_tree_not_ms_z repr clk acts :
  clock_four_digit clk ->
  datetimes_ok (Live.siri_tree repr (Live.make_service_delivery clk acts))
  = false.
Proof.
  intros Hclk.
  assert (E : is_ms_z (isoformat (mk (Clock.readings clk (Clock.calls clk))
                                    (Some 0))) = false).
  { apply isoformat_not_ms_z; [apply Hclk|]. unfold offset_in_range. simpl. lia. }
  unfold datetimes_ok, Live.siri_tree, Live.make_service_delivery.
  cbn [Clock.now_utc Clock.tick Clock.readings Clock.calls
       Live.vehicle_monitoring_delivery Live.response_timestamp
       Live.producer_ref Live.vmd_response_timestamp Live.vehicle_activities].
  unfold Xml.node, Xml.leaf.
  rewrite forallb_descendants. cbn [forallb].
  rewrite forallb_descendants. cbn [forallb].
  rewrite forallb_descendants. cbn [forallb].
  unfold datetime_text_ok at 3.
  change (is_datetime_tag (Xml.tag (Xml.Elem "ResponseTimestamp" [] _ [])))
    with true.
  cbn [Xml.text]. cbv iota. rewrite E.
  cbn [andb]. rewrite !andb_false_r. reflexivity.
Qed.

(** X7: the live feed never returns a document whose datetimes all have
    the form [YYYY-MM-DDTHH:MM:SS.mmmZ]: its response timestamp is written
    by [isoformat], with the offset [+00:00]. *)
Theorem live_feed_never_ms_z repr st clk doc :
  clock_four_digit clk ->
  Http.document (Live.get_vehicle_monitoring repr st clk) = Some doc ->
  datetimes_ok doc = false.
Proof.
  intros Hclk. unfold Live.get_vehicle_monitoring.
  destruct (Live.get_vehicle_data st) as [|r rows]; cbn [Exc.bind].
  - unfold Live.create_siri_xml, Xml.toprettyxml.
    destruct (forallb _ _); cbn [Exc.bind Exc.try_except Http.document];
      intros H; [|discriminate H].
    injection H as <-. apply live_tree_not_ms_z, Hclk.
  - destruct (Exc.mapM Live.build_activity (r :: rows)) as [acts|e];
      cbn [Exc.bind Exc.try_except Http.document]; [|intros H; discriminate H].
    unfold Live.create_siri_xml, Xml.toprettyxml.
    destruct (forallb _ _); cbn [Exc.bind Exc.try_except Http.document];
      intros H; [|discriminate H].
    injection H as <-. apply live_tree_not_ms_z, Hclk.
Qed.

Lemma sample_clock_four_digit : clock_four_digit sample_clock.
Proof.
  intros k. unfold sample_clock, Clock.readings.
  assert (E : In (Z.min (Z.of_nat k) 10) [0; 1; 2; 3; 4; 5; 6; 7; 8; 9; 10])
    by (simpl; lia).
  simpl in E.
  repeat (destruct E as [<-|E];
          [unfold four_digit_year; vm_compute;
           split; intros H; discriminate H|]).
  contradiction.
Qed.

Lemma live_feed_never_ms_z_witness :
  let st := store_of [row_at "V1" (utc 2024 1 1 11 59 0 0)] in
  clock_four_digit sample_clock
  /\ exists doc,
       Http.document (Live.get_vehicle_monitoring repr_table st sample_clock)
       = Some doc
       /\ datetimes_ok doc = false.
Proof.
  intros st. split; [exact sample_clock_four_digit|].
  destruct (Http.document (Live.get_vehicle_monitoring repr_table st sample_clock))
    as [doc|] eqn:E; [|vm_compute in E; discriminate E].
  exists doc. split; [reflexivity|].
  exact (live_feed_never_ms_z repr_table st sample_clock doc
           sample_clock_four_digit E).
Defined.

End IsoformatProps.

Module MaintProps.

Import Notions Notions2 Notions3 Datetime Maint FilterProps.

Section Handlers.

Variable fromisoformat : string -> option datetime.

Lemma connect_reachable db : reachable db -> connect db = Return db.
Proof. intros [H _]. unfold connect. rewrite H. reflexivity. Qed.

Lemma execute_reachable {A : Type} db (a : A) :
  reachable db -> execute db a = Return a.
Proof. intros [_ H]. unfold execute. rewrite H. reflexivity. Qed.

(** X8: a call of [DELETE /vehicle-positions] with no filter (absent or
    empty references and timestamp, [days_old] absent or 0) runs
    [DELETE FROM vehicle_positions WHERE 1=1] without parameters: on a
    database that answers, every position is deleted and counted. *)
Theorem delete_without_filter_deletes_all db clk vehicle_ref before_timestamp
  operator_ref days_old :
  reachable db ->
  Py.truthy_opt_str vehicle_ref = false ->
  Py.truthy_opt_str before_timestamp = false ->
  Py.truthy_opt_str operator_ref = false ->
  days_old = None \/ days_old = Some 0 ->
  exists conds,
    delete_conditions fromisoformat clk vehicle_ref before_timestamp
      operator_ref days_old = Return conds
    /\ sql_text delete_base conds = "DELETE FROM vehicle_positions WHERE 1=1"
    /\ sql_params conds = []
    /\ delete_vehicle_positions fromisoformat db clk vehicle_ref
         before_timestamp operator_ref days_old
       = (Success (List.length (positions db)),
          with_table db [] (sessions db)).
Proof.
  intros Hr Hv Hb Ho Hd. exists [].
  assert (E : delete_conditions fromisoformat clk vehicle_ref before_timestamp
                operator_ref days_old = Return []).
  { unfold delete_conditions. rewrite Hv, Hb, Ho.
    destruct Hd as [-> | ->]; reflexivity. }
  split; [exact E|]. split; [reflexivity|]. split; [reflexivity|].
  unfold delete_vehicle_positions. rewrite E. cbn [bind].
  rewrite (connect_reachable db Hr). cbn [bind].
  rewrite (execute_reachable db _ Hr).
  unfold delete_positions, selected, positions. cbn [forallb negb].
  rewrite FilterFacts.filter_true.
  assert (F : forall l : list Live.Row, filter (fun _ => false) l = [])
    by (induction l; simpl; auto).
  rewrite F. reflexivity.
Qed.

(** X9: a [before_timestamp] that [fromisoformat] rejects is answered
    with status 500, not 400 (the 400 is raised inside the [try] and caught
    by [except Exception]); nothing is deleted. *)
Theorem delete_invalid_timestamp_is_500 db clk vehicle_ref before_timestamp
  operator_ref days_old :
  Py.truthy_opt_str before_timestamp = true ->
  fromisoformat (replace_Z (Bods.opt_str before_timestamp)) = None ->
  delete_conditions fromisoformat clk vehicle_ref before_timestamp
    operator_ref days_old = Raise (HTTPExc 400)
  /\ delete_vehicle_positions fromisoformat db clk vehicle_ref
       before_timestamp operator_ref days_old
     = (Failure 500, db).
Proof.
  intros Hb Hp.
  assert (E : delete_conditions fromisoformat clk vehicle_ref before_timestamp
                operator_ref days_old = Raise (HTTPExc 400)).
  { unfold delete_conditions. rewrite Hb, Hp. reflexivity. }
  split; [exact E|].
  unfold delete_vehicle_positions. rewrite E. reflexivity.
Qed.

(** X10: whatever statement [delete_vehicle_positions] builds, its text
    has as many [%s] placeholders as parameters are handed to
    [cur.execute]. *)
Theorem delete_statement_placeholders clk vehicle_ref before_timestamp
  operator_ref days_old conds :
  delete_conditions fromisoformat clk vehicle_ref before_timestamp
    operator_ref days_old = Return conds ->
  count_placeholders (sql_text delete_base conds)
  = List.length (sql_params conds).
Proof.
  unfold delete_conditions.
  destruct (Py.truthy_opt_str vehicle_ref), (Py.truthy_opt_str before_timestamp),
    (Py.truthy_opt_str operator_ref);
    try destruct (fromisoformat _);
    try (destruct days_old as [d|]; [destruct (Py.truthy_int d)|]);
    try destruct (minus_days _ _);
    cbn [bind app]; intros H; try discriminate H;
    injection H as <-; reflexivity.
Qed.

Lemma length_filter_split {A : Type} (p : A -> bool) (l : list A) :
  List.length l
  = (List.length (filter p l) + List.length (filter (fun x => negb (p x)) l))%nat.
Proof.
  induction l as [|x l IH]; simpl; [reflexivity|].
  destruct (p x); simpl; lia.
Qed.

Lemma opt_eqb_true o s : opt_eqb o s = true <-> o = Some s.
Proof.
  destruct o as [x|]; simpl; [|split; discriminate].
  rewrite String.eqb_eq. split; congruence.
Qed.

Lemma truthy_opt_str_some o :
  Py.truthy_opt_str o = true -> o = Some (Bods.opt_str o).
Proof. destruct o as [[|c s]|]; simpl; intros H; try discriminate H; reflexivity. Qed.

(** The conditions of the statement include one per reference given. *)
Lemma delete_conditions_refs clk vehicle_ref before_timestamp operator_ref
  days_old conds :
  delete_conditions fromisoformat clk vehicle_ref before_timestamp
    operator_ref days_old = Return conds ->
  (Py.truthy_opt_str vehicle_ref = true ->
   In (VehicleRefIs (Bods.opt_str vehicle_ref)) conds)
  /\ (Py.truthy_opt_str operator_ref = true ->
      In (OperatorRefIs (Bods.opt_str operator_ref)) conds).
Proof.
  unfold delete_conditions.
  destruct (Py.truthy_opt_str vehicle_ref), (Py.truthy_opt_str before_timestamp),
    (Py.truthy_opt_str operator_ref);
    try destruct (fromisoformat _);
    try (destruct days_old as [d|]; [destruct (Py.truthy_int d)|]);
    try destruct (minus_days _ _);
    cbn [bind app]; intros H; try discriminate H;
    injection H as <-; split; intros E; try discriminate E;
    cbn [In]; auto.
Qed.

(** X11: when [delete_vehicle_positions] answers with a count, the count
    is the number of positions removed, the positions left keep their
    order, the sessions are untouched, and no position of another vehicle
    (when [vehicle_ref] is given) or of another operator (when
    [operator_ref] is given) is removed. *)
Theorem delete_vehicle_positions_effect db clk vehicle_ref before_timestamp
  operator_ref days_old n db' :
  delete_vehicle_positions fromisoformat db clk vehicle_ref before_timestamp
    operator_ref days_old = (Success n, db') ->
  List.length (positions db) = (n + List.length (positions db'))%nat
  /\ subseq (positions db') (positions db)
  /\ sessions db' = sessions db
  /\ (forall r, In r (positions db) ->
        (Py.truthy_opt_str vehicle_ref = true /\ Live.vehicle_ref r <> vehicle_ref)
        \/ (Py.truthy_opt_str operator_ref = true
            /\ Live.operator_ref r <> operator_ref) ->
        In r (positions db')).
Proof.
  unfold delete_vehicle_positions.
  destruct (delete_conditions fromisoformat clk vehicle_ref before_timestamp
              operator_ref days_old) as [conds|e] eqn:Ec;
    cbn [bind]; [|intros H; discriminate H].
  pose proof (delete_conditions_refs _ _ _ _ _ _ Ec) as [Hv Ho].
  unfold connect. destruct (Live.connect_fails (store db));
    cbn [bind]; [intros H; discriminate H|].
  unfold execute. destruct (Live.execute_fails (store db));
    [intros H; discriminate H|].
  unfold delete_positions. intros H. injection H as <- <-.
  unfold positions. cbn [with_table store sessions Live.table].
  split; [apply length_filter_split|].
  split; [apply FilterFacts.subseq_filter|].
  split; [reflexivity|].
  intros r Hr Hother. apply filter_In. split; [exact Hr|].
  apply negb_true_iff. apply not_true_is_false. intros Hsel.
  unfold selected in Hsel. rewrite forallb_forall in Hsel.
  destruct Hother as [[Ht Hne]|[Ht Hne]].
  - specialize (Hsel _ (Hv Ht)). cbn [cond_holds] in Hsel.
    apply opt_eqb_true in Hsel. apply Hne. rewrite Hsel.
    symmetry. apply truthy_opt_str_some, Ht.
  - specialize (Hsel _ (Ho Ht)). cbn [cond_holds] in Hsel.
    apply opt_eqb_true in Hsel. apply Hne. rewrite Hsel.
    symmetry. apply truthy_opt_str_some, Ht.
Qed.

End Handlers.

Lemma sample_db_reachable : reachable sample_db.
Proof. split; reflexivity. Qed.

Lemma delete_without_filter_witness :
  reachable sample_db
  /\ delete_vehicle_positions reads_nothing sample_db sample_clock
       (Some "") None None (Some 0)
     = (Success 3%nat, with_table sample_db [] (sessions sample_db)).
Proof.
  split; [exact sample_db_reachable|].
  destruct (delete_without_filter_deletes_all reads_nothing sample_db sample_clock
              (Some "") None None (Some 0) sample_db_reachable
              eq_refl eq_refl eq_refl (or_intror eq_refl))
    as (conds & _ & _ & _ & E).
  exact E.
Defined.

Lemma delete_statement_placeholders_witness :
  exists conds,
    delete_conditions reads_2024 sample_clock (Some "V1") (Some "2024-01-01Z")
      (Some "MIDL") None = Return conds
    /\ sql_text delete_base conds
       = "DELETE FROM vehicle_positions WHERE 1=1 AND vehicle_ref = %s AND recorded_at_time < %s AND operator_ref = %s"
    /\ count_placeholders (sql_text delete_base conds) = 3%nat
    /\ List.length (sql_params conds) = 3%nat.
Proof.
  eexists. split; [reflexivity|]. split; [reflexivity|].
  split; [|reflexivity].
  exact (delete_statement_placeholders reads_2024 sample_clock (Some "V1")
           (Some "2024-01-01Z") (Some "MIDL") None _ eq_refl).
Defined.

Lemma delete_vehicle_positions_effect_witness :
  exists db',
    delete_vehicle_positions reads_2024 sample_db sample_clock (Some "V1")
      (Some "2024-01-01Z") None None = (Success 1%nat, db')
    /\ List.length (positions sample_db) = (1 + List.length (positions db'))%nat
    /\ sessions db' = sessions sample_db.
Proof.
  eexists. split; [vm_compute; reflexivity|].
  destruct (delete_vehicle_positions_effect reads_2024 sample_db sample_clock
              (Some "V1") (Some "2024-01-01Z") None None 1%nat _ eq_refl)
    as (H1 & _ & H3 & _).
  split; [exact H1 | exact H3].
Defined.

Lemma delete_invalid_timestamp_witness :
  Py.truthy_opt_str (Some "yesterday") = true
  /\ reads_nothing (replace_Z "yesterday") = None
  /\ delete_vehicle_positions reads_nothing sample_db sample_clock
       (Some "V1") (Some "yesterday") None (Some 30)
     = (Failure 500, sample_db).
Proof.
  split; [reflexivity|]. split; [reflexivity|].
  exact (proj2 (delete_invalid_timestamp_is_500 reads_nothing sample_db
                  sample_clock (Some "V1") (Some "yesterday") None (Some 30)
                  eq_refl eq_refl)).
Defined.

End MaintProps.

Module CleanupProps.

Import Notions Notions2 Notions3 Datetime Maint FilterProps MaintProps.

Lemma minus_days_instant now d t :
  minus_days now d = Return t -> instant t = instant now - d * usec_per_day.
Proof.
  unfold minus_days. destruct (_ <=? _); [|discriminate].
  destruct (_ && _); [|discriminate]. intros H. injection H as <-.
  unfold instant. cbn [wall tzinfo]. destruct (tzinfo now); lia.
Qed.

(** X12: when [bulk_cleanup] answers, a position is removed exactly when it
    was recorded before the cutoff (the first clock reading minus
    [days_old] days) and is of the given vehicle and operator (each only
    when given); the count is the number removed, and every session that
    started at or after the second cutoff is kept. *)
Theorem bulk_cleanup_effect db clk days_old vehicle_ref operator_ref c db' :
  bulk_cleanup db clk days_old vehicle_ref operator_ref = (Success c, db') ->
  let cutoff k := Clock.readings clk k - days_old * usec_per_day in
  (forall r,
     In r (positions db') <->
     In r (positions db)
     /\ ~ (recorded r < cutoff (Clock.calls clk)
           /\ (Py.truthy_opt_str vehicle_ref = true -> Live.vehicle_ref r = vehicle_ref)
           /\ (Py.truthy_opt_str operator_ref = true ->
               Live.operator_ref r = operator_ref)))
  /\ List.length (positions db)
     = (deleted_positions c + List.length (positions db'))%nat
  /\ List.length (sessions db)
     = (deleted_sessions c + List.length (sessions db'))%nat
  /\ (forall s, In s (sessions db) ->
        cutoff (S (Clock.calls clk)) <= instant (start_time s) ->
        In s (sessions db')).
Proof.
  unfold bulk_cleanup, connect.
  destruct (Live.connect_fails (store db)); cbn [bind];
    [intros H; discriminate H|].
  cbn [Clock.now_utc Clock.tick Clock.readings Clock.calls].
  destruct (minus_days _ days_old) as [cutoff1|] eqn:E1; cbn [bind];
    [|intros H; discriminate H].
  unfold execute. destruct (Live.execute_fails (store db)); cbn [bind];
    [intros H; discriminate H|].
  destruct (minus_days (mk (Clock.readings clk (S (Clock.calls clk))) _) days_old)
    as [cutoff2|] eqn:E2; cbn [bind]; [|intros H; discriminate H].
  apply minus_days_instant in E1, E2. cbn [instant wall tzinfo] in E1, E2.
  unfold delete_positions, delete_sessions.
  intros H. cbv zeta. injection H as <- <-.
  unfold positions. cbn [with_table store sessions Live.table
                         deleted_positions deleted_sessions].
  split; [|split; [apply length_filter_split|split; [apply length_filter_split|]]].
  - intros r. rewrite filter_In. unfold selected.
    rewrite negb_true_iff, <- not_true_iff_false.
    assert (S : forallb (fun c => cond_holds c r)
                  ([RecordedBefore cutoff1]
                   ++ (if Py.truthy_opt_str vehicle_ref
                       then [VehicleRefIs (Bods.opt_str vehicle_ref)] else [])
                   ++ (if Py.truthy_opt_str operator_ref
                       then [OperatorRefIs (Bods.opt_str operator_ref)] else []))
                = true
                <-> recorded r < Clock.readings clk (Clock.calls clk)
                                 - days_old * usec_per_day
                    /\ (Py.truthy_opt_str vehicle_ref = true ->
                        Live.vehicle_ref r = vehicle_ref)
                    /\ (Py.truthy_opt_str operator_ref = true ->
                        Live.operator_ref r = operator_ref)).
    { unfold recorded. rewrite !forallb_app, !andb_true_iff.
      cbn [forallb cond_holds]. rewrite andb_true_r, Z.ltb_lt, E1.
      assert (R : forall (o : option string) (f : string -> Cond)
                    (x : option string),
                 (forall s, cond_holds (f s) r = opt_eqb x s) ->
                 forallb (fun c => cond_holds c r)
                   (if Py.truthy_opt_str o then [f (Bods.opt_str o)] else [])
                 = true
                 <-> (Py.truthy_opt_str o = true -> x = o)).
      { intros o f x Hf. destruct (Py.truthy_opt_str o) eqn:Et;
          cbn [forallb]; [|split; [discriminate | reflexivity]].
        rewrite andb_true_r, Hf, opt_eqb_true.
        rewrite (truthy_opt_str_some o Et) at 2. tauto. }
      rewrite (R vehicle_ref VehicleRefIs (Live.vehicle_ref r))
        by reflexivity.
      rewrite (R operator_ref OperatorRefIs (Live.operator_ref r))
        by reflexivity.
      rewrite Z.mul_0_l, Z.sub_0_r. tauto. }
    rewrite S. tauto.
  - intros s Hs Hnew. apply filter_In. split; [exact Hs|].
    apply negb_true_iff, andb_false_iff. left. apply Z.ltb_ge. lia.
Qed.

Lemma bulk_cleanup_effect_witness :
  let out := bulk_cleanup sample_db sample_clock 30 None None in
  fst out = Success (mkCleanup 1 1)
  /\ List.length (positions (snd out)) = 2%nat
  /\ List.length (sessions (snd out)) = 1%nat.
Proof.
  intros out.
  assert (E : out = (Success (mkCleanup 1 1), snd out))
    by (vm_compute; reflexivity).
  destruct (bulk_cleanup_effect sample_db sample_clock 30 None None
              (mkCleanup 1 1) (snd out) E) as (_ & H2 & H3 & _).
  clearbody out.
  cbn [deleted_positions deleted_sessions] in H2, H3.
  change (List.length (positions sample_db)) with 3%nat in H2.
  change (List.length (sessions sample_db)) with 2%nat in H3.
  rewrite E at 1. cbn [fst]. split; [reflexivity|]. split; lia.
Defined.

(** X13: [DELETE /tracking-sessions/{id}] for an id that no session has
    is answered with status 500, not 404 (the 404 is raised inside the
    [try]), and the database is left as it was. *)
Theorem delete_unknown_session_is_500 db clk id :
  (forall s, In s (sessions db) -> session_id s <> id) ->
  delete_tracking_session db clk id = (Failure 500, db).
Proof.
  intros Hno. unfold delete_tracking_session, connect.
  destruct (Live.connect_fails (store db)); cbn [bind]; [reflexivity|].
  unfold execute. destruct (Live.execute_fails (store db)); cbn [bind];
    [reflexivity|].
  destruct (List.find _ (sessions db)) as [s|] eqn:E; [|reflexivity].
  apply find_some in E. destruct E as [Hin Hid].
  apply Z.eqb_eq in Hid. exfalso. exact (Hno s Hin Hid).
Qed.

Lemma delete_unknown_session_witness :
  (forall s, In s (sessions sample_db) -> session_id s <> 99)
  /\ delete_tracking_session sample_db sample_clock 99 = (Failure 500, sample_db).
Proof.
  assert (H : forall s, In s (sessions sample_db) -> session_id s <> 99).
  { intros s [<-|[<-|[]]]; discriminate. }
  split; [exact H|].
  exact (delete_unknown_session_is_500 sample_db sample_clock 99 H).
Defined.

(** X14: on a database that answers, deleting the session [s] found for
    an id removes the sessions with that id and, of the positions, exactly
    those of the session's vehicle recorded from its start to its end, both
    included; an open session ends at the current clock reading. *)
Theorem delete_tracking_session_effect db clk id s :
  reachable db ->
  List.find (fun x => session_id x =? id) (sessions db) = Some s ->
  exists n db',
    delete_tracking_session db clk id = (Success (mkSessionDeleted n id), db')
    /\ sessions db' = filter (fun x => negb (session_id x =? id)) (sessions db)
    /\ List.length (positions db) = (n + List.length (positions db'))%nat
    /\ forall r,
         In r (positions db') <->
         In r (positions db)
         /\ ~ (of_vehicle (session_vehicle_ref s) r
               /\ instant (start_time s) <= recorded r
                  <= match end_time s with
                     | Some t => instant t
                     | None => Clock.readings clk (Clock.calls clk)
                     end).
Proof.
  intros Hr Hs. unfold delete_tracking_session.
  rewrite (connect_reachable db Hr). cbn [bind].
  rewrite (execute_reachable db _ Hr). cbn [bind]. rewrite Hs.
  rewrite !(execute_reachable db _ Hr). cbn [bind].
  unfold delete_positions. do 2 eexists. split; [reflexivity|].
  unfold positions. cbn [with_table store sessions Live.table].
  split; [reflexivity|]. split; [apply length_filter_split|].
  intros r. rewrite filter_In. unfold selected. cbn [forallb cond_holds].
  rewrite negb_true_iff, <- not_true_iff_false.
  rewrite andb_true_r, !andb_true_iff, opt_eqb_true, !Z.leb_le.
  unfold of_vehicle, recorded.
  destruct (end_time s) as [t|]; cbn [Clock.now_utc fst instant wall tzinfo];
    [tauto|].
  rewrite Z.mul_0_l, Z.sub_0_r. tauto.
Qed.

Lemma delete_tracking_session_effect_witness :
  reachable sample_db
  /\ exists db',
       delete_tracking_session sample_db sample_clock 8
       = (Success (mkSessionDeleted 1 8), db')
       /\ List.length (positions db') = 2%nat.
Proof.
  split; [exact sample_db_reachable|].
  destruct (delete_tracking_session_effect sample_db sample_clock 8
              (Maint.mkSession 8 "V1" (utc 2023 11 1 7 0 0 0)
                 (Some (utc 2023 11 1 9 0 0 0)))
              sample_db_reachable eq_refl) as (n & db' & E & _ & Hl & _).
  assert (En : n = 1%nat).
  { vm_compute in E. injection E as E _. exact (eq_sym E). }
  subst n. exists db'. split; [exact E|].
  change (List.length (positions sample_db)) with 3%nat in Hl. lia.
Defined.

End CleanupProps.

Module IngestProps.

Import Notions Notions2 Notions3 Datetime Maint Ingest MaintProps.

Lemma same_key_do_update_r r old new :
  same_key r (do_update old new) = same_key r old.
Proof. reflexivity. Qed.

Lemma same_key_do_update_l old new x :
  same_key (do_update old new) x = same_key old x.
Proof. reflexivity. Qed.

Lemma do_update_idem old new :
  do_update (do_update old new) new = do_update old new.
Proof. reflexivity. Qed.

Lemma do_update_self r : do_update r r = r.
Proof. destruct r; reflexivity. Qed.

Lemma same_key_sym a b : same_key a b = same_key b a.
Proof.
  unfold same_key.
  destruct (Live.vehicle_ref a), (Live.vehicle_ref b); try reflexivity.
  rewrite String.eqb_sym, Z.eqb_sym. reflexivity.
Qed.

Lemma same_key_trans a b c :
  same_key a b = true -> same_key b c = true -> same_key a c = true.
Proof.
  unfold same_key.
  destruct (Live.vehicle_ref a), (Live.vehicle_ref b), (Live.vehicle_ref c);
    try discriminate.
  rewrite !andb_true_iff, !String.eqb_eq, !Z.eqb_eq.
  intros [-> ->] [-> ->]. split; reflexivity.
Qed.

Lemma same_key_false_l a b c :
  same_key a b = true -> same_key c b = false -> same_key c a = false.
Proof.
  intros Hab Hcb. destruct (same_key c a) eqn:E; [|reflexivity].
  rewrite (same_key_trans c a b E Hab) in Hcb. discriminate Hcb.
Qed.

(** The rows of the table after the statement: each is an old row, the
    update of one with the key of the new row, or the new row. *)
Lemma upsert_Forall (P : Live.Row -> Prop) new rows :
  Forall P rows -> P new ->
  (forall old, In old rows -> same_key old new = true -> P (do_update old new)) ->
  Forall P (upsert new rows).
Proof.
  induction rows as [|r rest IH]; intros Hall Hnew Hupd; simpl.
  - constructor; [exact Hnew | constructor].
  - inversion Hall as [|? ? Hr Hrest]; subst.
    destruct (same_key r new) eqn:E.
    + constructor; [apply Hupd; [left; reflexivity | exact E] | exact Hrest].
    + constructor; [exact Hr|]. apply IH; try assumption.
      intros old Hin. apply Hupd. right. exact Hin.
Qed.

Lemma upsert_keys_unique new rows :
  keys_unique rows -> keys_unique (upsert new rows).
Proof.
  induction 1 as [|r rest Hr Hu IH]; simpl.
  - constructor; constructor.
  - destruct (same_key r new) eqn:E.
    + constructor; [|exact Hu].
      eapply Forall_impl; [|exact Hr]. intros x Hx.
      rewrite same_key_do_update_l. exact Hx.
    + constructor; [|exact IH].
      apply upsert_Forall; [exact Hr | exact E |].
      intros old Hin _. rewrite same_key_do_update_r.
      rewrite Forall_forall in Hr. apply Hr, Hin.
Qed.

Lemma upsert_no_conflict new rows :
  Forall (fun old => same_key old new = false) rows ->
  upsert new rows = (rows ++ [new])%list.
Proof.
  induction 1 as [|r rest Hr _ IH]; simpl; [reflexivity|].
  rewrite Hr, IH. reflexivity.
Qed.

Lemma upsert_conflict new rows :
  Exists (fun old => same_key old new = true) rows ->
  exists pre old post,
    rows = (pre ++ old :: post)%list
    /\ Forall (fun x => same_key x new = false) pre
    /\ same_key old new = true
    /\ upsert new rows = (pre ++ do_update old new :: post)%list.
Proof.
  induction rows as [|r rest IH]; intros Hex; [inversion Hex|].
  simpl. destruct (same_key r new) eqn:E.
  - exists [], r, rest. repeat split; [constructor | exact E].
  - assert (Hrest : Exists (fun old => same_key old new = true) rest).
    { inversion Hex as [? ? H|? ? H]; subst; [congruence | exact H]. }
    destruct (IH Hrest) as (pre & old & post & -> & Hpre & Hold & Eu).
    exists (r :: pre), old, post. rewrite Eu.
    repeat split; [constructor; assumption | exact Hold].
Qed.

Lemma upsert_idem new rows :
  same_key new new = true -> upsert new (upsert new rows) = upsert new rows.
Proof.
  intros Hk. induction rows as [|r rest IH]; simpl.
  - rewrite Hk, do_update_self. reflexivity.
  - destruct (same_key r new) eqn:E; simpl.
    + rewrite same_key_do_update_l, E, do_update_idem. reflexivity.
    + rewrite E, IH. reflexivity.
Qed.

Section Store.

Variable pyval : Type.
Variable py_none : pyval.
Variable pg_row : list pyval -> option Live.Row.

(** X15: a report that lacks one of the fifteen required keys is answered
    with status 500 and nothing is stored ([destination_name], [velocity]
    and [occupancy] are the only keys that may be absent). *)
Theorem submit_missing_key_is_500 db (data : dict pyval) k :
  In k required_keys -> data k = None ->
  submit_vehicle_position pyval py_none pg_row db data = (Failure 500, db).
Proof.
  intros Hk Hnone. unfold submit_vehicle_position, store_vehicle_position.
  destruct (connect db) as [conn|e]; cbn [bind]; [|reflexivity].
  assert (E : exists e, insert_params pyval py_none data = Raise e).
  { unfold insert_params, getitem. unfold required_keys in Hk. cbn [In] in Hk.
    repeat (destruct Hk as [<-|Hk];
            [rewrite Hnone;
             repeat match goal with
                    | |- context [match data ?x with Some _ => _ | None => _ end] =>
                        destruct (data x); cbn [bind]
                    end; eexists; reflexivity|]).
    contradiction. }
  destruct E as [e ->]. reflexivity.
Qed.

(** What a successful submission did to the table. *)
Lemma submit_success db data db' :
  submit_vehicle_position pyval py_none pg_row db data = (Success tt, db') ->
  exists params row,
    insert_params pyval py_none data = Return params
    /\ pg_row params = Some row
    /\ db' = with_table db (upsert (proposed row) (positions db)) (sessions db).
Proof.
  unfold submit_vehicle_position, store_vehicle_position, connect.
  destruct (Live.connect_fails (store db)); cbn [bind];
    [intros H; discriminate H|].
  destruct (insert_params pyval py_none data) as [params|e] eqn:Ep; cbn [bind];
    [|intros H; discriminate H].
  destruct (pg_row params) as [row|] eqn:Er; [|intros H; discriminate H].
  unfold execute. destruct (Live.execute_fails (store db));
    [intros H; discriminate H|].
  intros H. injection H as <-. exists params, row.
  split; [reflexivity|]. split; [exact Er | reflexivity].
Qed.




End Store.

Lemma submit_missing_key_witness :
  let data := body_of (filter (fun kv => negb (String.eqb (fst kv) "bearing"))
                         full_body) in
  In "bearing" required_keys
  /\ data "bearing" = None
  /\ submit_vehicle_position nat O (stores (row_at "V9" T0)) sample_db data
     = (Failure 500, sample_db).
Proof.
  intros data.
  assert (Hk : In "bearing" required_keys) by (cbn; tauto).
  assert (Hn : data "bearing" = None) by reflexivity.
  split; [exact Hk|]. split; [exact Hn|].
  exact (submit_missing_key_is_500 nat O (stores (row_at "V9" T0)) sample_db
           data "bearing" Hk Hn).
Defined.

Lemma sample_db_keys_unique : keys_unique (positions sample_db).
Proof. repeat constructor. Qed.




End IngestProps.

Module DashboardProps.

Import Notions Notions2 Notions3 Datetime Maint Dashboard FilterProps
  ProviderFacts.

Lemma ref_eqb_eq a b : ref_eqb a b = true <-> a = b.
Proof.
  destruct a as [x|], b as [y|]; simpl; try (split; congruence).
  rewrite String.eqb_eq. split; congruence.
Qed.

Lemma seen_in_In ref seen : seen_in ref seen = true <-> In ref seen.
Proof.
  unfold seen_in. rewrite existsb_exists. split.
  - intros (x & Hx & E). apply ref_eqb_eq in E. subst. exact Hx.
  - intros H. exists ref. split; [exact H | apply ref_eqb_eq; reflexivity].
Qed.

(** The loop returns the entries of the kept rows, behind those it
    started with. *)
Lemma collect_kept positions : forall vehicles seen entries,
  collect positions vehicles seen = Return entries ->
  exists added,
    entries = (vehicles ++ added)%list
    /\ Forall2 shows (kept_rows positions seen) added.
Proof.
  induction positions as [|pos rest IH]; intros vehicles seen entries H;
    simpl in *.
  - injection H as <-. exists []. rewrite app_nil_r. split; constructor.
  - destruct (seen_in (Live.vehicle_ref pos) seen); [apply IH, H|].
    destruct (entry_of pos) as [e|] eqn:Ee; cbn [bind] in H; [|discriminate H].
    destruct (IH _ _ _ H) as (added & -> & Hf).
    exists (e :: added). rewrite <- app_assoc. split; [reflexivity|].
    constructor; assumption.
Qed.

Lemma kept_rows_subseq positions : forall seen,
  subseq (kept_rows positions seen) positions.
Proof.
  induction positions as [|pos rest IH]; intros seen; simpl; [constructor|].
  destruct (seen_in _ seen); [apply subseq_skip | apply subseq_keep]; apply IH.
Qed.

Lemma kept_rows_not_seen positions : forall seen r,
  In r (kept_rows positions seen) -> ~ In (Live.vehicle_ref r) seen.
Proof.
  induction positions as [|pos rest IH]; intros seen r H; simpl in H;
    [contradiction|].
  destruct (seen_in (Live.vehicle_ref pos) seen) eqn:E; [apply IH, H|].
  destruct H as [<-|H].
  - rewrite <- seen_in_In, E. discriminate.
  - intros Hin. apply (IH _ _ H). right. exact Hin.
Qed.

Lemma kept_rows_NoDup positions : forall seen,
  NoDup (map Live.vehicle_ref (kept_rows positions seen)).
Proof.
  induction positions as [|pos rest IH]; intros seen; simpl; [constructor|].
  destruct (seen_in (Live.vehicle_ref pos) seen); [apply IH|].
  simpl. constructor; [|apply IH].
  intros Hin. apply in_map_iff in Hin. destruct Hin as (r & E & Hr).
  apply kept_rows_not_seen in Hr. apply Hr. left. symmetry. exact E.
Qed.

Lemma kept_rows_latest positions : forall seen,
  StronglySorted newer_first positions ->
  forall r, In r positions -> ~ In (Live.vehicle_ref r) seen ->
  exists k, In k (kept_rows positions seen)
            /\ Live.vehicle_ref k = Live.vehicle_ref r
            /\ newer_first k r.
Proof.
  induction positions as [|pos rest IH]; intros seen Hs r Hr Hns;
    [contradiction|].
  inversion Hs as [|? ? Hrest Hpos]; subst. simpl.
  destruct (seen_in (Live.vehicle_ref pos) seen) eqn:E.
  - destruct Hr as [<-|Hr]; [rewrite seen_in_In in E; contradiction|].
    apply IH; assumption.
  - destruct (ref_eqb (Live.vehicle_ref pos) (Live.vehicle_ref r)) eqn:Eq.
    + apply ref_eqb_eq in Eq. exists pos. split; [left; reflexivity|].
      split; [exact Eq|].
      destruct Hr as [<-|Hr]; [unfold newer_first; lia|].
      rewrite Forall_forall in Hpos. apply Hpos, Hr.
    + assert (Hne : Live.vehicle_ref pos <> Live.vehicle_ref r).
      { intros Heq. apply ref_eqb_eq in Heq. congruence. }
      destruct Hr as [<-|Hr]; [congruence|].
      destruct (IH (Live.vehicle_ref pos :: seen) Hrest r Hr) as (k & Hk & Ek & Hn).
      { intros [H|H]; [congruence | contradiction]. }
      exists k. split; [right; exact Hk | split; assumption].
Qed.

Lemma subseq_sorted {A : Type} (R : A -> A -> Prop) (l1 l2 : list A) :
  subseq l1 l2 -> StronglySorted R l2 -> StronglySorted R l1.
Proof.
  induction 1 as [|x l1 l2 Hs IH|x l1 l2 Hs IH]; intros H.
  - constructor.
  - inversion H; subst. auto.
  - inversion H as [|? ? Hl Hx]; subst. constructor; [auto|].
    eapply subseq_Forall; eassumption.
Qed.

Lemma Forall2_map_eq {A B C : Type} (R : A -> B -> Prop) (f : A -> C)
  (g : B -> C) l1 l2 :
  (forall a b, R a b -> f a = g b) -> Forall2 R l1 l2 -> map f l1 = map g l2.
Proof.
  intros H. induction 1; simpl; [reflexivity|]. f_equal; auto.
Qed.

(** X19: when the map endpoint answers with entries, no two of them have
    the same vehicle reference; they are made of rows recorded within the
    last ten minutes (the bound included), most recent first; and every
    row of the window has an entry for its vehicle made of a row at least
    as recent. *)
Theorem get_vehicles_latest_per_vehicle st now entries :
  get_vehicles st now = Success entries ->
  NoDup (map entry_vehicle_ref entries)
  /\ exists kept,
       Forall2 shows kept entries
       /\ subseq kept
            (Live.order_by_recorded_desc (filter (on_map now) (Live.table st)))
       /\ StronglySorted newer_first kept
       /\ forall r, In r (Live.table st) -> on_map now r = true ->
            exists k, In k kept
                      /\ Live.vehicle_ref k = Live.vehicle_ref r
                      /\ newer_first k r.
Proof.
  unfold get_vehicles.
  destruct (Live.connect_fails st || Live.execute_fails st); cbn [bind except_500];
    [intros H; discriminate H|].
  set (sorted := Live.order_by_recorded_desc (filter (on_map now) (Live.table st))).
  destruct (collect sorted [] []) as [es|] eqn:Ec; cbn [except_500];
    intros H; [|discriminate H].
  injection H as <-.
  destruct (collect_kept _ _ _ _ Ec) as (added & E & Hf). cbn [app] in E. subst es.
  assert (Hsorted : StronglySorted newer_first sorted)
    by apply order_by_recorded_desc_sorted.
  split.
  - rewrite <- (Forall2_map_eq shows Live.vehicle_ref entry_vehicle_ref _ _
                  ltac:(intros a b Hab; unfold shows, entry_of in Hab;
                        destruct (to_float (Live.latitude a)); cbn [bind] in Hab;
                        [|discriminate Hab];
                        destruct (to_float (Live.longitude a)); cbn [bind] in Hab;
                        [|discriminate Hab];
                        injection Hab as <-; reflexivity) Hf).
    apply kept_rows_NoDup.
  - exists (kept_rows sorted []). split; [exact Hf|].
    split; [apply kept_rows_subseq|].
    split; [eapply subseq_sorted; [apply kept_rows_subseq | exact Hsorted]|].
    intros r Hr Hon. apply kept_rows_latest; [exact Hsorted | | intros []].
    eapply Permutation_in;
      [apply Permutation_sym, order_by_recorded_desc_perm|].
    apply filter_In. split; assumption.
Qed.

Lemma get_vehicles_latest_witness :
  let st := store_of [row_at "V1" (utc 2024 1 1 11 58 0 0);
                      row_at "V2" (utc 2024 1 1 11 50 0 0);
                      row_at "V1" (utc 2024 1 1 11 59 0 0);
                      row_at "V3" (utc 2024 1 1 11 49 59 999999)] in
  exists entries,
    get_vehicles st noon = Success entries
    /\ map entry_vehicle_ref entries = [Some "V1"; Some "V2"]
    /\ map entry_recorded_at_time entries
       = ["2024-01-01T11:59:00+00:00"; "2024-01-01T11:50:00+00:00"]
    /\ NoDup (map entry_vehicle_ref entries).
Proof.
  intros st.
  destruct (get_vehicles st noon) as [entries|] eqn:E;
    [|vm_compute in E; discriminate E].
  exists entries. split; [reflexivity|].
  pose proof (proj1 (get_vehicles_latest_per_vehicle st noon entries E)) as Hn.
  vm_compute in E. injection E as <-.
  split; [reflexivity|]. split; [reflexivity | exact Hn].
Defined.

End DashboardProps.

Module GeneratorProps.

Import Notions Notions2 Notions3 Datetime Generator XmlFacts TextFacts
  FilterProps.

Lemma choice_some {A : Type} (seq : list A) w :
  seq <> [] ->
  exists x, choice seq w = (Some x, drawn w) /\ In x seq.
Proof.
  intros Hne. destruct seq as [|a l]; [congruence|].
  unfold choice.
  set (n := (randbelow_at (rng w) (draws (rng w)) (List.length (a :: l))
             mod List.length (a :: l))%nat).
  assert (Hn : (n < List.length (a :: l))%nat)
    by (apply Nat.mod_upper_bound; discriminate).
  destruct (nth_error (a :: l) n) as [x|] eqn:E.
  - exists x. split; [reflexivity | eapply nth_error_In; exact E].
  - apply nth_error_None in E. lia.
Qed.

Lemma generate_vehicles_spec indices : forall w,
  exists vehicles w',
    _generate_vehicles indices w = (Some vehicles, w')
    /\ map vehicle_ref vehicles
       = map (fun i => "MIDL_" ++ Py.str_int (1000 + i)) indices
    /\ map block_ref vehicles
       = map (fun i => "BLOCK_" ++ Py.str_int (i mod 3 + 1)) indices
    /\ Forall scheduled vehicles
    /\ Forall (fun v => In (position v) vehicle_positions) vehicles.
Proof.
  induction indices as [|i rest IH]; intros w.
  - exists [], w. repeat split; constructor.
  - cbn [_generate_vehicles].
    destruct (choice_some routes w ltac:(discriminate)) as (r & -> & Hr).
    destruct (choice_some vehicle_positions (drawn w) ltac:(discriminate))
      as (p & -> & Hp).
    unfold utcnow. cbn [Clock.utcnow].
    match goal with
    | |- context [_generate_vehicles rest ?w1] =>
        destruct (IH w1) as (vs & w' & E & H1 & H2 & H3 & H4); rewrite E
    end.
    eexists _, w'. cbn [option_map]. split; [reflexivity|].
    cbn [map vehicle_ref block_ref]. rewrite H1, H2.
    repeat split; constructor; assumption.
Qed.

Lemma roster_refs_distinct : NoDup roster_refs.
Proof.
  unfold roster_refs.
  repeat (constructor; [cbn [In]; intuition discriminate|]). constructor.
Qed.

(** X20: whatever the clock and the random draws, building the generator
    succeeds and gives the ten vehicles [MIDL_1000] to [MIDL_1009], in this
    order and so with distinct references, on the blocks 1, 2, 3 in turn,
    each on one of the three routes and at one of the seven starting
    positions. *)
Theorem generator_roster w :
  exists vehicles w',
    VehicleDataGenerator w = (Some vehicles, w')
    /\ roster vehicles
    /\ NoDup (map vehicle_ref vehicles)
    /\ Forall (fun v => In (position v) vehicle_positions) vehicles.
Proof.
  destruct (generate_vehicles_spec (range 10) w)
    as (vs & w' & E & H1 & H2 & H3 & H4).
  exists vs, w'. split; [exact E|].
  assert (R : map vehicle_ref vs = roster_refs) by (rewrite H1; reflexivity).
  split; [|split; [|exact H4]].
  - split; [exact R|]. split; [rewrite H2; reflexivity | exact H3].
  - rewrite R. exact roster_refs_distinct.
Qed.

Lemma scheduled_times v :
  scheduled v ->
  exists H Mi H' Mi',
    strptime_HM (origin_departure (route v)) = Some (H, Mi)
    /\ strptime_HM (destination_arrival (route v)) = Some (H', Mi').
Proof.
  unfold scheduled, routes. cbn [In].
  intros [<-|[<-|[<-|[]]]]; do 4 eexists; split; reflexivity.
Qed.

Lemma parse_time_some s H Mi w :
  strptime_HM s = Some (H, Mi) ->
  _parse_time s w
  = (Some (combine (Clock.readings (clock w) (Clock.calls (clock w))
                    / usec_per_day) H Mi),
     mkWorld (Clock.tick (clock w)) (rng w)).
Proof. intros E. unfold _parse_time, utcnow. cbn [Clock.utcnow]. rewrite E. reflexivity. Qed.

Section Generator.

Variable mod_int : Float.float -> Z -> Float.float.
Variable round_ndigits : Float.float -> Z -> Float.float.

Lemma vehicle_data_spec now v w :
  scheduled v ->
  exists d w',
    vehicle_data round_ndigits now v (position v) w = (Some d, w')
    /\ clock w' = advanced (clock w) 2
    /\ reported round_ndigits now v d
    /\ aimed (clock w) (Clock.calls (clock w)) v d.
Proof.
  intros Hs. destruct (scheduled_times v Hs) as (H & Mi & H' & Mi' & E1 & E2).
  unfold vehicle_data.
  rewrite (parse_time_some _ _ _ _ E1), (parse_time_some _ _ _ _ E2).
  unfold uniform, random.
  match goal with
  | |- context [choice occupancies ?w1] =>
      destruct (choice_some occupancies w1 ltac:(discriminate)) as (o & -> & Ho)
  end.
  do 2 eexists. split; [reflexivity|].
  split.
  { unfold advanced, drawn, Clock.tick.
    cbn [clock Clock.readings Clock.calls]. f_equal. lia. }
  split.
  - unfold reported. cbn. repeat split; try reflexivity. exact Ho.
  - exists H, Mi, H', Mi'. split; [exact E1|]. split; [exact E2|].
    split; reflexivity.
Qed.

(** What the loop of [get_vehicle_data] does to the vehicles, the snapshot
    and the clock. *)
Lemma update_vehicles_spec now vehicles : forall w,
  Forall scheduled vehicles ->
  exists data vehicles' w',
    update_vehicles mod_int round_ndigits now vehicles w
    = (Some data, vehicles', w')
    /\ clock w' = advanced (clock w) (2 * List.length vehicles)
    /\ Forall2 (kept now) vehicles vehicles'
    /\ Forall2 (reported round_ndigits now) vehicles' data
    /\ forall i v d,
         nth_error vehicles i = Some v -> nth_error data i = Some d ->
         aimed (clock w) (Clock.calls (clock w) + 2 * i) v d.
Proof.
  induction vehicles as [|v rest IH]; intros w Hs.
  - exists [], [], w. split; [reflexivity|].
    split; [unfold advanced; destruct (clock w); cbn; f_equal; lia|].
    split; [constructor|]. split; [constructor|].
    intros [|i] ? ? H; discriminate H.
  - inversion Hs as [|? ? Hv Hrest]; subst.
    cbn [update_vehicles]. unfold uniform at 1 2 3, random.
    cbv beta iota zeta.
    match goal with
    | |- context [vehicle_data round_ndigits now ?v' ?p ?wx] =>
        pose (v1 := v'); pose (w1 := wx);
        change (vehicle_data round_ndigits now v' p wx)
          with (vehicle_data round_ndigits now v1 (position v1) w1);
        destruct (vehicle_data_spec now v1 w1 Hv) as (d & w2 & E & Hc & Hr & Ha)
    end.
    rewrite E.
    destruct (IH w2 Hrest) as (data & rest' & w3 & E3 & Hc3 & Hk & Hrep & Haim).
    rewrite E3. exists (d :: data), (v1 :: rest'), w3.
    split; [reflexivity|].
    assert (Hw1 : clock w1 = clock w) by reflexivity.
    split.
    { rewrite Hc3, Hc, Hw1. unfold advanced.
      cbn [Clock.readings Clock.calls List.length]. f_equal. lia. }
    split.
    { constructor; [|exact Hk]. repeat split. }
    split; [constructor; assumption|].
    intros [|i] v' d' Hn Hd; cbn [nth_error] in Hn, Hd.
    + injection Hn as <-. injection Hd as <-.
      rewrite Nat.mul_0_r, Nat.add_0_r.
      destruct Ha as (H & Mi & H' & Mi' & A1 & A2 & A3 & A4).
      exists H, Mi, H', Mi'. repeat split; assumption.
    + specialize (Haim i v' d' Hn Hd). rewrite Hc, Hw1 in Haim.
      unfold advanced in Haim. cbn [Clock.readings Clock.calls] in Haim.
      replace (Clock.calls (clock w) + 2 * S i)%nat
        with (Clock.calls (clock w) + 2 + 2 * i)%nat by lia.
      destruct Haim as (H & Mi & H' & Mi' & A1 & A2 & A3 & A4).
      exists H, Mi, H', Mi'. repeat split; assumption.
Qed.

Lemma reading_now w : fst (utcnow w) = reading w 0.
Proof. unfold utcnow, reading. cbn [Clock.utcnow fst]. rewrite Nat.add_0_r. reflexivity. Qed.

Lemma get_vehicle_data_spec vehicles w :
  Forall scheduled vehicles ->
  exists data vehicles' w',
    get_vehicle_data mod_int round_ndigits vehicles w
    = (Some data, vehicles', w')
    /\ clock w' = advanced (clock w) (1 + 2 * List.length vehicles)
    /\ Forall2 (kept (reading w 0)) vehicles vehicles'
    /\ Forall2 (reported round_ndigits (reading w 0)) vehicles' data
    /\ forall i v d,
         nth_error vehicles i = Some v -> nth_error data i = Some d ->
         aimed (clock w) (Clock.calls (clock w) + 1 + 2 * i) v d.
Proof.
  intros Hs. unfold get_vehicle_data.
  pose proof (reading_now w) as Hnow. unfold utcnow in *.
  cbn [Clock.utcnow fst] in *. rewrite Hnow.
  match goal with
  | |- context [update_vehicles _ _ _ _ ?w1] =>
      destruct (update_vehicles_spec (reading w 0) vehicles w1 Hs)
        as (data & vs' & w' & E & Hc & Hk & Hr & Ha)
  end.
  exists data, vs', w'. split; [exact E|].
  cbn [clock Clock.tick Clock.readings Clock.calls] in Hc, Ha.
  split.
  { rewrite Hc. unfold advanced, Clock.tick.
    cbn [Clock.readings Clock.calls]. f_equal. lia. }
  split; [exact Hk|]. split; [exact Hr|].
  intros i v d Hv Hd. specialize (Ha i v d Hv Hd).
  unfold Clock.tick in Ha. cbn [Clock.readings Clock.calls] in Ha.
  replace (Clock.calls (clock w) + 1 + 2 * i)%nat
    with (S (Clock.calls (clock w)) + 2 * i)%nat by lia.
  exact Ha.
Qed.

Lemma kept_scheduled now vehicles vehicles' :
  Forall2 (kept now) vehicles vehicles' ->
  Forall scheduled vehicles -> Forall scheduled vehicles'.
Proof.
  induction 1 as [|v v' vs vs' (_ & _ & Hr & _) _ IH]; intros Hs;
    [constructor|].
  inversion Hs; subst. constructor; [|auto].
  unfold scheduled. rewrite Hr. assumption.
Qed.




End Generator.

Lemma Forall_map_In {A B : Type} (f : A -> B) (l : list A) :
  Forall (fun v => In (f v) (map f l)) l.
Proof.
  apply Forall_forall. intros x Hx. apply in_map, Hx.
Qed.

Lemma roster_texts vehicles :
  roster vehicles ->
  Forall (fun v => Xml.text_ok (vehicle_ref v) = true
                   /\ Xml.text_ok (block_ref v) = true
                   /\ scheduled v) vehicles.
Proof.
  intros (Hr & Hb & Hs).
  pose proof (Forall_map_In vehicle_ref vehicles) as H1.
  pose proof (Forall_map_In block_ref vehicles) as H2.
  rewrite Hr in H1. rewrite Hb in H2.
  rewrite Forall_forall in *. intros v Hv.
  specialize (H1 v Hv). specialize (H2 v Hv). specialize (Hs v Hv).
  unfold roster_refs, roster_blocks in *. cbn [In] in H1, H2.
  split; [|split; [|exact Hs]].
  - repeat (destruct H1 as [<-|H1]; [reflexivity|]). contradiction.
  - repeat (destruct H2 as [<-|H2]; [reflexivity|]). contradiction.
Qed.

Lemma kept_roster now vehicles vehicles' :
  Forall2 (kept now) vehicles vehicles' -> roster vehicles -> roster vehicles'.
Proof.
  intros Hk (Hr & Hb & Hs). unfold roster.
  rewrite <- (DashboardProps.Forall2_map_eq (kept now) vehicle_ref vehicle_ref
                _ _ ltac:(intros a b Hab; symmetry; exact (proj1 Hab)) Hk).
  rewrite <- (DashboardProps.Forall2_map_eq (kept now) block_ref block_ref
                _ _ ltac:(intros a b Hab; symmetry; exact (proj1 (proj2 Hab)))
                Hk).
  split; [exact Hr|]. split; [exact Hb|]. eapply kept_scheduled; eassumption.
Qed.

Lemma text_ok_strftime_Ymd now : Xml.text_ok (strftime_Ymd now) = true.
Proof.
  unfold strftime_Ymd.
  rewrite !LiveFacts.text_ok_app, text_ok_dec_nonneg, !LiveFacts.text_ok_zpad.
  reflexivity.
Qed.

Lemma reported_texts_ok round_ndigits now v d :
  scheduled v ->
  Xml.text_ok (vehicle_ref v) = true ->
  Xml.text_ok (block_ref v) = true ->
  reported round_ndigits now v d ->
  vehicle_texts_ok d = true.
Proof.
  intros Hs Hv Hb H. unfold reported in H. cbv zeta in H.
  destruct H as (E1 & E2 & E3 & E4 & E5 & E6 & E7 & E8 & E9 & E10 & _ & _ & _
                 & Ho & Ej & _).
  assert (Hj : Xml.text_ok (Bods.vehicle_journey_ref d) = true).
  { rewrite Ej, !LiveFacts.text_ok_app, Hv, text_ok_strftime_Ymd. reflexivity. }
  assert (Hocc : Xml.text_ok (Bods.opt_str (Bods.occupancy d)) = true).
  { unfold occupancies in Ho. cbn [In] in Ho.
    destruct Ho as [<-|[<-|[<-|[<-|[]]]]]; reflexivity. }
  unfold vehicle_texts_ok, vehicle_strings. cbn [forallb].
  rewrite Hj, Hocc, E1, E2, E3, E4, E5, E6, E7, E8, E9, E10, Hv, Hb.
  unfold scheduled, routes in Hs. cbn [In] in Hs.
  destruct Hs as [<-|[<-|[<-|[]]]]; reflexivity.
Qed.

Lemma filter_none {A : Type} (f : A -> string) (ref : string) (l : list A) :
  ~ In ref (map f l) -> filter (fun v => String.eqb (f v) ref) l = [].
Proof.
  induction l as [|a l IH]; intros Hn; [reflexivity|].
  cbn [filter]. destruct (String.eqb (f a) ref) eqn:E.
  - apply String.eqb_eq in E. exfalso. apply Hn. left. exact E.
  - apply IH. intros Hin. apply Hn. right. exact Hin.
Qed.

Lemma filter_unique {A : Type} (f : A -> string) (ref : string) (l : list A) :
  NoDup (map f l) -> In ref (map f l) ->
  exists d, filter (fun v => String.eqb (f v) ref) l = [d] /\ f d = ref.
Proof.
  induction l as [|a l IH]; intros Hnd Hin; [contradiction|].
  cbn [map] in Hnd. inversion Hnd as [|? ? Ha Hl]; subst.
  cbn [filter]. destruct (String.eqb (f a) ref) eqn:E.
  - apply String.eqb_eq in E. exists a. split; [|exact E].
    rewrite filter_none; [reflexivity|]. rewrite <- E. exact Ha.
  - destruct Hin as [Hin|Hin]; [apply String.eqb_neq in E; contradiction|].
    exact (IH Hl Hin).
Qed.

Lemma filter_all {A : Type} (p : A -> bool) (l : list A) :
  Forall (fun v => p v = true) l -> filter p l = l.
Proof.
  induction 1 as [|a l Ha _ IH]; [reflexivity|].
  cbn [filter]. rewrite Ha, IH. reflexivity.
Qed.

Section Feed.

Variable mod_int : Float.float -> Z -> Float.float.
Variable round_ndigits : Float.float -> Z -> Float.float.
Variable repr_finite : bool -> positive -> Z -> string.
Variable local_utcoffset : Z -> Z.
Hypothesis repr_legal : repr_ok repr_finite.


End Feed.

Section Selection.

Variable mod_int : Float.float -> Z -> Float.float.
Variable round_ndigits : Float.float -> Z -> Float.float.


End Selection.

Lemma sample_vehicles_scheduled : Forall scheduled sample_vehicles.
Proof.
  repeat constructor; unfold scheduled, routes; cbn [In route]; tauto.
Qed.

Lemma sample_roster_ok : roster sample_roster.
Proof.
  destruct (generate_vehicles_spec (range 10) sample_world)
    as (vs & w' & E & H1 & H2 & H3 & _).
  unfold sample_roster, VehicleDataGenerator. rewrite E. cbn [fst].
  split; [rewrite H1; reflexivity|]. split; [rewrite H2; reflexivity | exact H3].
Qed.






End GeneratorProps.

Module ItemIdentifierProps.

Import Notions Notions2 Notions3 XmlFacts PyFacts EncoderProps.

Lemma digit_code d :
  0 <= d < 10 -> Z.of_nat (nat_of_ascii (Py.digit d)) - 48 = d.
Proof.
  intros Hd.
  assert (E : In d [0; 1; 2; 3; 4; 5; 6; 7; 8; 9]) by (simpl; lia).
  simpl in E.
  repeat (destruct E as [<-|E]; [reflexivity|]). contradiction.
Qed.

Lemma digits_value_dec_fuel f : forall n acc,
  0 <= n < Py.pow10 f ->
  digits_value (Py.dec_fuel f n acc) 0 = digits_value acc n.
Proof.
  induction f as [|f IH]; intros n acc Hn.
  - cbn [Py.pow10] in Hn. assert (n = 0) by lia. subst n. reflexivity.
  - cbn [Py.dec_fuel]. cbn [Py.pow10] in Hn.
    pose proof (Z.mod_pos_bound n 10 ltac:(lia)) as Hm.
    destruct (n <? 10) eqn:E.
    + apply Z.ltb_lt in E. cbn [digits_value].
      rewrite digit_code by exact Hm.
      rewrite Z.mod_small by lia. reflexivity.
    + apply Z.ltb_ge in E. rewrite IH.
      * cbn [digits_value]. rewrite digit_code by exact Hm.
        f_equal. Z.div_mod_to_equations. lia.
      * Z.div_mod_to_equations. lia.
Qed.

Lemma dec_nonneg_inj a b :
  0 <= a -> 0 <= b -> Py.dec_nonneg a = Py.dec_nonneg b -> a = b.
Proof.
  intros Ha Hb E.
  pose proof (digits_value_dec_fuel _ a "" (conj Ha (dec_nonneg_fuel a Ha))) as Va.
  pose proof (digits_value_dec_fuel _ b "" (conj Hb (dec_nonneg_fuel b Hb))) as Vb.
  unfold Py.dec_nonneg in E. rewrite E in Va. rewrite Va in Vb. exact Vb.
Qed.

Lemma digits_only_dec_fuel f : forall n acc,
  digits_only acc = true -> digits_only (Py.dec_fuel f n acc) = true.
Proof.
  induction f as [|f IH]; intros n acc Hacc; [exact Hacc|].
  cbn [Py.dec_fuel].
  assert (H : digits_only (String (Py.digit (n mod 10)) acc) = true)
    by (cbn [digits_only]; rewrite is_digit_mod, Hacc; reflexivity).
  destruct (n <? 10); [exact H | apply IH, H].
Qed.

(** Two strings of digits followed by an underscore: the digits are
    determined by the whole. *)
Lemma digits_prefix a : forall b x y,
  digits_only a = true -> digits_only b = true ->
  (a ++ String "_" x)%string = (b ++ String "_" y)%string -> a = b.
Proof.
  induction a as [|c a IH]; intros [|c' b] x y Ha Hb E; cbn [append] in E.
  - reflexivity.
  - injection E as <- _. cbn [digits_only] in Hb. discriminate Hb.
  - injection E as -> _. cbn [digits_only] in Ha. discriminate Ha.
  - injection E as <- E. cbn [digits_only] in Ha, Hb.
    apply andb_true_iff in Ha as [_ Ha]. apply andb_true_iff in Hb as [_ Hb].
    f_equal. exact (IH _ _ _ Ha Hb E).
Qed.

Lemma item_id_inj k1 k2 (t1 t2 : string) :
  0 <= k1 -> 0 <= k2 ->
  (Py.str_int k1 ++ String "_" t1)%string
  = (Py.str_int k2 ++ String "_" t2)%string ->
  k1 = k2.
Proof.
  intros H1 H2 E. unfold Py.str_int in E.
  destruct (k1 <? 0) eqn:E1; [apply Z.ltb_lt in E1; lia|].
  destruct (k2 <? 0) eqn:E2; [apply Z.ltb_lt in E2; lia|].
  apply dec_nonneg_inj; try assumption.
  eapply digits_prefix; [| |exact E];
    apply digits_only_dec_fuel; reflexivity.
Qed.

Section Bods.

Variable repr_finite : bool -> positive -> Z -> string.
Variable local_utcoffset : Z -> Z.

Lemma activity_item_identifier v (item_id : string) :
  Py.truthy_str item_id = true ->
  Xml.elements_named "ItemIdentifier"
    (Bods.create_vehicle_activity_xml repr_finite v item_id)
  = [Xml.leaf "ItemIdentifier" item_id].
Proof.
  intros Ht. unfold Bods.create_vehicle_activity_xml. rewrite Ht.
  destruct (Bods.origin_aimed_departure_time v),
    (Bods.destination_aimed_arrival_time v), (Bods.velocity v),
    (Py.truthy_opt_str (Bods.destination_name v)),
    (Py.truthy_opt_str (Bods.occupancy v));
    reflexivity.
Qed.

(** The identifiers of the activities built from index [i] on: one per
    vehicle, each with a number above [i], no two the same. *)
Lemma activities_item_identifiers vehicles : forall clk i,
  0 <= i ->
  let ids :=
    map Xml.text
      (flat_map (fun a => filter (fun c => String.eqb (Xml.tag c) "ItemIdentifier")
                            (Xml.descendants a))
         (Bods.vehicle_activities repr_finite local_utcoffset clk i vehicles)) in
  List.length ids = List.length vehicles
  /\ NoDup ids
  /\ Forall (fun id => exists k t,
                 i < k /\ id = Some ("MIDL_" ++ Py.str_int k ++ "_" ++ t)%string)
       ids.
Proof.
  induction vehicles as [|v vs IH]; intros clk i Hi ids; subst ids.
  - cbn. repeat split; constructor.
  - cbn [Bods.vehicle_activities Clock.utcnow flat_map].
    match goal with
    | |- context [Bods.create_vehicle_activity_xml repr_finite v ?id] =>
        pose proof (activity_item_identifier v id eq_refl) as Ha
    end.
    unfold Xml.elements_named in Ha. rewrite Ha. clear Ha.
    cbn [app map Xml.text Xml.leaf].
    destruct (IH (Clock.tick clk) (i + 1) ltac:(lia)) as (Hl & Hn & Hf).
    cbv zeta in Hl, Hn, Hf.
    split; [cbn [List.length]; rewrite Hl; reflexivity|].
    split.
    + constructor; [|exact Hn].
      intros Hin. rewrite Forall_forall in Hf.
      destruct (Hf _ Hin) as (k & t & Hk & E). injection E as E.
      apply item_id_inj in E; lia.
    + constructor.
      * eexists (i + 1), _. split; [lia | reflexivity].
      * eapply Forall_impl; [|exact Hf].
        intros id (k & t & Hk & E). exists k, t. split; [lia | exact E].
Qed.

(** X26: in a document of the synthetic feed every activity has an
    [ItemIdentifier] and no two activities have the same one, whatever
    the clock reads (also when all are built within the same second). *)
Theorem item_identifiers_distinct clk vehicles producer_ref :
  let doc :=
    Bods.siri_tree repr_finite local_utcoffset clk vehicles producer_ref in
  List.length (texts_of "ItemIdentifier" doc) = List.length vehicles
  /\ NoDup (texts_of "ItemIdentifier" doc)
  /\ Forall (fun id => id <> None) (texts_of "ItemIdentifier" doc).
Proof.
  intros doc. subst doc. unfold texts_of.
  rewrite siri_tree_named by reflexivity.
  destruct (activities_item_identifiers vehicles
              (Clock.tick (Clock.tick (Clock.tick clk))) 0 ltac:(lia))
    as (Hl & Hn & Hf).
  cbv zeta in Hl, Hn, Hf.
  split; [exact Hl|]. split; [exact Hn|].
  eapply Forall_impl; [|exact Hf].
  intros id (k & t & _ & ->). discriminate.
Qed.

End Bods.

End ItemIdentifierProps.

Module CommandProps.

Import Notions Notions2 Notions3 Datetime Maint CleanupTracks MaintProps
  CleanupProps.

Lemma selected_positions_query cutoff vehicle_ref operator_ref r :
  selected (positions_query cutoff vehicle_ref operator_ref) r = true
  <-> recorded r < instant cutoff
      /\ (Py.truthy_opt_str vehicle_ref = true -> Live.vehicle_ref r = vehicle_ref)
      /\ (Py.truthy_opt_str operator_ref = true ->
          Live.operator_ref r = operator_ref).
Proof.
  unfold selected, positions_query, recorded.
  rewrite !forallb_app, !andb_true_iff.
  cbn [forallb cond_holds]. rewrite andb_true_r, Z.ltb_lt.
  assert (R : forall (o : option string) (f : string -> Cond)
                (x : option string),
             (forall s, cond_holds (f s) r = opt_eqb x s) ->
             forallb (fun c => cond_holds c r)
               (if Py.truthy_opt_str o then [f (Bods.opt_str o)] else [])
             = true
             <-> (Py.truthy_opt_str o = true -> x = o)).
  { intros o f x Hf. destruct (Py.truthy_opt_str o) eqn:Et;
      cbn [forallb]; [|split; [discriminate | reflexivity]].
    rewrite andb_true_r, Hf, opt_eqb_true.
    rewrite (truthy_opt_str_some o Et) at 2. tauto. }
  rewrite (R vehicle_ref VehicleRefIs (Live.vehicle_ref r)) by reflexivity.
  rewrite (R operator_ref OperatorRefIs (Live.operator_ref r)) by reflexivity.
  tauto.
Qed.

Lemma sessions_query_spec cutoff vehicle_ref s :
  sessions_query cutoff vehicle_ref s = true
  <-> started s < instant cutoff
      /\ (Py.truthy_opt_str vehicle_ref = true ->
          Some (session_vehicle_ref s) = vehicle_ref).
Proof.
  unfold sessions_query, started. rewrite andb_true_iff, Z.ltb_lt.
  destruct (Py.truthy_opt_str vehicle_ref) eqn:Et.
  - rewrite String.eqb_eq. rewrite (truthy_opt_str_some vehicle_ref Et) at 2.
    split; intros [H1 H2]; (split; [exact H1|]).
    + intros _. f_equal. exact H2.
    + specialize (H2 eq_refl). injection H2 as H2. exact H2.
  - split; intros [H1 _]; (split; [exact H1|]); [discriminate | reflexivity].
Qed.

(** X27: the command leaves the database as it is whenever it runs with
    [--dry-run], and whenever it runs without [--force] and the typed
    answer is not [yes] (in any case of letters) or the input has
    ended. *)
Theorem cleanup_needs_confirmation db clk typed o :
  dry_run o = true \/ ~ confirmed typed o ->
  snd (handle db clk typed o) = db.
Proof.
  intros H. unfold handle.
  destruct (minus_days _ (days o)) as [cutoff|]; [|reflexivity].
  unfold connect. destruct (Live.connect_fails (store db)); cbn [bind];
    [reflexivity|].
  unfold execute. destruct (Live.execute_fails (store db)); cbn [bind];
    [reflexivity|].
  destruct (_ && _)%nat; [reflexivity|].
  destruct (dry_run o) eqn:Ed.
  - rewrite andb_false_r. reflexivity.
  - destruct H as [H|H]; [discriminate H|].
    destruct (force o) eqn:Ef; [exfalso; apply H; left; exact Ef|].
    cbn [negb andb].
    destruct typed as [confirm|]; [|reflexivity].
    destruct (String.eqb (lower confirm) "yes") eqn:Ey; [|reflexivity].
    exfalso. apply H. right. exists confirm. split; [reflexivity|].
    apply String.eqb_eq, Ey.
Qed.

(** X28: run without [--dry-run] and told to go on, on a database that
    answers, the command returns, and afterwards the positions are those
    not recorded before the cutoff (the clock reading minus the days) or
    not of the given vehicle and operator, and the sessions are those not
    started before that same cutoff or not of the given vehicle. *)
Theorem cleanup_effect db clk typed o cutoff :
  dry_run o = false -> confirmed typed o -> reachable db ->
  minus_days (fst (Clock.now_utc clk)) (days o) = Return cutoff ->
  exists out db',
    handle db clk typed o = (Returned, out, db')
    /\ instant cutoff
       = Clock.readings clk (Clock.calls clk) - days o * usec_per_day
    /\ (forall r,
          In r (positions db') <->
          In r (positions db)
          /\ ~ (recorded r < instant cutoff
                /\ (Py.truthy_opt_str (vehicle o) = true ->
                    Live.vehicle_ref r = vehicle o)
                /\ (Py.truthy_opt_str (operator o) = true ->
                    Live.operator_ref r = operator o)))
    /\ (forall s,
          In s (sessions db') <->
          In s (sessions db)
          /\ ~ (started s < instant cutoff
                /\ (Py.truthy_opt_str (vehicle o) = true ->
                    Some (session_vehicle_ref s) = vehicle o))).
Proof.
  intros Hd Hc Hr Hm.
  assert (Hcut : instant cutoff
                 = Clock.readings clk (Clock.calls clk) - days o * usec_per_day).
  { apply minus_days_instant in Hm. rewrite Hm.
    cbn [Clock.now_utc fst instant wall tzinfo]. lia. }
  assert (Hpos : forall r,
            In r (filter (fun r => negb (selected (positions_query cutoff
                                             (vehicle o) (operator o)) r))
                    (positions db)) <->
            In r (positions db)
            /\ ~ (recorded r < instant cutoff
                  /\ (Py.truthy_opt_str (vehicle o) = true ->
                      Live.vehicle_ref r = vehicle o)
                  /\ (Py.truthy_opt_str (operator o) = true ->
                      Live.operator_ref r = operator o))).
  { intros r. rewrite filter_In, negb_true_iff, <- not_true_iff_false,
      selected_positions_query. tauto. }
  assert (Hses : forall s,
            In s (filter (fun s => negb (sessions_query cutoff (vehicle o) s))
                    (sessions db)) <->
            In s (sessions db)
            /\ ~ (started s < instant cutoff
                  /\ (Py.truthy_opt_str (vehicle o) = true ->
                      Some (session_vehicle_ref s) = vehicle o))).
  { intros s. rewrite filter_In, negb_true_iff, <- not_true_iff_false,
      sessions_query_spec. tauto. }
  unfold handle. rewrite Hm.
  rewrite (connect_reachable db Hr). cbn [bind].
  rewrite !(execute_reachable db _ Hr). cbn [bind].
  destruct (_ && _)%nat eqn:Ez.
  - (* nothing is selected: the database is what the deletion would leave *)
    apply andb_true_iff in Ez as [Ep Es].
    apply Nat.eqb_eq in Ep, Es.
    apply length_zero_iff_nil in Ep, Es.
    do 2 eexists. split; [reflexivity|]. split; [exact Hcut|].
    split.
    + intros r. rewrite <- Hpos, filter_In. split; [|tauto].
      intros Hin. split; [exact Hin|].
      apply negb_true_iff, not_true_is_false. intros Hsel.
      assert (In r (filter (selected (positions_query cutoff (vehicle o)
                                        (operator o))) (positions db)))
        by (apply filter_In; split; assumption).
      unfold positions in *. rewrite Ep in *. contradiction.
    + intros s. rewrite <- Hses, filter_In. split; [|tauto].
      intros Hin. split; [exact Hin|].
      apply negb_true_iff, not_true_is_false. intros Hsel.
      assert (In s (filter (sessions_query cutoff (vehicle o)) (sessions db)))
        by (apply filter_In; split; assumption).
      rewrite Es in *. contradiction.
  - rewrite Hd. cbn [negb]. rewrite andb_true_r.
    assert (Hgo : (if negb (force o)
                   then match typed with
                        | Some confirm => negb (String.eqb (lower confirm) "yes")
                        | None => true
                        end
                   else false) = false).
    { destruct Hc as [Hf|(confirm & -> & Hy)]; [rewrite Hf; reflexivity|].
      rewrite Hy. destruct (force o); reflexivity. }
    unfold delete_positions. unfold positions in Hpos.
    destruct (force o); cbn [negb] in *.
    + do 2 eexists. split; [reflexivity|]. split; [exact Hcut|].
      unfold positions. cbn [with_table store sessions Live.table].
      split; assumption.
    + destruct typed as [confirm|]; [|discriminate Hgo].
      rewrite Hgo.
      do 2 eexists. split; [reflexivity|]. split; [exact Hcut|].
      unfold positions. cbn [with_table store sessions Live.table].
      split; assumption.
Qed.

Lemma cleanup_needs_confirmation_witness :
  let o := mkOptions 30 None None false false in
  ~ confirmed (Some "no") o
  /\ snd (handle sample_db sample_clock (Some "no") o) = sample_db.
Proof.
  intros o.
  assert (H : ~ confirmed (Some "no") o).
  { intros [Hf|(s & Hs & Hy)]; [discriminate Hf|].
    injection Hs as <-. discriminate Hy. }
  split; [exact H|].
  exact (cleanup_needs_confirmation sample_db sample_clock (Some "no") o
           (or_intror H)).
Defined.

Lemma cleanup_effect_witness :
  let o := mkOptions 30 None None false false in
  confirmed (Some "YES") o
  /\ reachable sample_db
  /\ exists out db',
       handle sample_db sample_clock (Some "YES") o = (Returned, out, db')
       /\ List.length (positions db') = 2%nat
       /\ List.length (sessions db') = 1%nat.
Proof.
  intros o.
  assert (Hc : confirmed (Some "YES") o)
    by (right; exists "YES"; split; reflexivity).
  split; [exact Hc|]. split; [exact sample_db_reachable|].
  destruct (minus_days (fst (Clock.now_utc sample_clock)) (days o))
    as [cutoff|] eqn:Hm; [|vm_compute in Hm; discriminate Hm].
  destruct (cleanup_effect sample_db sample_clock (Some "YES") o cutoff
              eq_refl Hc sample_db_reachable Hm)
    as (out & db' & E & _ & _ & _).
  exists out, db'. split; [exact E|].
  vm_compute in E. injection E as _ <-. split; reflexivity.
Defined.

End CommandProps.

Module TrackingProps.

Import Notions Notions2 Notions3 Datetime Maint Tracking.

Lemma active_of_ended u now l : active_of u (map (end_active u now) l) = [].
Proof.
  induction l as [|s l IH]; [reflexivity|].
  unfold active_of in *. cbn [map filter]. rewrite IH.
  unfold end_active.
  destruct (user s =? u) eqn:Eu, (is_active s) eqn:Ea; cbn [andb];
    cbn [user is_active]; rewrite ?Eu, ?Ea; reflexivity.
Qed.

Lemma of_others_ended u now l :
  of_others u (map (end_active u now) l) = of_others u l.
Proof.
  induction l as [|s l IH]; [reflexivity|].
  unfold of_others in *. cbn [map filter]. rewrite IH.
  unfold end_active.
  destruct (user s =? u) eqn:Eu, (is_active s) eqn:Ea; cbn [andb];
    cbn [user]; rewrite ?Eu; reflexivity.
Qed.

Section Views.

Variable py_str : json -> string.

(** X29: when [start_tracking] answers 200, the user has exactly one
    active session, the new one, started at the second clock reading of
    the call; the sessions of the other users are as before; and every
    earlier session of the user is there inactive, ended at the first
    clock reading if it was active and unchanged if it was not. *)
Theorem start_tracking_single_active_session st clk pk u body sid msg st' :
  start_tracking py_str st clk pk u body = (Started sid msg, st') ->
  sid = pk
  /\ (exists v,
        active_of u (rows st')
        = [mkTrackingSession pk u v
             (mk (Clock.readings clk (S (Clock.calls clk))) (Some 0)) None true])
  /\ of_others u (rows st') = of_others u (rows st)
  /\ List.length (rows st') = S (List.length (rows st))
  /\ forall s, In s (rows st) -> user s = u ->
       exists s',
         In s' (rows st') /\ id s' = id s /\ is_active s' = false
         /\ (is_active s = true
             -> end_time s'
                = Some (mk (Clock.readings clk (Clock.calls clk)) (Some 0)))
         /\ (is_active s = false -> s' = s).
Proof.
  unfold start_tracking.
  destruct body as [data|]; [|intros H; discriminate H].
  destruct (get data "vehicle_ref" JNull) as [vehicle_ref|]; cbn [bind];
    [|intros H; discriminate H].
  destruct (get data "line_ref" (JStr "UNKNOWN")) as [line_ref|]; cbn [bind];
    [|intros H; discriminate H].
  destruct (truthy vehicle_ref); cbn [negb]; [|intros H; discriminate H].
  destruct (truthy line_ref); cbn [negb]; [|intros H; discriminate H].
  cbn [Clock.now_utc Clock.tick Clock.readings Clock.calls].
  unfold update_active, create. cbn [unreachable rows journey_config].
  destruct (unreachable st); [intros H; discriminate H|].
  destruct (50 <? String.length (str py_str vehicle_ref))%nat;
    [intros H; discriminate H|].
  repeat match goal with
         | |- context [get data ?k ?d] =>
             destruct (get data k d); cbn [bind];
             [|intros H; discriminate H]
         end.
  intros H. injection H as <- _ <-. cbn [id rows].
  set (now1 := mk (Clock.readings clk (Clock.calls clk)) (Some 0)).
  set (now2 := mk (Clock.readings clk (S (Clock.calls clk))) (Some 0)).
  split; [reflexivity|].
  split.
  { exists (str py_str vehicle_ref). unfold active_of.
    rewrite filter_app. fold (active_of u (map (end_active u now1) (rows st))).
    rewrite active_of_ended. cbn [filter app user is_active].
    rewrite Z.eqb_refl. reflexivity. }
  split.
  { unfold of_others. rewrite filter_app.
    fold (of_others u (map (end_active u now1) (rows st))).
    rewrite of_others_ended. cbn [filter user]. rewrite Z.eqb_refl.
    cbn [negb]. apply app_nil_r. }
  split.
  { rewrite length_app, length_map. cbn [List.length]. lia. }
  intros s Hs Hu. exists (end_active u now1 s).
  split; [apply in_or_app; left; apply in_map, Hs|].
  unfold end_active. apply Z.eqb_eq in Hu. rewrite Hu.
  destruct (is_active s) eqn:Ea; cbn [andb id is_active end_time].
  - repeat split; try reflexivity. discriminate.
  - repeat split; try assumption; try reflexivity. discriminate.
Qed.

(** X30: for a body that is an object, [start_tracking] answers 400
    exactly when [vehicle_ref] is absent or falsy (null, empty, zero,
    false) or [line_ref] is present and falsy; an absent [line_ref] is
    not refused; and a 400 leaves the sessions and the journey
    configuration as they were. *)
Theorem start_tracking_validation st clk pk u l :
  let out := start_tracking py_str st clk pk u (Some (JObj l)) in
  ((exists e, fst out = BadRequest e)
   <-> absent_or_falsy "vehicle_ref" l
       \/ exists v, lookup "line_ref" l = Some v /\ truthy v = false)
  /\ (forall e, fst out = BadRequest e -> snd out = st).
Proof.
  intros out. subst out. unfold start_tracking, get, absent_or_falsy.
  cbn [bind].
  destruct (lookup "vehicle_ref" l) as [vehicle_ref|] eqn:Ev.
  2:{ cbn [truthy negb fst snd]. split; [|reflexivity].
      split; [intros _; left; exact I | intros _; eexists; reflexivity]. }
  destruct (truthy vehicle_ref) eqn:Tv; cbn [negb fst snd].
  2:{ split; [|reflexivity].
      split; [intros _; left; reflexivity | intros _; eexists; reflexivity]. }
  assert (Hrest : forall line_ref,
            truthy line_ref = true ->
            forall e,
              fst (let (now1, clk1) := Clock.now_utc clk in
                   match update_active st u now1 with
                   | Raise _ => (ServerError, st)
                   | Return st1 =>
                       let (now2, _) := Clock.now_utc clk1 in
                       match create py_str st1 pk u vehicle_ref now2 with
                       | Raise _ => (ServerError, st1)
                       | Return (session, st2) =>
                           (Started (id session)
                              ("Started tracking vehicle "
                               ++ str py_str vehicle_ref
                               ++ " on line " ++ str py_str line_ref),
                            mkState (rows st2) (unreachable st2)
                              (Some
                                 (mkJourneyConfig line_ref
                                    match lookup "direction_ref" l with
                                    | Some v => v
                                    | None => JStr "outbound"
                                    end
                                    match lookup "operator_ref" l with
                                    | Some v => v
                                    | None => JStr "UNKNOWN"
                                    end
                                    match lookup "block_ref" l with
                                    | Some v => v
                                    | None => JStr ""
                                    end
                                    match lookup "vehicle_journey_ref" l with
                                    | Some v => v
                                    | None =>
                                        JStr ("journey_" ++ str py_str vehicle_ref)
                                    end
                                    match lookup "origin_ref" l with
                                    | Some v => v
                                    | None => JStr ""
                                    end
                                    match lookup "origin_name" l with
                                    | Some v => v
                                    | None => JStr ""
                                    end
                                    match lookup "destination_ref" l with
                                    | Some v => v
                                    | None => JStr ""
                                    end
                                    match lookup "destination_name" l with
                                    | Some v => v
                                    | None => JStr ""
                                    end
                                    match lookup "occupancy" l with
                                    | Some v => v
                                    | None => JNull
                                    end)))
                       end
                   end) <> BadRequest e).
  { intros line_ref _ e. cbn [Clock.now_utc].
    destruct (update_active st u _) as [st1|]; [|discriminate].
    destruct (create py_str st1 pk u vehicle_ref _) as [[session st2]|];
      discriminate. }
  destruct (lookup "line_ref" l) as [line_ref|] eqn:El.
  - destruct (truthy line_ref) eqn:Tl; cbn [negb].
    + split.
      * split.
        -- intros (e & He). exfalso. exact (Hrest line_ref Tl e He).
        -- intros [H|(v & Hv & Hf)]; [congruence|].
           injection Hv as <-. congruence.
      * intros e He. exfalso. exact (Hrest line_ref Tl e He).
    + cbn [fst snd]. split; [|reflexivity].
      split; [|intros _; eexists; reflexivity].
      intros _. right. exists line_ref. split; [reflexivity | exact Tl].
  - cbn [truthy Py.truthy_str negb].
    split.
    + split.
      * intros (e & He). exfalso. exact (Hrest (JStr "UNKNOWN") eq_refl e He).
      * intros [H|(v & Hv & _)]; [congruence | discriminate Hv].
    + intros e He. exfalso. exact (Hrest (JStr "UNKNOWN") eq_refl e He).
Qed.

End Views.

Lemma start_tracking_single_active_session_witness :
  let body := Some (JObj [("vehicle_ref", JStr "V9")]) in
  let out := start_tracking no_str sample_sessions sample_clock 4 1 body in
  fst out = Started 4 "Started tracking vehicle V9 on line UNKNOWN"
  /\ List.length (active_of 1 (rows (snd out))) = 1%nat
  /\ of_others 1 (rows (snd out)) = of_others 1 (rows sample_sessions).
Proof.
  intros body out.
  assert (E : out = (Started 4 "Started tracking vehicle V9 on line UNKNOWN",
                     snd out)) by (vm_compute; reflexivity).
  destruct (start_tracking_single_active_session no_str sample_sessions
              sample_clock 4 1 body 4 _ (snd out) E)
    as (_ & (v & Ha) & Ho & _).
  split; [rewrite E; reflexivity|].
  split; [rewrite Ha; reflexivity | exact Ho].
Defined.

End TrackingProps.
